(** * STB soak-test orchestration: a shallow embedding of [stb_menu.py]

    The Python program drives an Android set-top box through the [adb]
    command-line bridge.  Everything it does is a sequence of blocking
    calls on one thread: [subprocess.run], [time.sleep], [time.time],
    [input], [print] and [sys.exit].  The embedding below threads a
    [World] through the code: the world holds the clock, the answers the
    environment will give to the next external calls, the trace of what
    the program did so far, and the fields of the [STBTester] object.

    Modelling decisions, all of them about the environment and none about
    the control flow of the program:
    - the clock counts whole seconds ([Z]); [time.sleep n] advances it by
      [n], an external process advances it by its latency, everything
      else is instantaneous;
    - the answers of [adb] are an arbitrary stream of return codes,
      outputs and latencies; the operator's keyboard is an arbitrary
      stream of lines (or end of input);
    - [f_log] and [print] are recorded as trace events; the texts of the
      log lines are kept as a datatype with one constructor per
      f-string of the source; screen banners are recorded by their title;
    - [while] loops take fuel; termination is proved where it is claimed. *)

From Stdlib Require Import ZArith NArith List String Ascii Bool Lia.
From Stdlib Require Import DecimalString.
Import ListNotations.

Local Open Scope string_scope.
Local Open Scope list_scope.
Local Open Scope Z_scope.

(* ===================================================================== *)
(** ** Python string operations used by the program *)
(* ===================================================================== *)

Module PyStr.

(** [str.isspace] on the ASCII range: TAB, LF, VT, FF, CR, FS, GS, RS,
    US and SPACE. *)
Definition is_space (c : ascii) : bool :=
  let n := nat_of_ascii c in
  ((9 <=? n)%nat && (n <=? 13)%nat) || ((28 <=? n)%nat && (n <=? 32)%nat).

Fixpoint lstrip (s : string) : string :=
  match s with
  | EmptyString => EmptyString
  | String c r => if is_space c then lstrip r else s
  end.

Fixpoint rev_acc (s acc : string) : string :=
  match s with
  | EmptyString => acc
  | String c r => rev_acc r (String c acc)
  end.

Definition rev (s : string) : string := rev_acc s EmptyString.

Definition rstrip (s : string) : string := rev (lstrip (rev s)).

(** [s.strip()] *)
Definition strip (s : string) : string := rstrip (lstrip s).

(** [s.replace(" ", "_")] *)
Fixpoint replace_space (s : string) : string :=
  match s with
  | EmptyString => EmptyString
  | String c r =>
      String (if Ascii.eqb c " "%char then "_"%char else c) (replace_space r)
  end.

Definition lower_char (c : ascii) : ascii :=
  let n := nat_of_ascii c in
  if ((65 <=? n)%nat && (n <=? 90)%nat)%bool then ascii_of_nat (n + 32) else c.

(** [s.lower()] on ASCII text *)
Fixpoint lower (s : string) : string :=
  match s with
  | EmptyString => EmptyString
  | String c r => String (lower_char c) (lower r)
  end.

Fixpoint starts_with (p s : string) : bool :=
  match p, s with
  | EmptyString, _ => true
  | String a p', String b s' => Ascii.eqb a b && starts_with p' s'
  | String _ _, EmptyString => false
  end.

(** [p in s] *)
Fixpoint contains (p s : string) : bool :=
  starts_with p s ||
  match s with
  | EmptyString => false
  | String _ s' => contains p s'
  end.

(** [len(s)] *)
Definition len (s : string) : Z := Z.of_nat (String.length s).

(** Truthiness of a string: [not s] is [is_empty s]. *)
Definition is_empty (s : string) : bool :=
  match s with EmptyString => true | _ => false end.

Definition digit_val (c : ascii) : option Z :=
  let n := nat_of_ascii c in
  if ((48 <=? n)%nat && (n <=? 57)%nat)%bool then Some (Z.of_nat (n - 48)) else None.

(** The digits of an integer literal: decimal digits, with single
    underscores allowed between two digits.  [seen] tells whether the
    previous character was a digit. *)
Fixpoint int_digits (s : string) (acc : Z) (seen : bool) : option Z :=
  match s with
  | EmptyString => if seen then Some acc else None
  | String c r =>
      match digit_val c with
      | Some d => int_digits r (10 * acc + d) true
      | None =>
          if (Ascii.eqb c "_"%char && seen)%bool then
            match r with
            | EmptyString => None
            | String c' _ =>
                match digit_val c' with
                | Some _ => int_digits r acc false
                | None => None
                end
            end
          else None
      end
  end.

(** [int(s)]: [None] stands for the [ValueError] "invalid literal for
    int() with base 10".  Surrounding white space is ignored, one sign
    is allowed.  (The interpreter's limit on the number of digits of a
    literal is left out.) *)
Definition int (s : string) : option Z :=
  match strip s with
  | String "+"%char r => int_digits r 0 false
  | String "-"%char r => option_map Z.opp (int_digits r 0 false)
  | r => int_digits r 0 false
  end.

(** [str(n)] for an integer. *)
Definition of_Z (z : Z) : string := NilZero.string_of_int (Z.to_int z).

End PyStr.

(* ===================================================================== *)
(** ** The world: clock, environment, trace and the tester object *)
(* ===================================================================== *)

(** What [subprocess.run] finds when the child process is over: it
    completed with a return code and its two output streams, or it could
    not be started at all ([OSError], e.g. no [adb] binary). *)
Inductive ProcResult :=
| Completed (returncode : Z) (stdout stderr : string)
| NotStarted.

(** One answer of the environment to a [subprocess.run]: how long the
    child takes and what comes out of it. *)
Record ProcResp := { p_dt : N; p_res : ProcResult }.

(** The exceptions the modelled code can meet.  All of them derive from
    [Exception]; [SystemExit] does not and is a separate outcome below. *)
Inductive Exn :=
| CalledProcessError (stderr : string)
| TimeoutExpired
| OSError
| EOFError
| ValueError (msg : string).

(** [isinstance(e, subprocess.SubprocessError)] *)
Definition is_SubprocessError (e : Exn) : bool :=
  match e with CalledProcessError _ | TimeoutExpired => true | _ => false end.

Definition is_CalledProcessError (e : Exn) : bool :=
  match e with CalledProcessError _ => true | _ => false end.

Definition is_ValueError (e : Exn) : bool :=
  match e with ValueError _ => true | _ => false end.

(** [isinstance(e, Exception)] *)
Definition is_Exception (e : Exn) : bool := true.

(** The lines written through [f_log], one constructor per f-string. *)
Inductive LogMsg :=
| LConnected (output : string)          (* Successfully connected: {output} *)
| LConnectFailed (output : string)      (* Failed to connect: {output} *)
| LConnectError (stderr : string)       (* Connection error: {stderr} *)
| LCec (line : string)                  (* the lines of f_disable_cec *)
| LStandbyWaiting                       (* STB is in STANDBY. Waiting for wake-up... *)
| LStandbyDeadline (duration : Z)       (* Maximum time of {duration} reached during standby. *)
| LStandbyReturned                      (* STB returned from standby. *)
| LKeySent (key_name : string)          (* {key_name} sent successfully *)
| LKeyError (key_name : string) (e : Exn) (* Error sending {key_name}: {e} *)
| LFlowSent                             (* KEY_APP sent successfully *)
| LFlowError (e : Exn)                  (* Error opening APP: {e} *)
| LAppOpened (description : string)     (* {description} opened successfully *)
| LAppError (description : string) (e : Exn) (* Error opening {description}: {e} *)
| LReconnectAttempt                     (* Attempting device reconnection... *)
| LReconnectAttemptP1                   (* Attempting device reconnection (Project 1)... *)
| LReconnectDeadline (duration : Z)     (* Maximum execution time reached = {duration} during reconnection. *)
| LReconnectDeadlineP1                  (* Maximum execution time reached during reconnection. *)
| LReconnectOk                          (* Reconnection successful! Restarting command sequence... *)
| LReconnectOkP1                        (* Reconnection successful! Restarting Project 1 sequence... *)
| LReinitFailed                         (* Failed to resend commands after reconnection. *)
| LReconnectRetry                       (* Reconnection not yet possible. Trying again in 5s... *)
| LTestStart (test : string)            (* === STARTING ... TEST === *)
| LInitialBegin                         (* === EXECUTING INITIAL SEQUENCE === *)
| LInitialDone                          (* === INITIAL SEQUENCE COMPLETED === *)
| LInitialReady                         (* === INITIAL SEQUENCE: Ready to start ... === *)
| LRestart                              (* RECONNECTION DETECTED - RESTARTING TEST FROM BEGINNING *)
| LLoopConcluded (loop : Z)             (* LOOP {loop} CONCLUDED *)
| LFatal (e : Exn)                      (* Execution terminated by fatal error: {e} *)
| LTestCompleted (test : string) (duration : Z). (* ... Test of {duration} seconds completed. *)

(** The framed blocks written with [print], by their title line. *)
Inductive Banner :=
| BLogNameTooLong (length : Z)
| BLogSetupError
| BDevices (adb_output : option string) (* what f_list_connected_devices prints *)
| BConnectionFailed (target output : string)
| BAdbCommandError (stderr : string)
| BDurationMenu
| BInputError (msg : string)
| BConnectionError
| BScreenRequired.

Inductive Event :=
| EProc (cmd : list string) (timeout : option Z) (r : ProcResp) (* subprocess.run *)
| ESleep (secs : Z)                                            (* time.sleep *)
| ELog (m : LogMsg)                                            (* self.f_log *)
| EPrint (b : Banner)                                          (* print *)
| EInput (prompt : string) (line : option string)              (* input *)
| EClear.                                                      (* os.system("clear") *)

Record World := mkWorld {
  clock : Z;                          (* time.time() *)
  procs : nat -> ProcResp;            (* the answers adb will give *)
  nproc : nat;                        (* how many were consumed *)
  inputs : nat -> option string;      (* the lines the operator will type *)
  ninput : nat;
  sty : bool;                         (* os.getenv("STY") is set and not empty *)
  trace : list (Z * Event);           (* what happened, oldest first *)
  (* the fields of the STBTester object *)
  self_device : option string;
  self_ip : string;
  self_port : Z;
  self_log_path : option (string * Z);  (* (log_name, time of the stamp) *)
  error_already_shown : bool
}.

Definition with_clock (w : World) (t : Z) : World :=
  mkWorld t (procs w) (nproc w) (inputs w) (ninput w) (sty w) (trace w)
          (self_device w) (self_ip w) (self_port w) (self_log_path w)
          (error_already_shown w).

Definition with_nproc (w : World) (n : nat) : World :=
  mkWorld (clock w) (procs w) n (inputs w) (ninput w) (sty w) (trace w)
          (self_device w) (self_ip w) (self_port w) (self_log_path w)
          (error_already_shown w).

Definition with_ninput (w : World) (n : nat) : World :=
  mkWorld (clock w) (procs w) (nproc w) (inputs w) n (sty w) (trace w)
          (self_device w) (self_ip w) (self_port w) (self_log_path w)
          (error_already_shown w).

Definition with_trace (w : World) (t : list (Z * Event)) : World :=
  mkWorld (clock w) (procs w) (nproc w) (inputs w) (ninput w) (sty w) t
          (self_device w) (self_ip w) (self_port w) (self_log_path w)
          (error_already_shown w).

Definition with_device (w : World) (d : option string) : World :=
  mkWorld (clock w) (procs w) (nproc w) (inputs w) (ninput w) (sty w) (trace w)
          d (self_ip w) (self_port w) (self_log_path w)
          (error_already_shown w).

Definition with_ip (w : World) (i : string) : World :=
  mkWorld (clock w) (procs w) (nproc w) (inputs w) (ninput w) (sty w) (trace w)
          (self_device w) i (self_port w) (self_log_path w)
          (error_already_shown w).

Definition with_port (w : World) (p : Z) : World :=
  mkWorld (clock w) (procs w) (nproc w) (inputs w) (ninput w) (sty w) (trace w)
          (self_device w) (self_ip w) p (self_log_path w)
          (error_already_shown w).

Definition with_log_path (w : World) (p : option (string * Z)) : World :=
  mkWorld (clock w) (procs w) (nproc w) (inputs w) (ninput w) (sty w) (trace w)
          (self_device w) (self_ip w) (self_port w) p
          (error_already_shown w).

Definition with_error_shown (w : World) (b : bool) : World :=
  mkWorld (clock w) (procs w) (nproc w) (inputs w) (ninput w) (sty w) (trace w)
          (self_device w) (self_ip w) (self_port w) (self_log_path w) b.

(* ===================================================================== *)
(** ** The monad of the program *)
(* ===================================================================== *)

(** A call returns a value, raises an exception, leaves the process
    through [sys.exit], or is still running when the fuel of a [while]
    loop is used up. *)
Inductive Outcome (A : Type) :=
| Ret (a : A) (w : World)
| Raise (e : Exn) (w : World)
| Exit (code : Z) (w : World)
| OutOfFuel.

Arguments Ret {A} a w.
Arguments Raise {A} e w.
Arguments Exit {A} code w.
Arguments OutOfFuel {A}.

Definition M (A : Type) : Type := World -> Outcome A.

Definition ret {A} (a : A) : M A := fun w => Ret a w.

Definition bind {A B} (m : M A) (k : A -> M B) : M B :=
  fun w =>
    match m w with
    | Ret a w' => k a w'
    | Raise e w' => Raise e w'
    | Exit c w' => Exit c w'
    | OutOfFuel => OutOfFuel
    end.

Declare Scope py_scope.
Delimit Scope py_scope with py.
Notation "x <- m ;; k" := (bind m (fun x => k))
  (at level 61, m at next level, right associativity) : py_scope.
Notation "m ;; k" := (bind m (fun _ => k))
  (at level 61, right associativity) : py_scope.
Local Open Scope py_scope.

(** [raise e] *)
Definition raise {A} (e : Exn) : M A := fun w => Raise e w.

(** [sys.exit(code)]: raises [SystemExit], which no handler of the
    program catches while a loop with a deadline is running (the
    handlers there are all [except Exception] or narrower). *)
Definition sys_exit {A} (code : Z) : M A := fun w => Exit code w.

(** [try: m  except <class> as e: h e] where [catches] is the class test. *)
Definition try_except {A} (m : M A) (catches : Exn -> bool) (h : Exn -> M A) : M A :=
  fun w =>
    match m w with
    | Raise e w' => if catches e then h e w' else Raise e w'
    | o => o
    end.

Definition emit (e : Event) : M unit :=
  fun w => Ret tt (with_trace w (trace w ++ [(clock w, e)])).

(** [time.time()] *)
Definition time_time : M Z := fun w => Ret (clock w) w.

(** [time.sleep(secs)] *)
Definition time_sleep (secs : Z) : M unit :=
  emit (ESleep secs) ;;
  fun w => Ret tt (with_clock w (clock w + secs)).

(** [self.f_log(msg)] *)
Definition f_log (m : LogMsg) : M unit := emit (ELog m).

Definition print (b : Banner) : M unit := emit (EPrint b).

(** [os.system("cls" if os.name == "nt" else "clear")] *)
Definition clear_screen : M unit := emit EClear.

(** [input(prompt)] *)
Definition input (prompt : string) : M string :=
  fun w =>
    let line := inputs w (ninput w) in
    let w' := with_trace (with_ninput w (S (ninput w)))
                         (trace w ++ [(clock w, EInput prompt line)]) in
    match line with
    | Some s => Ret s w'
    | None => Raise EOFError w'
    end.

(** What a [subprocess.run] with the given [check] and [timeout] makes
    of an answer of the environment: the time the call takes, and the
    standard output of the child or the exception raised.  With a timeout
    shorter than the child's latency the call raises [TimeoutExpired]
    when the timeout is over; with [check=True] a non-zero return code
    raises [CalledProcessError]. *)
Definition run_result (check : bool) (timeout : option Z) (r : ProcResp)
  : Z * (string + Exn) :=
  let dt := Z.of_N (p_dt r) in
  let finished :=
    match p_res r with
    | NotStarted => inr OSError
    | Completed rc out err =>
        if (check && negb (rc =? 0))%bool then inr (CalledProcessError err)
        else inl out
    end in
  match timeout with
  | Some t => if t <? dt then (t, inr TimeoutExpired) else (dt, finished)
  | None => (dt, finished)
  end.

(** The world after a [subprocess.run]: one answer consumed, the call
    recorded at the time it was issued, the clock advanced. *)
Definition after_run (w : World) (cmd : list string) (timeout : option Z)
    (elapsed : Z) : World :=
  let r := procs w (nproc w) in
  with_clock
    (with_trace (with_nproc w (S (nproc w)))
                (trace w ++ [(clock w, EProc cmd timeout r)]))
    (clock w + elapsed).

(** [subprocess.run(cmd, check=check, text=True, capture_output=True,
    timeout=timeout).stdout] *)
Definition subprocess_run (cmd : list string) (check : bool) (timeout : option Z)
  : M string :=
  fun w =>
    let res := run_result check timeout (procs w (nproc w)) in
    let w' := after_run w cmd timeout (fst res) in
    match snd res with
    | inl out => Ret out w'
    | inr e => Raise e w'
    end.

(** Reading and writing the fields of [self]. *)
Definition get_device : M (option string) := fun w => Ret (self_device w) w.
Definition set_device (d : option string) : M unit := fun w => Ret tt (with_device w d).
Definition get_error_already_shown : M bool := fun w => Ret (error_already_shown w) w.
Definition set_error_already_shown (b : bool) : M unit :=
  fun w => Ret tt (with_error_shown w b).
Definition get_ip : M string := fun w => Ret (self_ip w) w.
Definition set_ip (i : string) : M unit := fun w => Ret tt (with_ip w i).
Definition get_port : M Z := fun w => Ret (self_port w) w.
Definition set_port (p : Z) : M unit := fun w => Ret tt (with_port w p).
Definition set_log_path (p : option (string * Z)) : M unit :=
  fun w => Ret tt (with_log_path w p).
Definition getenv_STY : M bool := fun w => Ret (sty w) w.

(** [self.device] where the code needs a device identifier.  The loops
    only run after [f_initialize_device] has stored a string there, and
    only ever store strings afterwards; the [None] case is closed with a
    [ValueError] to keep the function total. *)
Definition the_device : M string :=
  fun w =>
    match self_device w with
    | Some d => Ret d w
    | None => Raise (ValueError "device is None") w
    end.

(* ===================================================================== *)
(** ** Logging system *)
(* ===================================================================== *)

Definition setup_prompt (test_name : string) : string :=
  ("Enter a name for " ++ test_name ++ " log no spaces and max 50 chars: ")%string.

(** [STBTester.f_setup_logging] *)
Definition f_setup_logging (test_name : string) : M bool :=
  try_except
    (raw <- input (setup_prompt test_name) ;;
     let log_name := PyStr.replace_space (PyStr.strip raw) in
     let log_name :=
       if PyStr.is_empty log_name
       then ("log_" ++ PyStr.lower test_name)%string
       else log_name in
     if 50 <? PyStr.len log_name then
       print (BLogNameTooLong (PyStr.len log_name)) ;;
       time_sleep 5 ;;
       clear_screen ;;
       ret false
     else
       timestamp <- time_time ;;
       set_log_path (Some (log_name, timestamp)) ;;
       ret true)
    is_Exception
    (fun _ =>
       print BLogSetupError ;;
       time_sleep 5 ;;
       clear_screen ;;
       ret false).

(* ===================================================================== *)
(** ** ADB connection and communication *)
(* ===================================================================== *)

(** [STBTester.f_list_connected_devices].  The table it prints is
    recorded as one banner and the list it returns is left out: its only
    caller discards the result.  Every exception is caught inside. *)
Definition f_list_connected_devices : M unit :=
  try_except
    (out <- subprocess_run ["adb"; "devices"] true None ;;
     print (BDevices (Some out)))
    is_Exception
    (fun _ => print (BDevices None)).

(** [f"{ip}:{port}"] *)
Definition device_id (ip : string) (port : Z) : string :=
  (ip ++ ":" ++ PyStr.of_Z port)%string.

(** [STBTester.f_connect_device] *)
Definition f_connect_device (ip : string) (port : Z) : M (option string) :=
  let device := device_id ip port in
  try_except
    (out <- subprocess_run ["adb"; "connect"; device] true None ;;
     let output := PyStr.lower (PyStr.strip out) in
     if (PyStr.contains "connected" output
         || PyStr.contains "already connected" output)%bool then
       f_log (LConnected output) ;;
       time_sleep 10 ;;
       ret (Some device)
     else
       f_log (LConnectFailed output) ;;
       print (BConnectionFailed device output) ;;
       time_sleep 10 ;;
       clear_screen ;;
       ret None)
    is_CalledProcessError
    (fun e =>
       let stderr := match e with CalledProcessError s => s | _ => "" end in
       f_log (LConnectError (PyStr.strip stderr)) ;;
       print (BAdbCommandError (PyStr.strip stderr)) ;;
       time_sleep 10 ;;
       clear_screen ;;
       ret None).

(** One of the seven attempts of [f_disable_cec]: a command in its own
    [try] with a bare [except]. *)
Definition cec_method (device : string) (args : list string) (ok failed : string)
  : M Z :=
  try_except
    (_ <- subprocess_run (["adb"; "-s"; device; "shell"] ++ args) true (Some 10) ;;
     f_log (LCec ok) ;;
     ret 1)
    (fun _ => true)
    (fun _ => f_log (LCec failed) ;; ret 0).

(** [STBTester.f_disable_cec] *)
Definition f_disable_cec (device : string) : M bool :=
  try_except
    (f_log (LCec "Disabling CEC (Consumer Electronics Control) - Android 14 compatible...") ;;
     c1 <- cec_method device
             ["settings"; "put"; "global"; "hdmi_control_enabled"; "0"]
             "Method 1: Global HDMI control disabled"
             "Method 1: Global HDMI control - FAILED" ;;
     c2 <- cec_method device
             ["settings"; "put"; "global"; "hdmi_volume_use_cec"; "0"]
             "Method 1: Global HDMI volume CEC disabled"
             "Method 1: Global HDMI volume CEC - FAILED" ;;
     c3 <- cec_method device
             ["settings"; "put"; "secure"; "hdmi_control_enabled"; "0"]
             "Method 2: Secure HDMI control disabled"
             "Method 2: Secure HDMI control - FAILED" ;;
     c4 <- cec_method device
             ["settings"; "put"; "secure"; "hdmi_volume_use_cec"; "0"]
             "Method 2: Secure HDMI volume CEC disabled"
             "Method 2: Secure HDMI volume CEC - FAILED" ;;
     c5 <- cec_method device
             ["settings"; "put"; "system"; "hdmi_control_enabled"; "0"]
             "Method 3: System HDMI control disabled"
             "Method 3: System HDMI control - FAILED" ;;
     c6 <- cec_method device
             ["setprop"; "ro.hdmi.device_type"; "0"]
             "Method 4: HDMI device type property disabled"
             "Method 4: HDMI device type property - FAILED" ;;
     c7 <- cec_method device
             ["cmd"; "hdmi_control"; "cec_setting"; "--enabled"; "false"]
             "Method 5: CEC service control disabled"
             "Method 5: CEC service control - FAILED" ;;
     c8 <- cec_method device
             ["settings"; "put"; "global"; "hdmi_cec_enabled"; "0"]
             "Method 6: Alternative CEC setting disabled"
             "Method 6: Alternative CEC setting - FAILED" ;;
     c9 <- cec_method device
             ["settings"; "put"; "secure"; "tv_input_hidden_inputs"; "1"]
             "Method 7: TV input service configured"
             "Method 7: TV input service - FAILED" ;;
     let success_count := c1 + c2 + c3 + c4 + c5 + c6 + c7 + c8 + c9 in
     if 0 <? success_count then
       f_log (LCec ("CEC disable completed: " ++ PyStr.of_Z success_count
                    ++ "/7 methods successful")%string) ;;
       f_log (LCec "STB should now have reduced CEC interference") ;;
       time_sleep 5 ;;
       ret true
     else
       f_log (LCec "CEC disable failed: All methods unsuccessful") ;;
       f_log (LCec "Warning: CEC interference may occur during tests") ;;
       f_log (LCec "Tests will continue normally") ;;
       time_sleep 5 ;;
       ret false)
    is_Exception
    (fun _ =>
       f_log (LCec "Critical error during CEC disable") ;;
       f_log (LCec "Warning: CEC interference may occur during tests") ;;
       f_log (LCec "Tests will continue normally") ;;
       time_sleep 5 ;;
       ret false).

(** [STBTester.f_is_device_ready] *)
Definition f_is_device_ready (device : string) : M bool :=
  try_except
    (out <- subprocess_run ["adb"; "-s"; device; "get-state"] true None ;;
     ret (String.eqb (PyStr.strip out) "device"))
    (fun _ => true)
    (fun _ => ret false).

(** The test on the output of [dumpsys power] made by [f_is_in_standby]. *)
Definition reports_standby (stdout : string) : bool :=
  let output := PyStr.lower stdout in
  (PyStr.contains "mwakefulness=asleep" output
   || PyStr.contains "mwakefulness=dozing" output
   || PyStr.contains "display power: state=off" output)%bool.

(** [STBTester.f_is_in_standby] *)
Definition f_is_in_standby (device : string) : M bool :=
  try_except
    (out <- subprocess_run ["adb"; "-s"; device; "shell"; "dumpsys"; "power"]
                           false (Some 5) ;;
     ret (reports_standby out))
    (fun _ => true)
    (fun _ => ret false).

(** The [while] loop of [f_wait_standby_exit]. *)
Fixpoint wait_standby_loop (fuel : nat) (device : string) (initial_time duration : Z)
  : M unit :=
  match fuel with
  | O => fun _ => OutOfFuel
  | S fuel' =>
      standby <- f_is_in_standby device ;;
      if standby then
        now <- time_time ;;
        (if now - initial_time >=? duration then
           f_log (LStandbyDeadline duration) ;;
           sys_exit 0
         else ret tt) ;;
        time_sleep 10 ;;
        wait_standby_loop fuel' device initial_time duration
      else ret tt
  end.

(** [STBTester.f_wait_standby_exit] *)
Definition f_wait_standby_exit (fuel : nat) (device : string)
    (initial_time duration : Z) : M unit :=
  f_log LStandbyWaiting ;;
  wait_standby_loop fuel device initial_time duration ;;
  f_log LStandbyReturned.

(* ===================================================================== *)
(** ** Key sending *)
(* ===================================================================== *)

(** [STBTester.f_send_key] *)
Definition f_send_key (device key_code key_name : string) : M bool :=
  try_except
    (_ <- subprocess_run ["adb"; "-s"; device; "shell"; "input"; "keyevent"; key_code]
                         true (Some 5) ;;
     set_error_already_shown false ;;
     f_log (LKeySent key_name) ;;
     ret true)
    is_Exception
    (fun e =>
       shown <- get_error_already_shown ;;
       (if negb shown then
          f_log (LKeyError key_name e) ;;
          set_error_already_shown true
        else ret tt) ;;
       time_sleep 5 ;;
       ret false).

(** The shape shared by the keys that pause after a successful send:
    [if self.f_send_key(device, code, name): time.sleep(delay); return True]
    [return False]. *)
Definition send_then_sleep (device key_code key_name : string) (delay : Z) : M bool :=
  ok <- f_send_key device key_code key_name ;;
  if ok then time_sleep delay ;; ret true else ret false.

(** The shape shared by the keys that pause before sending:
    [time.sleep(delay); return self.f_send_key(device, code, name)]. *)
Definition sleep_then_send (device key_code key_name : string) (delay : Z) : M bool :=
  time_sleep delay ;;
  f_send_key device key_code key_name.

Definition f_send_home_key (device : string) : M bool :=
  send_then_sleep device "3" "KEY_HOME" 10.
Definition f_send_right_key (device : string) : M bool :=
  send_then_sleep device "22" "KEY_RIGHT" 5.
Definition f_send_left_key (device : string) : M bool :=
  send_then_sleep device "21" "KEY_LEFT" 5.
Definition f_send_down_key (device : string) : M bool :=
  send_then_sleep device "20" "KEY_DOWN" 5.
Definition f_send_up_key (device : string) : M bool :=
  send_then_sleep device "19" "KEY_UP" 5.
Definition f_send_ok_key (device : string) : M bool :=
  send_then_sleep device "23" "KEY_OK" 5.
Definition f_send_back_key (device : string) : M bool :=
  sleep_then_send device "4" "KEY_BACK" 10.
Definition f_send_live_key (device : string) : M bool :=
  send_then_sleep device "170" "KEY_LIVE" 5.
Definition f_send_guide_key (device : string) : M bool :=
  sleep_then_send device "172" "KEY_GUIDE" 5.
Definition f_send_channelUP_key (device : string) : M bool :=
  sleep_then_send device "166" "KEY_CHANNEL_UP" 20.
Definition f_send_channelDOWN_key (device : string) : M bool :=
  sleep_then_send device "167" "KEY_CHANNEL_DOWN" 20.
Definition f_send_volume_up_key (device : string) : M bool :=
  send_then_sleep device "24" "KEY_VOLUME_UP" 3.
Definition f_send_volume_down_key (device : string) : M bool :=
  send_then_sleep device "25" "KEY_VOLUME_DOWN" 3.
Definition f_send_mute_key (device : string) : M bool :=
  send_then_sleep device "164" "KEY_MUTE" 5.
Definition f_send_standby_key (device : string) : M bool :=
  send_then_sleep device "26" "KEY_STANDBY" 10.
Definition f_send_wake_up_key (device : string) : M bool :=
  send_then_sleep device "224" "KEY_WAKEUP" 20.

(* ===================================================================== *)
(** ** Application opening *)
(* ===================================================================== *)

(** [STBTester.f_send_flow_key] *)
Definition f_send_flow_key (device : string) : M bool :=
  try_except
    (_ <- subprocess_run
            ["adb"; "-s"; device; "shell"; "am"; "start"; "-n";
             "ar.com.flow.androidtv_stb/ar.com.flow.androidtv.base.view.BaseActivity";
             "-a"; "android.intent.action.MAIN";
             "-c"; "android.intent.category.LEANBACK_LAUNCHER"]
            true (Some 5) ;;
     f_log LFlowSent ;;
     time_sleep 15 ;;
     ret true)
    is_SubprocessError
    (fun e => f_log (LFlowError e) ;; ret false).

(** The command of [f_open_app] and [f_open_app_secondary]. *)
Definition monkey_cmd (device package category : string) : list string :=
  ["adb"; "-s"; device; "shell"; "monkey"; "-p"; package; "-c"; category; "1"].

(** [STBTester.f_open_app] *)
Definition f_open_app (device package description : string) : M bool :=
  try_except
    (_ <- subprocess_run
            (monkey_cmd device package "android.intent.category.LAUNCHER")
            true (Some 5) ;;
     f_log (LAppOpened (PyStr.strip description)) ;;
     time_sleep 30 ;;
     ret true)
    is_SubprocessError
    (fun e => f_log (LAppError (PyStr.strip description) e) ;; ret false).

(** [STBTester.f_open_app_secondary] *)
Definition f_open_app_secondary (device package description : string) : M bool :=
  try_except
    (_ <- subprocess_run
            (monkey_cmd device package "android.intent.category.LEANBACK_LAUNCHER")
            true (Some 5) ;;
     f_log (LAppOpened description) ;;
     time_sleep 30 ;;
     ret true)
    is_SubprocessError
    (fun e => f_log (LAppError description e) ;; ret false).

(* ===================================================================== *)
(** ** Reconnection system *)
(* ===================================================================== *)

(** Truthiness of the value returned by [f_connect_device]: [None] and
    the empty string are false. *)
Definition truthy (d : option string) : option string :=
  match d with
  | Some s => if PyStr.is_empty s then None else Some s
  | None => None
  end.

(** The condition [new_device and self.f_is_device_ready(new_device)]:
    the readiness check runs only on a device that was returned; the
    result is the device when both hold. *)
Definition connected_and_ready (new_device : option string) : M (option string) :=
  match truthy new_device with
  | Some d =>
      ready <- f_is_device_ready d ;;
      ret (if ready then Some d else None)
  | None => ret None
  end.

(** [STBTester.f_reconnect_and_reinitialize]: the [while True] loop. *)
Fixpoint reconnect_loop (fuel : nat) (ip : string) (port initial_time duration : Z)
  : M (string * bool) :=
  match fuel with
  | O => fun _ => OutOfFuel
  | S fuel' =>
      now <- time_time ;;
      (if now - initial_time >=? duration then
         f_log (LReconnectDeadline duration) ;;
         sys_exit 0
       else ret tt) ;;
      new_device <- f_connect_device ip port ;;
      usable <- connected_and_ready new_device ;;
      match usable with
      | Some d =>
          f_log LReconnectOk ;;
          time_sleep 30 ;;
          home <- f_send_home_key d ;;
          if home then
            set_error_already_shown false ;;
            ret (d, true)
          else
            f_log LReinitFailed ;;
            reconnect_loop fuel' ip port initial_time duration
      | None =>
          f_log LReconnectRetry ;;
          time_sleep 5 ;;
          reconnect_loop fuel' ip port initial_time duration
      end
  end.

Definition f_reconnect_and_reinitialize (fuel : nat) (ip : string)
    (port initial_time duration : Z) : M (string * bool) :=
  f_log LReconnectAttempt ;;
  reconnect_loop fuel ip port initial_time duration.

(** [STBTester.f_reconnect_and_reinitialize_project1]: the [while True]
    loop.  Here the five-second pause closes every iteration that did not
    return, also the one whose HOME key failed. *)
Fixpoint reconnect_loop_project1 (fuel : nat) (ip : string)
    (port initial_time duration : Z) : M (string * bool) :=
  match fuel with
  | O => fun _ => OutOfFuel
  | S fuel' =>
      now <- time_time ;;
      (if now - initial_time >=? duration then
         f_log LReconnectDeadlineP1 ;;
         sys_exit 0
       else ret tt) ;;
      new_device <- f_connect_device ip port ;;
      usable <- connected_and_ready new_device ;;
      match usable with
      | Some d =>
          f_log LReconnectOkP1 ;;
          time_sleep 30 ;;
          home <- f_send_home_key d ;;
          if home then
            _ <- f_send_guide_key d ;;
            _ <- f_send_back_key d ;;
            set_error_already_shown false ;;
            ret (d, true)
          else
            f_log LReinitFailed ;;
            time_sleep 5 ;;
            reconnect_loop_project1 fuel' ip port initial_time duration
      | None =>
          f_log LReconnectRetry ;;
          time_sleep 5 ;;
          reconnect_loop_project1 fuel' ip port initial_time duration
      end
  end.

Definition f_reconnect_and_reinitialize_project1 (fuel : nat) (ip : string)
    (port initial_time duration : Z) : M (string * bool) :=
  f_log LReconnectAttemptP1 ;;
  reconnect_loop_project1 fuel ip port initial_time duration.

(* ===================================================================== *)
(** ** Auxiliary functions *)
(* ===================================================================== *)

(** A step of a test: a Python callable taking the device identifier and
    returning whether the action went through. *)
Definition Step : Type := string -> M bool.

(** [STBTester.f_check_and_send] *)
Definition f_check_and_send (fuel : nat) (func : Step) (device ip : string)
    (port initial_time duration : Z) : M (string * bool) :=
  standby <- f_is_in_standby device ;;
  (if standby then f_wait_standby_exit fuel device initial_time duration
   else ret tt) ;;
  ok <- func device ;;
  if negb ok then f_reconnect_and_reinitialize fuel ip port initial_time duration
  else ret (device, false).

(** [STBTester.f_check_and_send_project1] *)
Definition f_check_and_send_project1 (fuel : nat) (func : Step) (device ip : string)
    (port initial_time duration : Z) : M (string * bool) :=
  standby <- f_is_in_standby device ;;
  (if standby then f_wait_standby_exit fuel device initial_time duration
   else ret tt) ;;
  ok <- func device ;;
  if negb ok then
    f_reconnect_and_reinitialize_project1 fuel ip port initial_time duration
  else ret (device, false).

(** [int(custom_duration_input)] *)
Definition py_int (s : string) : M Z :=
  match PyStr.int s with
  | Some z => ret z
  | None =>
      raise (ValueError ("invalid literal for int() with base 10: '" ++ s ++ "'")%string)
  end.

(** [str(ve)] for a [ValueError]. *)
Definition exn_str (e : Exn) : string :=
  match e with
  | ValueError msg => msg
  | CalledProcessError _ => "Command returned non-zero exit status"
  | TimeoutExpired => "Command timed out"
  | OSError => "OSError"
  | EOFError => "EOF when reading a line"
  end.

(** The inner [try] of [f_get_connection_info]: the conversion and the
    range check of a custom duration, with the handler that rewords the
    error of [int] and passes the two range errors on. *)
Definition custom_duration (custom_duration_input : string) : M Z :=
  try_except
    (duration <- py_int custom_duration_input ;;
     (if duration <=? 0 then
        raise (ValueError "Duration must be a positive number")
      else if 432000 <? duration then
        raise (ValueError "Max duration of 120 hours / 5 days")
      else ret tt) ;;
     ret duration)
    is_ValueError
    (fun ve =>
       if PyStr.contains "invalid literal" (exn_str ve) then
         raise (ValueError "Custom duration must be a valid positive integer")
       else raise ve).

(** [STBTester.f_get_connection_info] *)
Definition f_get_connection_info : M (option Z) :=
  try_except
    (f_list_connected_devices ;;
     ip_line <- input "Enter the IP address (ex: 192.168.x.x): " ;;
     set_ip (PyStr.strip ip_line) ;;
     ip <- get_ip ;;
     (if PyStr.is_empty ip then raise (ValueError "IP address cannot be empty")
      else ret tt) ;;
     set_port 5555 ;;
     print BDurationMenu ;;
     duration_line <- input "Enter the desired duration: " ;;
     let duration_input := PyStr.strip duration_line in
     (if PyStr.is_empty duration_input
      then raise (ValueError "Duration cannot be empty!")
      else ret tt) ;;
     if String.eqb duration_input "1" then
       ret (Some (12 * 60 * 60))
     else if String.eqb duration_input "2" then
       ret (Some (24 * 60 * 60))
     else if String.eqb duration_input "3" then
       custom_line <- input "Set the duration in seconds: " ;;
       let custom_duration_input := PyStr.strip custom_line in
       (if PyStr.is_empty custom_duration_input
        then raise (ValueError "Custom duration cannot be empty!")
        else ret tt) ;;
       duration <- custom_duration custom_duration_input ;;
       ret (Some duration)
     else
       raise (ValueError "Invalid Option!"))
    is_ValueError
    (fun e =>
       print (BInputError (exn_str e)) ;;
       time_sleep 10 ;;
       clear_screen ;;
       ret None).

(** [STBTester.f_initialize_device] *)
Definition f_initialize_device : M bool :=
  ip <- get_ip ;;
  port <- get_port ;;
  d <- f_connect_device ip port ;;
  set_device d ;;
  usable <- connected_and_ready d ;;
  match usable with
  | None =>
      print BConnectionError ;;
      time_sleep 10 ;;
      clear_screen ;;
      ret false
  | Some dev =>
      _ <- f_disable_cec dev ;;
      ret true
  end.

(* ===================================================================== *)
(** ** The test loops *)
(* ===================================================================== *)

(** The local variables of a test function that live across passes. *)
Record Locals := mkLocals {
  loop : Z;
  need_initial_sequence : bool;
  reconnected : bool
}.

(** The two families of tests differ in the function they send a step
    through, and with it in the reconnection routine. *)
Inductive Family := Standard | Project1.

Definition check_and_send (fam : Family) :=
  match fam with
  | Standard => f_check_and_send
  | Project1 => f_check_and_send_project1
  end.

(** The [for func in [...]] loop of a test: each step goes through
    [f_check_and_send]; a reconnection logs, resets the two locals and
    breaks. *)
Fixpoint for_steps (fuel : nat) (fam : Family) (steps : list Step)
    (initial_time duration : Z) (L : Locals) : M Locals :=
  match steps with
  | [] => ret L
  | func :: rest =>
      dev <- the_device ;;
      ip <- get_ip ;;
      port <- get_port ;;
      r <- check_and_send fam fuel func dev ip port initial_time duration ;;
      set_device (Some (fst r)) ;;
      if snd r then
        f_log LRestart ;;
        ret (mkLocals 0 true true)
      else
        for_steps fuel fam rest initial_time duration
                  (mkLocals (loop L) (need_initial_sequence L) false)
  end.

(** The end of a pass: [if not reconnected: loop += 1; log]. *)
Definition count_pass (L : Locals) : M Locals :=
  if negb (reconnected L) then
    let loop' := loop L + 1 in
    f_log (LLoopConcluded loop') ;;
    ret (mkLocals loop' (need_initial_sequence L) (reconnected L))
  else ret L.

(** The body of the [while] loop of a test, one pass: the initial
    sequence if it is due, [reconnected = False], the [for] loop over the
    steps, the count. *)
Definition one_pass (fuel : nat) (fam : Family) (initial_sequence : M unit)
    (steps : list Step) (initial_time duration : Z) (L : Locals) : M Locals :=
  L1 <- (if need_initial_sequence L then
           initial_sequence ;;
           ret (mkLocals (loop L) false (reconnected L))
         else ret L) ;;
  L2 <- for_steps fuel fam steps initial_time duration
                  (mkLocals (loop L1) (need_initial_sequence L1) false) ;;
  count_pass L2.

(** [while time.time() - initial_time < duration: <pass>] *)
Fixpoint while_before_deadline (passes : nat) (pass : Locals -> M Locals)
    (initial_time duration : Z) (L : Locals) : M Locals :=
  match passes with
  | O => fun _ => OutOfFuel
  | S passes' =>
      now <- time_time ;;
      if now - initial_time <? duration then
        L' <- pass L ;;
        while_before_deadline passes' pass initial_time duration L'
      else ret L
  end.

(** What every test function does around its loop: the screen-session
    check, log setup, connection data, device initialisation, then the
    loop inside [try ... except Exception], then the closing log line. *)
Definition test_frame (title label : string) (run_loop : Z -> Z -> M Locals) : M unit :=
  f_log (LTestStart title) ;;
  in_screen <- getenv_STY ;;
  if negb in_screen then
    print BScreenRequired ;;
    time_sleep 10 ;;
    clear_screen ;;
    ret tt
  else
    logging <- f_setup_logging label ;;
    if negb logging then ret tt
    else
      duration <- f_get_connection_info ;;
      match duration with
      | None => ret tt
      | Some duration =>
          initialized <- f_initialize_device ;;
          if negb initialized then ret tt
          else
            initial_time <- time_time ;;
            set_error_already_shown false ;;
            try_except
              (_ <- run_loop initial_time duration ;; ret tt)
              is_Exception
              (fun e => f_log (LFatal e)) ;;
            f_log (LTestCompleted title duration)
      end.

Definition start_locals : Locals := mkLocals 0 true false.

(** A test built on [f_check_and_send] or [f_check_and_send_project1]. *)
Definition step_list_test (passes fuel : nat) (title label : string) (fam : Family)
    (initial_sequence : M unit) (steps : list Step) : M unit :=
  test_frame title label
    (fun initial_time duration =>
       while_before_deadline passes
         (one_pass fuel fam initial_sequence steps initial_time duration)
         initial_time duration start_locals).

(** *** Zapping *)

Definition zapping_steps : list Step :=
  [f_send_channelUP_key; f_send_channelUP_key;
   f_send_channelDOWN_key; f_send_channelUP_key;
   f_send_channelDOWN_key].

Definition zapping_standard_initial : M unit :=
  f_log LInitialBegin ;;
  (dev <- the_device ;; f_send_home_key dev) ;;
  time_sleep 5 ;;
  (dev <- the_device ;; f_send_live_key dev) ;;
  time_sleep 5 ;;
  (dev <- the_device ;; f_send_flow_key dev) ;;
  f_log LInitialDone.

(** [STBTester.f_test_zapping_standard] *)
Definition f_test_zapping_standard (passes fuel : nat) : M unit :=
  step_list_test passes fuel "STANDARD ZAPPING" "ZAPPING_STANDARD" Standard
                 zapping_standard_initial zapping_steps.

Definition zapping_project1_initial : M unit :=
  f_log LInitialBegin ;;
  (dev <- the_device ;; f_send_home_key dev) ;;
  time_sleep 5 ;;
  (dev <- the_device ;; f_send_guide_key dev) ;;
  time_sleep 5 ;;
  (dev <- the_device ;; f_send_ok_key dev) ;;
  time_sleep 5 ;;
  (dev <- the_device ;; f_send_back_key dev) ;;
  f_log LInitialDone.

(** [STBTester.f_test_zapping_project1] *)
Definition f_test_zapping_project1 (passes fuel : nat) : M unit :=
  step_list_test passes fuel "PROJECT 1 ZAPPING" "ZAPPING_PROJECT1" Project1
                 zapping_project1_initial zapping_steps.

(** *** Apps and volume *)

Definition home_initial : M unit :=
  f_log LInitialBegin ;;
  (dev <- the_device ;; f_send_home_key dev) ;;
  f_log LInitialDone.

Definition open_netflix (device : string) : M bool :=
  _ <- f_send_home_key device ;;
  f_open_app device "com.netflix.ninja" "Netflix".
Definition open_amazon (device : string) : M bool :=
  _ <- f_send_home_key device ;;
  f_open_app_secondary device "com.amazon.amazonvideo.livingroom" "Amazon Prime".
Definition open_youtube (device : string) : M bool :=
  _ <- f_send_home_key device ;;
  f_open_app device "com.google.android.youtube.tv" "YouTube".
Definition open_disney (device : string) : M bool :=
  _ <- f_send_home_key device ;;
  f_open_app device "com.disney.disneyplus" "Disney+".
Definition open_spotify (device : string) : M bool :=
  _ <- f_send_home_key device ;;
  f_open_app device "com.spotify.tv.android" "Spotify".
Definition open_max (device : string) : M bool :=
  _ <- f_send_home_key device ;;
  f_open_app_secondary device "com.wbd.stream" "Max".

Definition apps_steps : list Step :=
  [open_netflix; open_amazon; open_youtube; open_disney; open_spotify; open_max].

(** [STBTester.f_test_apps] *)
Definition f_test_apps (passes fuel : nat) : M unit :=
  step_list_test passes fuel "APPS" "APPS" Standard home_initial apps_steps.

Definition volume_steps : list Step :=
  [f_send_volume_up_key; f_send_volume_up_key;
   f_send_volume_up_key; f_send_volume_up_key;
   f_send_volume_up_key;
   f_send_volume_down_key; f_send_volume_down_key;
   f_send_volume_down_key; f_send_volume_down_key;
   f_send_volume_down_key;
   f_send_mute_key;
   f_send_mute_key;
   f_send_volume_up_key; f_send_volume_up_key;
   f_send_volume_up_key;
   f_send_volume_down_key; f_send_volume_down_key;
   f_send_volume_down_key;
   f_send_mute_key;
   f_send_mute_key].

(** [STBTester.f_test_volume_control] *)
Definition f_test_volume_control (passes fuel : nat) : M unit :=
  step_list_test passes fuel "VOLUME CONTROL" "VOLUME_CONTROL" Standard
                 home_initial volume_steps.

(** *** Standby and wake-up *)

(** The part of a pass of [f_test_standby_wakeup] run when a key failed:
    reconnect with the standard routine, reset the locals, [continue]. *)
Definition standby_recover (fuel : nat) (initial_time duration : Z) : M Locals :=
  ip <- get_ip ;;
  port <- get_port ;;
  r <- f_reconnect_and_reinitialize fuel ip port initial_time duration ;;
  set_device (Some (fst r)) ;;
  ret (mkLocals 0 true (snd r)).

(** The body of the [while] loop of [f_test_standby_wakeup]. *)
Definition standby_pass (fuel : nat) (initial_time duration : Z) (L : Locals)
  : M Locals :=
  L1 <- (if need_initial_sequence L then
           f_log LInitialReady ;;
           ret (mkLocals (loop L) false (reconnected L))
         else ret L) ;;
  dev <- the_device ;;
  slept <- f_send_standby_key dev ;;
  if negb slept then standby_recover fuel initial_time duration
  else
    dev <- the_device ;;
    woke <- f_send_wake_up_key dev ;;
    if negb woke then standby_recover fuel initial_time duration
    else
      let loop' := loop L1 + 1 in
      f_log (LLoopConcluded loop') ;;
      ret (mkLocals loop' (need_initial_sequence L1) (reconnected L1)).

(** [STBTester.f_test_standby_wakeup] *)
Definition f_test_standby_wakeup (passes fuel : nat) : M unit :=
  test_frame "STANDBY/WAKEUP" "STANDBY_WAKEUP"
    (fun initial_time duration =>
       while_before_deadline passes (standby_pass fuel initial_time duration)
                             initial_time duration start_locals).

(** *** Navigation *)

Definition navigation_project2_steps : list Step :=
  [f_send_home_key; f_send_down_key; f_send_right_key; f_send_right_key;
   f_send_right_key; f_send_right_key; f_send_right_key; f_send_left_key;
   f_send_left_key; f_send_left_key; f_send_left_key; f_send_down_key;
   f_send_right_key; f_send_right_key; f_send_down_key; f_send_right_key;
   f_send_right_key; f_send_right_key; f_send_right_key; f_send_down_key;
   f_send_right_key; f_send_right_key; f_send_right_key; f_send_left_key;
   f_send_left_key; f_send_left_key; f_send_up_key; f_send_up_key;
   f_send_up_key; f_send_up_key; f_send_right_key; f_send_right_key;
   f_send_right_key; f_send_right_key; f_send_right_key; f_send_right_key;
   f_send_left_key; f_send_left_key; f_send_left_key; f_send_left_key;
   f_send_ok_key; f_send_right_key; f_send_right_key; f_send_right_key;
   f_send_right_key; f_send_right_key; f_send_down_key; f_send_left_key;
   f_send_left_key; f_send_left_key; f_send_left_key; f_send_left_key;
   f_send_up_key; f_send_right_key; f_send_right_key; f_send_right_key;
   f_send_down_key; f_send_left_key; f_send_left_key; f_send_up_key;
   f_send_right_key; f_send_right_key; f_send_right_key; f_send_right_key;
   f_send_up_key; f_send_left_key; f_send_ok_key; f_send_down_key;
   f_send_down_key; f_send_down_key; f_send_down_key; f_send_down_key;
   f_send_down_key; f_send_down_key; f_send_down_key; f_send_down_key;
   f_send_down_key].

Definition ready_initial : M unit := f_log LInitialReady.

(** [STBTester.f_test_navigation_project2] *)
Definition f_test_navigation_project2 (passes fuel : nat) : M unit :=
  step_list_test passes fuel "PROJECT 2 NAVIGATION" "NAVIGATION_PROJECT2" Standard
                 ready_initial navigation_project2_steps.

Definition navigation_project1_steps : list Step :=
  [f_send_home_key; f_send_right_key; f_send_right_key; f_send_right_key;
   f_send_right_key; f_send_right_key; f_send_left_key; f_send_left_key;
   f_send_left_key; f_send_left_key; f_send_down_key; f_send_right_key;
   f_send_right_key; f_send_down_key; f_send_right_key; f_send_right_key;
   f_send_right_key; f_send_right_key; f_send_down_key; f_send_right_key;
   f_send_right_key; f_send_right_key; f_send_left_key; f_send_left_key;
   f_send_left_key; f_send_up_key; f_send_up_key; f_send_up_key;
   f_send_up_key; f_send_right_key; f_send_right_key; f_send_right_key;
   f_send_right_key; f_send_right_key; f_send_right_key; f_send_left_key;
   f_send_left_key; f_send_left_key; f_send_down_key; f_send_down_key;
   f_send_right_key; f_send_up_key; f_send_left_key; f_send_home_key;
   f_send_up_key; f_send_right_key; f_send_ok_key; f_send_down_key;
   f_send_down_key; f_send_right_key; f_send_down_key; f_send_right_key;
   f_send_right_key; f_send_right_key; f_send_up_key; f_send_up_key;
   f_send_up_key; f_send_left_key; f_send_left_key; f_send_left_key;
   f_send_left_key; f_send_left_key; f_send_left_key; f_send_home_key;
   f_send_up_key; f_send_right_key; f_send_right_key; f_send_ok_key;
   f_send_down_key; f_send_down_key; f_send_right_key; f_send_right_key;
   f_send_up_key; f_send_up_key; f_send_right_key; f_send_right_key;
   f_send_down_key; f_send_left_key; f_send_left_key; f_send_left_key;
   f_send_left_key; f_send_home_key].

(** [STBTester.f_test_navigation_project1] *)
Definition f_test_navigation_project1 (passes fuel : nat) : M unit :=
  step_list_test passes fuel "PROJECT 1 NAVIGATION" "NAVIGATION_PROJECT1" Standard
                 home_initial navigation_project1_steps.

(** The local wrapper of [f_test_navigation_project3]. *)
Definition send_flow_with_navigation (device : string) : M bool :=
  time_sleep 5 ;;
  f_send_flow_key device.

Definition navigation_project3_steps : list Step :=
  [f_send_home_key; f_send_home_key; f_send_right_key; f_send_right_key;
   f_send_right_key; f_send_right_key; f_send_right_key; f_send_left_key;
   f_send_left_key; f_send_left_key; f_send_left_key; f_send_down_key;
   f_send_right_key; f_send_right_key; f_send_down_key; f_send_right_key;
   f_send_right_key; f_send_right_key; f_send_right_key; f_send_down_key;
   f_send_right_key; f_send_right_key; f_send_right_key; f_send_left_key;
   f_send_left_key; f_send_left_key; f_send_home_key; f_send_up_key;
   f_send_right_key; f_send_down_key; f_send_right_key; f_send_right_key;
   f_send_right_key; f_send_right_key; f_send_left_key; f_send_left_key;
   f_send_left_key; f_send_down_key; f_send_right_key; f_send_right_key;
   f_send_right_key; f_send_down_key; f_send_right_key; f_send_right_key;
   f_send_right_key; f_send_down_key; f_send_right_key; f_send_right_key;
   f_send_right_key; f_send_home_key; f_send_up_key; f_send_right_key;
   f_send_right_key; f_send_down_key; f_send_right_key; f_send_right_key;
   f_send_right_key; f_send_down_key; f_send_left_key; f_send_left_key;
   f_send_left_key; f_send_left_key; f_send_left_key; f_send_down_key;
   f_send_right_key; f_send_right_key; f_send_right_key; f_send_home_key;
   send_flow_with_navigation; f_send_right_key; f_send_right_key;
   f_send_right_key; f_send_right_key; f_send_right_key; f_send_left_key;
   f_send_left_key; f_send_left_key; f_send_left_key; f_send_left_key;
   f_send_down_key; f_send_down_key; f_send_right_key; f_send_right_key;
   f_send_right_key; f_send_down_key; f_send_down_key; f_send_right_key;
   f_send_right_key; f_send_right_key; f_send_right_key; f_send_right_key;
   f_send_right_key; f_send_right_key; f_send_down_key; f_send_right_key;
   f_send_right_key; f_send_right_key; f_send_down_key; f_send_right_key;
   f_send_right_key; f_send_right_key; f_send_down_key; f_send_right_key;
   f_send_right_key; f_send_right_key; f_send_back_key; f_send_right_key;
   f_send_ok_key; f_send_down_key; f_send_down_key; f_send_down_key;
   f_send_down_key; f_send_down_key; f_send_down_key; f_send_down_key;
   f_send_right_key; f_send_right_key; f_send_right_key; f_send_right_key;
   f_send_up_key; f_send_up_key; f_send_up_key; f_send_up_key; f_send_up_key;
   f_send_left_key; f_send_left_key; f_send_left_key; f_send_left_key;
   f_send_back_key; f_send_right_key; f_send_ok_key; f_send_down_key;
   f_send_down_key; f_send_right_key; f_send_right_key; f_send_right_key;
   f_send_down_key; f_send_right_key; f_send_right_key; f_send_right_key;
   f_send_down_key; f_send_right_key; f_send_right_key; f_send_right_key;
   f_send_down_key; f_send_right_key; f_send_right_key; f_send_right_key;
   f_send_back_key; f_send_right_key; f_send_ok_key; f_send_down_key;
   f_send_right_key; f_send_right_key; f_send_right_key; f_send_right_key;
   f_send_right_key; f_send_right_key; f_send_down_key; f_send_down_key;
   f_send_down_key; f_send_down_key; f_send_right_key; f_send_right_key;
   f_send_right_key; f_send_back_key; f_send_ok_key; f_send_down_key;
   f_send_down_key; f_send_right_key; f_send_right_key; f_send_right_key;
   f_send_right_key; f_send_right_key; f_send_right_key; f_send_down_key;
   f_send_right_key; f_send_right_key; f_send_right_key; f_send_down_key;
   f_send_right_key; f_send_right_key; f_send_right_key; f_send_down_key;
   f_send_right_key; f_send_right_key; f_send_right_key; f_send_back_key;
   f_send_left_key; f_send_left_key; f_send_left_key; f_send_left_key;
   f_send_left_key; f_send_ok_key].

(** [STBTester.f_test_navigation_project3] *)
Definition f_test_navigation_project3 (passes fuel : nat) : M unit :=
  step_list_test passes fuel "PROJECT 3 NAVIGATION" "NAVIGATION_PROJECT3" Standard
                 home_initial navigation_project3_steps.

(** *** The tests of the menus *)

(** The tests the three project menus offer. *)
Inductive Test :=
| ZappingStandard | ZappingProject1
| NavigationProject1 | NavigationProject2 | NavigationProject3
| Apps | VolumeControl | StandbyWakeup.

(** The body of the [while] loop of each test. *)
Definition test_pass (t : Test) (fuel : nat) (initial_time duration : Z)
  : Locals -> M Locals :=
  match t with
  | ZappingStandard =>
      one_pass fuel Standard zapping_standard_initial zapping_steps
               initial_time duration
  | ZappingProject1 =>
      one_pass fuel Project1 zapping_project1_initial zapping_steps
               initial_time duration
  | NavigationProject1 =>
      one_pass fuel Standard home_initial navigation_project1_steps
               initial_time duration
  | NavigationProject2 =>
      one_pass fuel Standard ready_initial navigation_project2_steps
               initial_time duration
  | NavigationProject3 =>
      one_pass fuel Standard home_initial navigation_project3_steps
               initial_time duration
  | Apps => one_pass fuel Standard home_initial apps_steps initial_time duration
  | VolumeControl =>
      one_pass fuel Standard home_initial volume_steps initial_time duration
  | StandbyWakeup => standby_pass fuel initial_time duration
  end.

Definition run_test (t : Test) (passes fuel : nat) : M unit :=
  match t with
  | ZappingStandard => f_test_zapping_standard passes fuel
  | ZappingProject1 => f_test_zapping_project1 passes fuel
  | NavigationProject1 => f_test_navigation_project1 passes fuel
  | NavigationProject2 => f_test_navigation_project2 passes fuel
  | NavigationProject3 => f_test_navigation_project3 passes fuel
  | Apps => f_test_apps passes fuel
  | VolumeControl => f_test_volume_control passes fuel
  | StandbyWakeup => f_test_standby_wakeup passes fuel
  end.

(** [f_menu_project1], [f_menu_project2] and [f_menu_project3]: the test
    an option of a project menu starts. *)
Definition menu_test (project : Z) (choice : string) : option Test :=
  if String.eqb choice "1" then
    Some (if project =? 1 then ZappingProject1 else ZappingStandard)
  else if String.eqb choice "2" then
    Some (if project =? 1 then NavigationProject1
          else if project =? 2 then NavigationProject2
          else NavigationProject3)
  else if String.eqb choice "3" then Some Apps
  else if String.eqb choice "4" then Some StandbyWakeup
  else if String.eqb choice "5" then Some VolumeControl
  else None.

(* ===================================================================== *)
(** ** Observing outcomes and traces *)
(* ===================================================================== *)

(** The world a call leaves behind, when it ends. *)
Definition final {A} (o : Outcome A) : option World :=
  match o with
  | Ret _ w | Raise _ w | Exit _ w => Some w
  | OutOfFuel => None
  end.

(** The value a call returns, when it returns. *)
Definition returned {A} (o : Outcome A) : option A :=
  match o with
  | Ret a _ => Some a
  | _ => None
  end.

(** The status the process ends with, when the call ends it. *)
Definition exit_code {A} (o : Outcome A) : option Z :=
  match o with
  | Exit c _ => Some c
  | _ => None
  end.

(** [w'] continues [w]: the clock did not go back and the trace grew by
    time-stamped events that all satisfy [P]. *)
Definition extends (P : Z * Event -> Prop) (w w' : World) : Prop :=
  clock w <= clock w' /\
  exists d, trace w' = trace w ++ d /\ Forall P d.

(** A call that, started in [w] and however it ends, continues [w] with
    events in [P] only, and that leaves the process, if it does, with
    status 0 and in a world in [E]. *)
Definition ends_well (P : Z * Event -> Prop) (E : World -> Prop) {A} (m : M A)
    (w : World) : Prop :=
  match m w with
  | Ret _ w' | Raise _ w' => extends P w w'
  | Exit c w' => c = 0 /\ extends P w w' /\ E w'
  | OutOfFuel => True
  end.

Definition behaves (P : Z * Event -> Prop) (E : World -> Prop) {A} (m : M A) : Prop :=
  forall w, ends_well P E m w.

Definition any_event (_ : Z * Event) : Prop := True.

(** The lines that report a deadline reached. *)
Definition deadline_line (m : LogMsg) : bool :=
  match m with
  | LStandbyDeadline _ | LReconnectDeadline _ | LReconnectDeadlineP1 => true
  | _ => false
  end.

(** A world left at a deadline: the duration is over and the last thing
    in the trace is the line that says so, written at that time. *)
Definition deadline_reached (initial_time duration : Z) (w : World) : Prop :=
  duration <= clock w - initial_time /\
  exists before m, trace w = before ++ [(clock w, ELog m)] /\ deadline_line m = true.

Definition anywhere (_ : World) : Prop := True.

Definition nowhere (_ : World) : Prop := False.

(** Everything but the first log line of a reconnection routine. *)
Definition not_reconnect_attempt (e : Event) : bool :=
  match e with
  | ELog LReconnectAttempt | ELog LReconnectAttemptP1 => false
  | _ => true
  end.

(** [adb connect ...] *)
Definition is_connect (e : Event) : bool :=
  match e with
  | EProc (_ :: verb :: _) _ _ => String.eqb verb "connect"
  | _ => false
  end.

Definition not_connect (e : Event) : bool := negb (is_connect e).

(** The events that are no [adb connect]. *)
Definition no_connect (te : Z * Event) : Prop := is_connect (snd te) = false.

(** The failure notifications of the dispatchers. *)
Definition is_failure_note (e : Event) : bool :=
  match e with
  | ELog (LKeyError _ _) | ELog (LFlowError _) | ELog (LAppError _ _) => true
  | _ => false
  end.

Definition count_failure_notes (d : list (Z * Event)) : nat :=
  List.length (filter (fun te => is_failure_note (snd te)) d).

(** The power query of [f_is_in_standby] and what the function makes of
    an answer: standby only when the answer came in time and names one of
    the three low-power states. *)
Definition dumpsys_cmd (device : string) : list string :=
  ["adb"; "-s"; device; "shell"; "dumpsys"; "power"].

Definition answer_standby (r : ProcResp) : bool :=
  match snd (run_result false (Some 5) r) with
  | inl out => reports_standby out
  | inr _ => false
  end.

(** The command of [f_send_key]. *)
Definition keyevent_cmd (device key_code : string) : list string :=
  ["adb"; "-s"; device; "shell"; "input"; "keyevent"; key_code].

(** Whether an answer lets a [check=True] command with the given timeout
    go through. *)
Definition answer_ok (timeout : option Z) (r : ProcResp) : bool :=
  match snd (run_result true timeout r) with
  | inl _ => true
  | inr _ => false
  end.

(** What [f_is_device_ready] makes of an answer. *)
Definition answer_ready (r : ProcResp) : bool :=
  match snd (run_result true None r) with
  | inl out => String.eqb (PyStr.strip out) "device"
  | inr _ => false
  end.


(** The ordinary events: all but [adb connect] and the opening line of a
    reconnection. *)
Definition ordinary (e : Event) : bool := (not_reconnect_attempt e && not_connect e)%bool.

(** The events of a trace that are not the opening line of a
    reconnection. *)
Definition quiet (te : Z * Event) : Prop := not_reconnect_attempt (snd te) = true.

(** The events of a trace that are no [adb connect] issued at or after
    the deadline of a run. *)
Definition before_deadline (initial_time duration : Z) (te : Z * Event) : Prop :=
  is_connect (snd te) = true -> fst te - initial_time < duration.

(** The world after [f_log]. *)
Definition logged (w : World) (m : LogMsg) : World :=
  with_trace w (trace w ++ [(clock w, ELog m)]).

(** The world after [time.sleep]. *)
Definition slept (w : World) (secs : Z) : World :=
  with_clock (with_trace w (trace w ++ [(clock w, ESleep secs)])) (clock w + secs).

(** A dispatcher that reports a failure once: a failure leaves the flag
    set and writes a notification only if the flag was not set; a success
    clears the flag. *)
Definition reports_failures_once (m : M bool) : Prop :=
  forall w,
    match m w with
    | Ret true w' => error_already_shown w' = false
    | Ret false w' =>
        error_already_shown w' = true /\
        exists d, trace w' = trace w ++ d /\
                  count_failure_notes d = (if error_already_shown w then 0 else 1)%nat
    | _ => True
    end.

(** A dispatcher that reports every failure and never touches the flag. *)
Definition reports_every_failure (m : M bool) : Prop :=
  forall w,
    match m w with
    | Ret ok w' =>
        error_already_shown w' = error_already_shown w /\
        exists d, trace w' = trace w ++ d /\
                  count_failure_notes d = (if ok then 0 else 1)%nat
    | Raise _ w' | Exit _ w' => error_already_shown w' = error_already_shown w
    | OutOfFuel => True
    end.

(* ===================================================================== *)
(** ** Concrete worlds *)
(* ===================================================================== *)

(** The environment that answers the first calls from a list and every
    later call with [default]. *)
Definition scripted (answers : list ProcResp) (default : ProcResp) : nat -> ProcResp :=
  fun n => nth n answers default.

Definition typed (lines : list string) : nat -> option string :=
  fun n => nth_error lines n.

(** [adb] answers after one second with return code 0 and this output. *)
Definition answer (stdout : string) : ProcResp :=
  {| p_dt := 1; p_res := Completed 0 stdout "" |}.

(** [adb] answers after one second with return code 1. *)
Definition refusal : ProcResp :=
  {| p_dt := 1; p_res := Completed 1 "" "error: closed" |}.

(** [adb] hangs for six seconds before it prints this output. *)
Definition slow_answer (stdout : string) : ProcResp :=
  {| p_dt := 6; p_res := Completed 0 stdout "" |}.

(** A tester connected to 10.0.0.7:5555 inside a screen session, at time
    [now], with the given environment and flag. *)
Definition connected_world (now : Z) (answers : nat -> ProcResp)
    (lines : nat -> option string) (flag : bool) : World :=
  mkWorld now answers 0 lines 0 true [] (Some "10.0.0.7:5555") "10.0.0.7" 5555
          (Some ("soak", 0)) flag.

(** A fresh tester, as [STBTester()] builds it, inside a screen session. *)
Definition fresh_world (answers : nat -> ProcResp) (lines : nat -> option string)
  : World :=
  mkWorld 0 answers 0 lines 0 true [] None "" 5555 None false.


(** A dispatcher whose first act is the send, that ends a successful
    send with a pause of [delay] seconds and pauses nowhere else, and
    that after a failed send pauses at most for the five seconds of the
    failure branch of [f_send_key]. *)
Definition pauses_only_after_success (delay : Z) (m : M bool) : Prop :=
  forall w,
    match m w with
    | Ret ok w' =>
        exists t cmd timeout rest,
          trace w' = trace w ++ (t, EProc cmd timeout (procs w (nproc w))) :: rest /\
          if ok then
            exists mid t', rest = mid ++ [(t', ESleep delay)] /\
                           forall t s, ~ In (t, ESleep s) mid
          else forall t s, In (t, ESleep s) rest -> s = 5
    | _ => True
    end.

(** A dispatcher that pauses [delay] seconds first, whatever comes of the
    send, then sends, and does not pause after a successful send. *)
Definition pauses_before_sending (delay : Z) (m : M bool) : Prop :=
  forall w,
    exists ok w' cmd timeout rest,
      m w = Ret ok w' /\
      trace w' = trace w ++ (clock w, ESleep delay)
                         :: (clock w + delay, EProc cmd timeout (procs w (nproc w)))
                         :: rest /\
      (ok = true -> forall t s, ~ In (t, ESleep s) rest).


(** [m], started in [w], returns [a] and leaves a world in [P]. *)
Definition returns {A} (m : M A) (w : World) (a : A) (P : World -> Prop) : Prop :=
  exists w', m w = Ret a w' /\ P w'.

(** [m], started in [w], raises [e] and leaves a world in [P]. *)
Definition raises {A} (m : M A) (w : World) (e : Exn) (P : World -> Prop) : Prop :=
  exists w', m w = Raise e w' /\ P w'.

(** The keyboard and the [adb] answers a world holds, and how many of
    each were consumed. *)
Definition at_io (lines : nat -> option string) (nlines nanswers : nat) (w : World)
  : Prop :=
  inputs w = lines /\ ninput w = nlines /\ nproc w = nanswers.


(** The trace of a standby wait that comes back, from a first poll at
    time [t]: polls that find the device in standby, each one followed,
    with the deadline not yet reached, by a pause of ten seconds after
    which the next poll starts; then one poll that does not find the
    device in standby. *)
Inductive polled (device : string) (initial_time duration : Z)
  : Z -> list (Z * Event) -> Prop :=
| polled_active t r :
    answer_standby r = false ->
    polled device initial_time duration t
           [(t, EProc (dumpsys_cmd device) (Some 5) r)]
| polled_standby t r rest :
    answer_standby r = true ->
    t + fst (run_result false (Some 5) r) - initial_time < duration ->
    polled device initial_time duration
           (t + fst (run_result false (Some 5) r) + 10) rest ->
    polled device initial_time duration t
           ((t, EProc (dumpsys_cmd device) (Some 5) r)
              :: (t + fst (run_result false (Some 5) r), ESleep 10)
              :: rest).

(** Fuel that is enough for a loop that pauses at least [pause] seconds
    in each round, started at time [now] of a run with this deadline. *)
Definition rounds_left (pause now initial_time duration : Z) : nat :=
  S (Z.to_nat ((initial_time + duration - now) / pause + 1)).


(** [adb connect <device>] *)
Definition connect_cmd (device : string) : list string := ["adb"; "connect"; device].

(** [adb -s <device> get-state] *)
Definition get_state_cmd (device : string) : list string :=
  ["adb"; "-s"; device; "get-state"].

(** What follows the connection in the last round of a reconnection, up
    to the HOME key: the lines of [f_connect_device], the readiness check
    on the device it returned, the line that announces the recovery, the
    pause of thirty seconds, and the HOME key that opens the
    reinitializer. *)
Definition recovery (d : string) (output : string) (r_ready : ProcResp)
    (announce : LogMsg) (r_home : ProcResp) : list Event :=
  [ELog (LConnected output);
   ESleep 10;
   EProc (get_state_cmd d) None r_ready;
   ELog announce;
   ESleep 30;
   EProc (keyevent_cmd d "3") (Some 5) r_home].

(** The trace [delta] of a reconnection that returned device [d]: a last
    connection attempt, issued before the deadline, that gave [d]; the
    readiness check on [d], passed; the HOME key, taken; and no further
    connection attempt. *)
Definition recovered (d : string) (initial_time duration : Z) (announce : LogMsg)
    (delta : list (Z * Event)) : Prop :=
  exists before t r_connect tail output r_ready r_home after,
    delta = before ++ (t, EProc (connect_cmd d) None r_connect) :: tail /\
    t - initial_time < duration /\
    map snd tail = recovery d output r_ready announce r_home ++ after /\
    answer_ready r_ready = true /\
    answer_ok (Some 5) r_home = true /\
    Forall (fun e => is_connect e = false) after.


(** A device that comes back at once: the connection is made, the device
    is ready, and every key is taken. *)
Definition device_back : nat -> ProcResp :=
  scripted [answer "connected to 10.0.0.7:5555"; answer "device"] (answer "").


(** The reconnection routine behind [check_and_send] in each family. *)
Definition reconnect (fam : Family) :=
  match fam with
  | Standard => f_reconnect_and_reinitialize
  | Project1 => f_reconnect_and_reinitialize_project1
  end.

(** The standby check that opens [f_check_and_send] and
    [f_check_and_send_project1]. *)
Definition standby_gate (fuel : nat) (device : string) (initial_time duration : Z)
  : M unit :=
  standby <- f_is_in_standby device ;;
  if standby then f_wait_standby_exit fuel device initial_time duration
  else ret tt.

(** A stretch of trace in which a reconnection was started: it holds the
    opening line of one of the two routines. *)
Definition reconnection_in (delta : list (Z * Event)) : Prop :=
  exists t, In (t, ELog LReconnectAttempt) delta \/
            In (t, ELog LReconnectAttemptP1) delta.

(** What a pass does to the loop counter: one more after a pass without
    a reconnection, zero after a pass with one. *)
Definition counted (delta : list (Z * Event)) (before after : Z) : Prop :=
  (Forall quiet delta /\ after = before + 1) \/
  (reconnection_in delta /\ after = 0).

(* ===================================================================== *)
(** ** Observations on the setup code *)
(* ===================================================================== *)

(** The answers the environment holds for the nine commands of a
    [f_disable_cec] started in [w]. *)
Definition cec_answers (w : World) : list ProcResp :=
  map (fun i => procs w (nproc w + i)%nat) (seq 0 9).

(** The summary line of a [f_disable_cec] that counted [n] successes. *)
Definition cec_summary (n : Z) : LogMsg :=
  LCec ("CEC disable completed: " ++ PyStr.of_Z n ++ "/7 methods successful")%string.

(** The world [w] of a [f_disable_cec] that left [w0] with its opening
    line, after [i] of its commands: [i] answers consumed, at most ten
    seconds spent on each. *)
Definition after_cec (w0 : World) (i : nat) (w : World) : Prop :=
  procs w = procs w0 /\ nproc w = (nproc w0 + i)%nat /\
  clock w0 <= clock w <= clock w0 + 10 * Z.of_nat i /\
  exists d, trace w = trace w0 ++ d.

(* ===================================================================== *)
(** ** What a call keeps *)
(* ===================================================================== *)

(** A call that has ended, however it ended, left a world in [Q]. *)
Definition ends_in {A} (o : Outcome A) (Q : World -> Prop) : Prop :=
  match o with
  | Ret _ w' | Raise _ w' | Exit _ w' => Q w'
  | OutOfFuel => True
  end.

(** [m] keeps [R]: wherever it starts and however it ends, the world it
    leaves is related by [R] to the one it started in. *)
Definition keeps (R : World -> World -> Prop) {A} (m : M A) : Prop :=
  forall w, ends_in (m w) (R w).

(** The session of the tester: [self.device], [self.ip], [self.port]. *)
Definition same_session (w w' : World) : Prop :=
  self_device w' = self_device w /\
  self_ip w' = self_ip w /\
  self_port w' = self_port w.

(** [self.device] is the identifier made of [self.ip] and [self.port]. *)
Definition session_of_address (w : World) : Prop :=
  self_device w = Some (device_id (self_ip w) (self_port w)).

(** A relation between worlds that no primitive call but the setters of
    the session breaks: a preorder that holds between a world and the
    same world with another trace, clock, count of answers or lines
    consumed, or failure flag. *)
Definition untouched (R : World -> World -> Prop) : Prop :=
  (forall w, R w w) /\
  (forall w1 w2 w3, R w1 w2 -> R w2 w3 -> R w1 w3) /\
  (forall w t, R w (with_trace w t)) /\
  (forall w t, R w (with_clock w t)) /\
  (forall w n, R w (with_nproc w n)) /\
  (forall w n, R w (with_ninput w n)) /\
  (forall w b, R w (with_error_shown w b)).

(** The step list a test repeats; for the standby test, which is written
    without a list, its two keys. *)
Definition test_steps (t : Test) : list Step :=
  match t with
  | ZappingStandard | ZappingProject1 => zapping_steps
  | NavigationProject1 => navigation_project1_steps
  | NavigationProject2 => navigation_project2_steps
  | NavigationProject3 => navigation_project3_steps
  | Apps => apps_steps
  | VolumeControl => volume_steps
  | StandbyWakeup => [f_send_standby_key; f_send_wake_up_key]
  end.

(** The environment of a run: the answers [adb] will give, the lines the
    operator will type, the screen session. *)
Definition same_environment (w w' : World) : Prop :=
  procs w' = procs w /\ inputs w' = inputs w /\ sty w' = sty w.

(** What [f_connect_device] makes of a completed [adb connect]. *)
Definition reports_connected (returncode : Z) (stdout : string) : bool :=
  (returncode =? 0) && PyStr.contains "connected" (PyStr.lower (PyStr.strip stdout)).

(** A call that has ended by returning a value and a world in [R] or by
    raising an exception and a world in [X]; it did not leave the process
    and it did not run out of fuel. *)
Definition ends_with {A} (o : Outcome A) (R : A -> World -> Prop)
    (X : Exn -> World -> Prop) : Prop :=
  match o with
  | Ret a w' => R a w'
  | Raise e w' => X e w'
  | Exit _ _ | OutOfFuel => False
  end.

(* ===================================================================== *)
(** ** Observations on the dispatchers and the log label *)
(* ===================================================================== *)

(** What a dispatcher whose handler takes the exceptions in [catches]
    makes of the answer to its command: True for a command that went
    through, False for a failure that the handler takes, the exception
    for a failure that it does not take. *)
Definition dispatched (catches : Exn -> bool) (m : M bool) (w : World) : Prop :=
  match snd (run_result true (Some 5) (procs w (nproc w))) with
  | inl _ => exists w', m w = Ret true w'
  | inr e =>
      if catches e then exists w', m w = Ret false w'
      else exists w', m w = Raise e w'
  end.

(** [" " not in s] *)
Definition no_space (s : string) : Prop := PyStr.contains " " s = false.

(** A call that does not run out of fuel, wherever it starts. *)
Definition finishes {A} (m : M A) : Prop := forall w, m w <> OutOfFuel.

(** A step that takes [delay] seconds or more when it goes through, and
    never puts the clock back. *)
Definition advances (delay : Z) (m : M bool) : Prop :=
  forall w b w', m w = Ret b w' ->
    clock w <= clock w' /\ (b = true -> clock w + delay <= clock w').


(** The trace of the standby check that precedes a step, when the step
    is reached: it ends with a poll that did not find the device in
    standby, followed at most by the closing line of the standby wait. *)
Definition gate_open (device : string) (gate : list (Z * Event)) : Prop :=
  exists before t r tail,
    gate = before ++ (t, EProc (dumpsys_cmd device) (Some 5) r) :: tail /\
    answer_standby r = false /\
    (tail = [] \/ exists t', tail = [(t', ELog LStandbyReturned)]).

(* ===================================================================== *)
(** ** Menus and main program *)
(* ===================================================================== *)

(** What the menus print, by block. *)
Inductive MenuText :=
| MProjectMenu (project : Z)  (* PROJECT n - AVAILABLE TESTS and its options *)
| MInvalidOption              (* Invalid option! Choose a valid option. *)
| MError (e : Exn)            (* Error: {e} *)
| MScreenMust                 (* This script MUST be executed within a 'screen' session *)
| MMainMenu                   (* STB TEST SUITE - SELECT PROJECT and its options *)
| MClosing                    (* Closing STB Test Suite... *)
| MInvalidMain                (* Invalid option!!! Choose a valid option. *)
| MUnexpected (e : Exn).      (* Unexpected error: {e} *)

(** The menus run on top of the tester: the world of the tester, and
    beside its trace the blocks the menus printed, with their times. *)
Record Console := mkConsole {
  tester : World;
  menu_lines : list (Z * MenuText)
}.

Inductive MenuOutcome (A : Type) :=
| MRet (a : A) (c : Console)
| MRaise (e : Exn) (c : Console)
| MExit (code : Z) (c : Console)
| MOutOfFuel.

Arguments MRet {A} a c.
Arguments MRaise {A} e c.
Arguments MExit {A} code c.
Arguments MOutOfFuel {A}.

Definition MenuM (A : Type) : Type := Console -> MenuOutcome A.

Definition menu_ret {A} (a : A) : MenuM A := fun c => MRet a c.

Definition menu_bind {A B} (m : MenuM A) (k : A -> MenuM B) : MenuM B :=
  fun c =>
    match m c with
    | MRet a c' => k a c'
    | MRaise e c' => MRaise e c'
    | MExit code c' => MExit code c'
    | MOutOfFuel => MOutOfFuel
    end.

Declare Scope menu_scope.
Delimit Scope menu_scope with menu.
Notation "x <- m ;; k" := (menu_bind m (fun x => k))
  (at level 61, m at next level, right associativity) : menu_scope.
Notation "m ;; k" := (menu_bind m (fun _ => k))
  (at level 61, right associativity) : menu_scope.

(** A call of the tester made from a menu. *)
Definition lift {A} (m : M A) : MenuM A :=
  fun c =>
    match m (tester c) with
    | Ret a w => MRet a (mkConsole w (menu_lines c))
    | Raise e w => MRaise e (mkConsole w (menu_lines c))
    | Exit code w => MExit code (mkConsole w (menu_lines c))
    | OutOfFuel => MOutOfFuel
    end.

(** [print] of a block of a menu. *)
Definition menu_print (t : MenuText) : MenuM unit :=
  fun c => MRet tt (mkConsole (tester c)
                              (menu_lines c ++ [(clock (tester c), t)])).

(** [try: m  except Exception as e: h e]; the handlers for
    [KeyboardInterrupt] have nothing to take here, where the operator
    types lines or ends the input. *)
Definition menu_try {A} (m : MenuM A) (h : Exn -> MenuM A) : MenuM A :=
  fun c =>
    match m c with
    | MRaise e c' => h e c'
    | o => o
    end.

(** What an iteration of a menu loop ends with. *)
Inductive LoopNext := Continue | Break.

(** The body of the loop of a project menu, with the two tests in which
    the three menus differ. *)
Definition project_menu_body (project : Z) (zapping navigation : M unit)
    (passes fuel : nat) : MenuM LoopNext :=
  (menu_print (MProjectMenu project) ;;
   menu_try
     (line <- lift (input "Choose an option: ") ;;
      let option := PyStr.strip line in
      if String.eqb option "1" then lift zapping ;; menu_ret Continue
      else if String.eqb option "2" then lift navigation ;; menu_ret Continue
      else if String.eqb option "3" then
        lift (f_test_apps passes fuel) ;; menu_ret Continue
      else if String.eqb option "4" then
        lift (f_test_standby_wakeup passes fuel) ;; menu_ret Continue
      else if String.eqb option "5" then
        lift (f_test_volume_control passes fuel) ;; menu_ret Continue
      else if String.eqb option "0" then menu_ret Break
      else
        menu_print MInvalidOption ;;
        lift (time_sleep 1) ;;
        lift clear_screen ;;
        menu_ret Continue)
     (fun e =>
        menu_print (MError e) ;;
        lift (time_sleep 1) ;;
        lift clear_screen ;;
        menu_ret Continue))%menu.

(** [while True: <body>] *)
Fixpoint menu_loop (rounds : nat) (body : MenuM LoopNext) : MenuM unit :=
  match rounds with
  | O => fun _ => MOutOfFuel
  | S rounds' =>
      (next <- body ;;
       match next with
       | Continue => menu_loop rounds' body
       | Break => menu_ret tt
       end)%menu
  end.

(** [STBTester.f_menu_project1] *)
Definition f_menu_project1 (rounds passes fuel : nat) : MenuM unit :=
  menu_loop rounds
    (project_menu_body 1 (f_test_zapping_project1 passes fuel)
                       (f_test_navigation_project1 passes fuel) passes fuel).

(** [STBTester.f_menu_project2] *)
Definition f_menu_project2 (rounds passes fuel : nat) : MenuM unit :=
  menu_loop rounds
    (project_menu_body 2 (f_test_zapping_standard passes fuel)
                       (f_test_navigation_project2 passes fuel) passes fuel).

(** [STBTester.f_menu_project3] *)
Definition f_menu_project3 (rounds passes fuel : nat) : MenuM unit :=
  menu_loop rounds
    (project_menu_body 3 (f_test_zapping_standard passes fuel)
                       (f_test_navigation_project3 passes fuel) passes fuel).

(** [f_show_menu] *)
Definition f_show_menu : MenuM unit :=
  (in_screen <- lift getenv_STY ;;
   if negb in_screen then
     menu_print MScreenMust ;;
     (fun c => MExit 1 c)
   else
     lift clear_screen ;;
     menu_print MMainMenu)%menu.

(** [STBTester()]: the fields as [__init__] sets them; the empty string
    stands for the address that is [None] until it is asked for. *)
Definition new_tester : M unit :=
  fun w =>
    Ret tt (with_error_shown
              (with_log_path (with_port (with_ip (with_device w None) "") 5555) None)
              false).

(** The body of the loop of [f_main]. *)
Definition main_body (rounds passes fuel : nat) : MenuM LoopNext :=
  (f_show_menu ;;
   menu_try
     (line <- lift (input "Choose an option: ") ;;
      let option := PyStr.strip line in
      if String.eqb option "1" then
        f_menu_project1 rounds passes fuel ;; menu_ret Continue
      else if String.eqb option "2" then
        f_menu_project2 rounds passes fuel ;; menu_ret Continue
      else if String.eqb option "3" then
        f_menu_project3 rounds passes fuel ;; menu_ret Continue
      else if String.eqb option "0" then
        menu_print MClosing ;; menu_ret Break
      else
        menu_print MInvalidMain ;;
        lift (time_sleep 1) ;;
        lift clear_screen ;;
        menu_ret Continue)
     (fun e =>
        menu_print (MUnexpected e) ;;
        lift (time_sleep 2) ;;
        menu_ret Continue))%menu.

(** [f_main]; [rounds] is the fuel of every menu loop. *)
Definition f_main (rounds passes fuel : nat) : MenuM unit :=
  (lift new_tester ;;
   menu_loop rounds (main_body rounds passes fuel))%menu.

(** The program started from the shell, in an environment [w]. *)
Definition start (w : World) : Console := mkConsole w [].

(** How the program ends: its status, [None] while a loop has fuel left
    to ask for. *)
Definition menu_status {A} (o : MenuOutcome A) : option Z :=
  match o with
  | MRet _ _ => Some 0
  | MRaise _ _ => Some 1
  | MExit code _ => Some code
  | MOutOfFuel => None
  end.

(** The operator has nothing more to type: the input is at its end from
    the next line on. *)
Definition input_over (w : World) : Prop :=
  forall n, (ninput w <= n)%nat -> inputs w n = None.

(** An outcome of a menu inside a screen session that is none of the
    outcomes the menus rule out there: it is no exit with a status other
    than 0 and, unless [may_raise], no exception; and the session is
    still there. *)
Definition menu_ok (may_raise : bool) {A} (o : MenuOutcome A) : Prop :=
  match o with
  | MRet _ c => sty (tester c) = true
  | MRaise _ c => may_raise = true /\ sty (tester c) = true
  | MExit code c => code = 0 /\ sty (tester c) = true
  | MOutOfFuel => True
  end.

(** The events that are not the opening line of the Project 1
    reconnection routine. *)
Definition not_project1_attempt (te : Z * Event) : Prop :=
  snd te <> ELog LReconnectAttemptP1.

(* ===================================================================== *)
(** * Properties *)
(* ===================================================================== *)

(** ** The strings *)

Example strip_example : PyStr.strip "  my log " = "my log".
Proof. reflexivity. Qed.

Example int_examples :
  PyStr.int "3600" = Some 3600 /\ PyStr.int "-5" = Some (-5) /\
  PyStr.int "1_000" = Some 1000 /\ PyStr.int "12h" = None /\
  PyStr.int "" = None /\ PyStr.int "1__0" = None /\ PyStr.int "007" = Some 7.
Proof. repeat split; reflexivity. Qed.

Example contains_example :
  PyStr.contains "connected" "already connected to 10.0.0.7:5555" = true /\
  PyStr.contains "asleep" "mwakefulness=awake" = false.
Proof. split; reflexivity. Qed.

Example device_id_example : device_id "10.0.0.7" 5555 = "10.0.0.7:5555".
Proof. reflexivity. Qed.

#[local] Arguments Z.add : simpl never.
#[local] Arguments Z.sub : simpl never.
#[local] Arguments Z.mul : simpl never.
#[local] Arguments run_result : simpl never.

(** Closes a goal [trace w' = trace w ++ ?d] once [w'] is explicit. *)
Ltac grown := rewrite <- ?app_assoc; eexists; split; [reflexivity|cbn [app]].

(** ** Worlds that continue worlds *)

Lemma f_log_eq m w : f_log m w = Ret tt (logged w m).
Proof. reflexivity. Qed.

Lemma time_sleep_eq secs w : time_sleep secs w = Ret tt (slept w secs).
Proof. reflexivity. Qed.


Section Extends.

Variable P : Z * Event -> Prop.
Variable E : World -> Prop.

Lemma extends_refl w : extends P w w.
Proof.
  split; [lia|]. exists []. rewrite app_nil_r. auto.
Qed.

Lemma extends_same w w' :
  clock w' = clock w -> trace w' = trace w -> extends P w w'.
Proof.
  intros Hc Ht. split; [lia|]. exists []. rewrite app_nil_r. auto.
Qed.

Lemma extends_trans w1 w2 w3 :
  extends P w1 w2 -> extends P w2 w3 -> extends P w1 w3.
Proof.
  intros [Hc1 (d1 & E1 & F1)] [Hc2 (d2 & E2 & F2)].
  split; [lia|]. exists (d1 ++ d2).
  rewrite E2, E1, app_assoc. split; [reflexivity|].
  apply Forall_app; auto.
Qed.

Lemma extends_one w w' te :
  clock w <= clock w' -> trace w' = trace w ++ [te] -> P te -> extends P w w'.
Proof.
  intros Hc Ht Hp. split; [exact Hc|]. exists [te]. split; [exact Ht|].
  constructor; [exact Hp|constructor].
Qed.

Lemma ends_well_bind {A B} (m : M A) (k : A -> M B) w :
  ends_well P E m w ->
  (forall a w1, m w = Ret a w1 -> ends_well P E (k a) w1) ->
  ends_well P E (bind m k) w.
Proof.
  unfold ends_well, bind. intros Hm Hk.
  destruct (m w) as [a w1|e w1|c w1|]; auto.
  specialize (Hk a w1 eq_refl).
  destruct (k a w1) as [b w2|e w2|c w2|]; auto;
    try (eapply extends_trans; eassumption).
  destruct Hk as (-> & Hk & HE). split; [reflexivity|]. split; [|exact HE].
  eapply extends_trans; eassumption.
Qed.

Lemma ends_well_try_except {A} (m : M A) catches (h : Exn -> M A) w :
  ends_well P E m w ->
  (forall e w1, m w = Raise e w1 -> ends_well P E (h e) w1) ->
  ends_well P E (try_except m catches h) w.
Proof.
  unfold ends_well, try_except. intros Hm Hh.
  destruct (m w) as [a w1|e w1|c w1|]; auto.
  destruct (catches e); auto.
  specialize (Hh e w1 eq_refl).
  destruct (h e w1) as [b w2|e2 w2|c w2|]; auto;
    try (eapply extends_trans; eassumption).
  destruct Hh as (-> & Hh & HE). split; [reflexivity|]. split; [|exact HE].
  eapply extends_trans; eassumption.
Qed.

Lemma behaves_ret {A} (a : A) : behaves P E (ret a).
Proof. intro w. apply extends_refl. Qed.

Lemma behaves_bind {A B} (m : M A) (k : A -> M B) :
  behaves P E m -> (forall a, behaves P E (k a)) -> behaves P E (bind m k).
Proof.
  intros Hm Hk w. apply ends_well_bind; [apply Hm|]. intros. apply Hk.
Qed.

Lemma behaves_try_except {A} (m : M A) catches (h : Exn -> M A) :
  behaves P E m -> (forall e, behaves P E (h e)) -> behaves P E (try_except m catches h).
Proof.
  intros Hm Hh w. apply ends_well_try_except; [apply Hm|]. intros. apply Hh.
Qed.

Lemma behaves_raise {A} e : behaves P E (@raise A e).
Proof. intro w. apply extends_refl. Qed.

Lemma ends_well_exit0 {A} w : E w -> ends_well P E (@sys_exit A 0) w.
Proof. intro HE. split; [reflexivity|]. split; [apply extends_refl|exact HE]. Qed.

Lemma ends_well_emit e w : P (clock w, e) -> ends_well P E (emit e) w.
Proof.
  intros He. apply (extends_one w _ (clock w, e)); [cbn; lia|reflexivity|exact He].
Qed.

Lemma behaves_emit e : (forall t, P (t, e)) -> behaves P E (emit e).
Proof. intros He w. apply ends_well_emit. apply He. Qed.

Lemma behaves_time_time : behaves P E time_time.
Proof. intro w. apply extends_refl. Qed.

Lemma behaves_time_sleep secs :
  0 <= secs -> (forall t, P (t, ESleep secs)) -> behaves P E (time_sleep secs).
Proof.
  intros Hs He w.
  apply (extends_one w _ (clock w, ESleep secs)); [cbn; lia|reflexivity|apply He].
Qed.

Lemma behaves_f_log m : (forall t, P (t, ELog m)) -> behaves P E (f_log m).
Proof. apply behaves_emit. Qed.

Lemma behaves_print b : (forall t, P (t, EPrint b)) -> behaves P E (print b).
Proof. apply behaves_emit. Qed.

Lemma behaves_clear_screen : (forall t, P (t, EClear)) -> behaves P E clear_screen.
Proof. apply behaves_emit. Qed.

Lemma behaves_input prompt :
  (forall t line, P (t, EInput prompt line)) -> behaves P E (input prompt).
Proof.
  intros He w. unfold ends_well, input.
  assert (extends P w
            (with_trace (with_ninput w (S (ninput w)))
               (trace w ++ [(clock w, EInput prompt (inputs w (ninput w)))]))).
  { eapply extends_one; [cbn; lia|reflexivity|apply He]. }
  destruct (inputs w (ninput w)); assumption.
Qed.

Lemma run_result_elapsed check timeout r :
  match timeout with Some t => 0 <= t | None => True end ->
  0 <= fst (run_result check timeout r).
Proof.
  unfold run_result. intros Ht.
  destruct timeout as [t|]; [destruct (t <? Z.of_N (p_dt r))|]; cbn; lia.
Qed.

Lemma ends_well_subprocess_run cmd check timeout w :
  match timeout with Some t => 0 <= t | None => True end ->
  P (clock w, EProc cmd timeout (procs w (nproc w))) ->
  ends_well P E (subprocess_run cmd check timeout) w.
Proof.
  intros Ht He. unfold ends_well, subprocess_run.
  pose proof (run_result_elapsed check timeout (procs w (nproc w)) Ht) as Hel.
  assert (extends P w
            (after_run w cmd timeout
               (fst (run_result check timeout (procs w (nproc w)))))).
  { eapply extends_one; [cbn; lia|reflexivity|exact He]. }
  destruct (snd (run_result check timeout (procs w (nproc w)))); assumption.
Qed.

Lemma behaves_subprocess_run cmd check timeout :
  match timeout with Some t => 0 <= t | None => True end ->
  (forall t r, P (t, EProc cmd timeout r)) ->
  behaves P E (subprocess_run cmd check timeout).
Proof. intros Ht He w. apply ends_well_subprocess_run; auto. Qed.

(** The accessors of [self] leave clock and trace alone. *)

Lemma behaves_get_device : behaves P E get_device.
Proof. intro w. apply extends_refl. Qed.

Lemma behaves_set_device d : behaves P E (set_device d).
Proof. intro w. apply extends_same; reflexivity. Qed.

Lemma behaves_the_device : behaves P E the_device.
Proof.
  intro w. unfold ends_well, the_device.
  destruct (self_device w); apply extends_refl.
Qed.

Lemma behaves_get_error_already_shown : behaves P E get_error_already_shown.
Proof. intro w. apply extends_refl. Qed.

Lemma behaves_set_error_already_shown b : behaves P E (set_error_already_shown b).
Proof. intro w. apply extends_same; reflexivity. Qed.

Lemma behaves_get_ip : behaves P E get_ip.
Proof. intro w. apply extends_refl. Qed.

Lemma behaves_set_ip i : behaves P E (set_ip i).
Proof. intro w. apply extends_same; reflexivity. Qed.

Lemma behaves_get_port : behaves P E get_port.
Proof. intro w. apply extends_refl. Qed.

Lemma behaves_set_port p : behaves P E (set_port p).
Proof. intro w. apply extends_same; reflexivity. Qed.

Lemma behaves_set_log_path p : behaves P E (set_log_path p).
Proof. intro w. apply extends_same; reflexivity. Qed.

Lemma behaves_getenv_STY : behaves P E getenv_STY.
Proof. intro w. apply extends_refl. Qed.

End Extends.

Lemma extends_weaken (P Q : Z * Event -> Prop) w w' :
  (forall te, P te -> Q te) -> extends P w w' -> extends Q w w'.
Proof.
  intros HPQ [Hc (d & E & F)]. split; [exact Hc|]. exists d. split; [exact E|].
  eapply Forall_impl; eauto.
Qed.

Lemma behaves_weaken (P Q : Z * Event -> Prop) (E F : World -> Prop) {A} (m : M A) :
  (forall te, P te -> Q te) -> (forall w, E w -> F w) ->
  behaves P E m -> behaves Q F m.
Proof.
  intros HPQ HEF H w. specialize (H w). unfold ends_well in *.
  destruct (m w); auto; try (eapply extends_weaken; eassumption).
  destruct H as (-> & H & HE). split; [reflexivity|].
  split; [eapply extends_weaken; eassumption|auto].
Qed.

Create HintDb behaves.

#[local] Hint Resolve behaves_get_device behaves_set_device behaves_the_device
  behaves_get_error_already_shown behaves_set_error_already_shown
  behaves_get_ip behaves_set_ip behaves_get_port behaves_set_port
  behaves_set_log_path behaves_getenv_STY behaves_time_time behaves_ret
  behaves_raise : behaves.

(** One step of the structural proof that a piece of code [behaves]:
    follow the shape of the code, leave the events to the caller. *)
Ltac behave_step :=
  match goal with
  | |- behaves _ _ (bind _ _) => apply behaves_bind; [|intro]
  | |- behaves _ _ (try_except _ _ _) => apply behaves_try_except; [|intro]
  | |- behaves _ _ (time_sleep _) => apply behaves_time_sleep; [lia|intro]
  | |- behaves _ _ (f_log _) => apply behaves_f_log; intro
  | |- behaves _ _ (print _) => apply behaves_print; intro
  | |- behaves _ _ clear_screen => apply behaves_clear_screen; intro
  | |- behaves _ _ (input _) => apply behaves_input; intros ? ?
  | |- behaves _ _ (subprocess_run _ _ _) =>
      apply behaves_subprocess_run; [cbn; try lia; exact I|intros ? ?]
  | |- behaves _ _ (if ?b then _ else _) => destruct b
  | |- behaves _ _ (match ?x with _ => _ end) => destruct x
  | |- behaves _ _ _ => solve [auto with behaves]
  end.

Ltac behave := repeat behave_step.

(** ** What the dispatchers and queries leave in the trace

    Everything in this section holds for any class of events that
    contains the ordinary ones: all but [adb connect] and the opening
    line of a reconnection. *)

Section Ordinary.

Variable P : Z * Event -> Prop.
Variable E : World -> Prop.
Hypothesis P_ordinary : forall t e, ordinary e = true -> P (t, e).

Ltac ord := behave; try (apply P_ordinary; reflexivity).

Lemma behaves_f_is_in_standby device : behaves P E (f_is_in_standby device).
Proof. unfold f_is_in_standby. ord. Qed.

Lemma behaves_f_is_device_ready device : behaves P E (f_is_device_ready device).
Proof. unfold f_is_device_ready. ord. Qed.

Lemma behaves_connected_and_ready d : behaves P E (connected_and_ready d).
Proof. unfold connected_and_ready. pose proof behaves_f_is_device_ready. ord. Qed.

Lemma behaves_f_send_key device key_code key_name :
  behaves P E (f_send_key device key_code key_name).
Proof. unfold f_send_key. ord. Qed.

Lemma behaves_send_then_sleep device key_code key_name delay :
  0 <= delay -> behaves P E (send_then_sleep device key_code key_name delay).
Proof.
  intro. unfold send_then_sleep. pose proof behaves_f_send_key. ord.
Qed.

Lemma behaves_sleep_then_send device key_code key_name delay :
  0 <= delay -> behaves P E (sleep_then_send device key_code key_name delay).
Proof.
  intro. unfold sleep_then_send. pose proof behaves_f_send_key. ord.
Qed.

Lemma behaves_f_send_flow_key device : behaves P E (f_send_flow_key device).
Proof. unfold f_send_flow_key. ord. Qed.

Lemma behaves_f_open_app device package description :
  behaves P E (f_open_app device package description).
Proof. unfold f_open_app, monkey_cmd. ord. Qed.

Lemma behaves_f_open_app_secondary device package description :
  behaves P E (f_open_app_secondary device package description).
Proof. unfold f_open_app_secondary, monkey_cmd. ord. Qed.

End Ordinary.

(** ** Loops that watch the deadline

    Here [E] has to hold where a deadline line was just written with the
    duration over; the process leaves nowhere else. *)

Section Deadlines.

Variable P : Z * Event -> Prop.
Variable E : World -> Prop.
Variables initial_time duration : Z.
Hypothesis P_ordinary : forall t e, ordinary e = true -> P (t, e).
Hypothesis E_deadline :
  forall w m, duration <= clock w - initial_time -> deadline_line m = true ->
              E (logged w m).

Lemma ends_well_deadline_check m w :
  deadline_line m = true -> ordinary (ELog m) = true ->
  ends_well P E
    (if clock w - initial_time >=? duration then f_log m ;; @sys_exit unit 0
     else ret tt) w.
Proof.
  intros Hm Ho. destruct (clock w - initial_time >=? duration) eqn:Echeck.
  - rewrite Z.geb_leb in Echeck. apply Z.leb_le in Echeck.
    apply ends_well_bind.
    + apply behaves_f_log. intro. apply P_ordinary. exact Ho.
    + intros u w1 Hlog. rewrite f_log_eq in Hlog. inversion Hlog; subst.
      apply ends_well_exit0. apply E_deadline; assumption.
  - apply behaves_ret.
Qed.

Lemma behaves_wait_standby_loop fuel device :
  behaves P E (wait_standby_loop fuel device initial_time duration).
Proof.
  induction fuel as [|fuel IH]; cbn [wait_standby_loop]; intro w; [exact I|].
  apply ends_well_bind; [apply behaves_f_is_in_standby; exact P_ordinary|].
  intros standby w1 _. destruct standby; [|apply behaves_ret].
  apply ends_well_bind; [apply behaves_time_time|].
  intros now w2 Hnow. inversion Hnow; subst.
  apply ends_well_bind; [apply ends_well_deadline_check; reflexivity|].
  intros u w3 _.
  apply ends_well_bind; [|intros; apply IH].
  apply behaves_time_sleep; [lia|]. intro. apply P_ordinary. reflexivity.
Qed.

Lemma behaves_f_wait_standby_exit fuel device :
  behaves P E (f_wait_standby_exit fuel device initial_time duration).
Proof.
  unfold f_wait_standby_exit. pose proof (behaves_wait_standby_loop fuel device).
  behave; apply P_ordinary; reflexivity.
Qed.

End Deadlines.

(** ** Failure notifications (C7) *)

Lemma f_send_key_reports_once device key_code key_name :
  reports_failures_once (f_send_key device key_code key_name).
Proof.
  intro w. unfold f_send_key, try_except, bind, subprocess_run.
  destruct (snd (run_result true (Some 5) (procs w (nproc w)))) as [out|e]; cbn.
  - reflexivity.
  - destruct (error_already_shown w) eqn:Eshown; cbn; rewrite ?Eshown;
      (split; [reflexivity|]); grown; reflexivity.
Qed.

(** The three launchers share their shape, and their proof. *)
Ltac launcher_reports_every_failure :=
  let w := fresh "w" in
  intro w; unfold try_except, bind, subprocess_run;
  destruct (snd (run_result true (Some 5) (procs w (nproc w)))) as [?|[]]; cbn;
  try reflexivity; (split; [reflexivity|]); grown; reflexivity.

Lemma f_open_app_reports_every_failure device package description :
  reports_every_failure (f_open_app device package description).
Proof. unfold f_open_app. launcher_reports_every_failure. Qed.

Lemma f_open_app_secondary_reports_every_failure device package description :
  reports_every_failure (f_open_app_secondary device package description).
Proof. unfold f_open_app_secondary. launcher_reports_every_failure. Qed.

Lemma f_send_flow_key_reports_every_failure device :
  reports_every_failure (f_send_flow_key device).
Proof. unfold f_send_flow_key. launcher_reports_every_failure. Qed.

(** C7, as the code has it.  A key press reports a failure only when the
    flag is not set and then sets it, and clears the flag on success.
    The three app launchers report every failure, whatever the flag says,
    and leave the flag as it is on success and on failure. *)
Theorem failure_notifications_deduplicated_for_keys_only :
  forall device key_code key_name package description,
    reports_failures_once (f_send_key device key_code key_name) /\
    reports_every_failure (f_open_app device package description) /\
    reports_every_failure (f_open_app_secondary device package description) /\
    reports_every_failure (f_send_flow_key device).
Proof.
  intros. repeat split.
  - apply f_send_key_reports_once.
  - apply f_open_app_reports_every_failure.
  - apply f_open_app_secondary_reports_every_failure.
  - apply f_send_flow_key_reports_every_failure.
Qed.

(** C7 as stated fails for an app launch: with the flag already set, a
    failing launch of Netflix still writes its failure line. *)
Lemma app_launch_failure_not_deduplicated :
  ~ reports_failures_once (f_open_app "10.0.0.7:5555" "com.netflix.ninja" "Netflix").
Proof.
  intro H.
  specialize (H (connected_world 100 (scripted [] refusal) (typed []) true)).
  vm_compute in H. destruct H as (_ & d & E & C).
  subst d. discriminate C.
Qed.

(** ** Settle delays (C8) *)

Ltac no_sleep_in :=
  let H := fresh in
  intros ? ? H; cbn in H;
  repeat (destruct H as [H|H]; [try discriminate H|]); try contradiction.

Lemma send_then_sleep_pauses_after device key_code key_name delay :
  pauses_only_after_success delay (send_then_sleep device key_code key_name delay).
Proof.
  intro w. unfold send_then_sleep, f_send_key, try_except, bind, subprocess_run.
  destruct (snd (run_result true (Some 5) (procs w (nproc w)))) as [out|e]; cbn.
  - do 4 eexists. rewrite <- ?app_assoc. split; [reflexivity|].
    exists [(clock w + fst (run_result true (Some 5) (procs w (nproc w))),
             ELog (LKeySent key_name))].
    eexists. split; [reflexivity|]. no_sleep_in.
  - destruct (error_already_shown w) eqn:Eshown; cbn;
      do 4 eexists; rewrite <- ?app_assoc; (split; [reflexivity|]);
      intros t s H; cbn in H;
      repeat (destruct H as [H|H]; [try discriminate H|]); try contradiction;
      inversion H; reflexivity.
Qed.

Lemma sleep_then_send_pauses_before device key_code key_name delay :
  pauses_before_sending delay (sleep_then_send device key_code key_name delay).
Proof.
  intro w. unfold sleep_then_send, f_send_key, try_except, bind, subprocess_run.
  cbn.
  destruct (snd (run_result true (Some 5) _)) as [out|e]; cbn.
  - do 5 eexists. rewrite <- ?app_assoc. split; [reflexivity|].
    split; [reflexivity|]. intros _. no_sleep_in.
  - destruct (error_already_shown w) eqn:Eshown; cbn;
      do 5 eexists; rewrite <- ?app_assoc; (split; [reflexivity|]);
      (split; [reflexivity|]); intro; discriminate.
Qed.

Ltac launcher_pauses_after :=
  let w := fresh "w" in
  intro w; unfold try_except, bind, subprocess_run;
  destruct (snd (run_result true (Some 5) (procs w (nproc w)))) as [?|[]]; cbn;
  try exact I;
  do 4 eexists; rewrite <- ?app_assoc; (split; [reflexivity|]);
  [ eexists [(_, ELog _)]; eexists; split; [reflexivity|no_sleep_in]
  | no_sleep_in .. ].

Lemma f_open_app_pauses_after device package description :
  pauses_only_after_success 30 (f_open_app device package description).
Proof. unfold f_open_app. launcher_pauses_after. Qed.

Lemma f_open_app_secondary_pauses_after device package description :
  pauses_only_after_success 30 (f_open_app_secondary device package description).
Proof. unfold f_open_app_secondary. launcher_pauses_after. Qed.

Lemma f_send_flow_key_pauses_after device :
  pauses_only_after_success 15 (f_send_flow_key device).
Proof. unfold f_send_flow_key. launcher_pauses_after. Qed.



Example channel_up_trace :
  option_map trace
    (final (f_send_channelUP_key "10.0.0.7:5555"
              (connected_world 100 (scripted [] (answer "")) (typed []) false)))
  = Some [(100, ESleep 20);
          (120, EProc (keyevent_cmd "10.0.0.7:5555" "166") (Some 5) (answer ""));
          (121, ELog (LKeySent "KEY_CHANNEL_UP"))].
Proof. reflexivity. Qed.

(** ** The log label (C9) *)

Lemma f_setup_logging_result test_name w raw :
  inputs w (ninput w) = Some raw ->
  let label := PyStr.replace_space (PyStr.strip raw) in
  let log_name :=
    if PyStr.is_empty label then ("log_" ++ PyStr.lower test_name)%string else label in
  exists w',
    f_setup_logging test_name w = Ret (PyStr.len log_name <=? 50) w' /\
    nproc w' = nproc w /\
    self_log_path w' =
      (if PyStr.len log_name <=? 50 then Some (log_name, clock w)
       else self_log_path w).
Proof.
  intros Hin label log_name.
  unfold f_setup_logging, try_except, bind, input. rewrite Hin.
  fold label. fold log_name.
  rewrite Z.leb_antisym.
  destruct (50 <? PyStr.len log_name); cbn; eexists; repeat split; reflexivity.
Qed.

Lemma test_frame_without_logging title label run_loop w w1 :
  sty w = true ->
  f_setup_logging label
    (with_trace w (trace w ++ [(clock w, ELog (LTestStart title))])) = Ret false w1 ->
  test_frame title label run_loop w = Ret tt w1.
Proof.
  intros Hsty Hsetup.
  unfold test_frame, bind, f_log, emit, getenv_STY. cbn.
  rewrite Hsty. cbn. rewrite Hsetup. reflexivity.
Qed.




Example long_label_rejected :
  returned (f_setup_logging "ZAPPING_STANDARD"
              (fresh_world (scripted [] refusal)
                 (typed ["a label of fifty-five characters, which is too long...."])))
  = Some false.
Proof. reflexivity. Qed.

(** ** The custom duration (C5) *)

Lemma custom_duration_result s w :
  custom_duration s w =
    match PyStr.int s with
    | Some d =>
        if d <=? 0 then Raise (ValueError "Duration must be a positive number") w
        else if 432000 <? d then Raise (ValueError "Max duration of 120 hours / 5 days") w
        else Ret d w
    | None => Raise (ValueError "Custom duration must be a valid positive integer") w
    end.
Proof.
  unfold custom_duration, try_except, bind, py_int.
  destruct (PyStr.int s) as [d|]; cbn.
  - destruct (d <=? 0); cbn; [reflexivity|].
    destruct (432000 <? d); reflexivity.
  - reflexivity.
Qed.

(** *** Following a call through its binds *)

Lemma returns_bind {A B} (m : M A) (k : A -> M B) w a b Q P :
  returns m w a Q -> (forall w1, Q w1 -> returns (k a) w1 b P) ->
  returns (bind m k) w b P.
Proof.
  intros (w1 & E & HQ) Hk. destruct (Hk w1 HQ) as (w2 & E2 & HP).
  exists w2. unfold bind. rewrite E. auto.
Qed.

Lemma raises_bind_now {A B} (m : M A) (k : A -> M B) w e P :
  raises m w e P -> raises (bind m k) w e P.
Proof.
  intros (w1 & E & HP). exists w1. unfold bind. rewrite E. auto.
Qed.

Lemma raises_bind_later {A B} (m : M A) (k : A -> M B) w a e Q P :
  returns m w a Q -> (forall w1, Q w1 -> raises (k a) w1 e P) ->
  raises (bind m k) w e P.
Proof.
  intros (w1 & E & HQ) Hk. destruct (Hk w1 HQ) as (w2 & E2 & HP).
  exists w2. unfold bind. rewrite E. auto.
Qed.

Lemma returns_try {A} (m : M A) catches h w a P :
  returns m w a P -> returns (try_except m catches h) w a P.
Proof.
  intros (w1 & E & HP). exists w1. unfold try_except. rewrite E. auto.
Qed.

Lemma returns_handler {A} (m : M A) catches h w e a Q P :
  raises m w e Q -> catches e = true ->
  (forall w1, Q w1 -> returns (h e) w1 a P) ->
  returns (try_except m catches h) w a P.
Proof.
  intros (w1 & E & HQ) Hc Hh. destruct (Hh w1 HQ) as (w2 & E2 & HP).
  exists w2. unfold try_except. rewrite E, Hc. auto.
Qed.

Lemma raises_handler {A} (m : M A) catches h w e e' Q P :
  raises m w e Q -> catches e = true ->
  (forall w1, Q w1 -> raises (h e) w1 e' P) ->
  raises (try_except m catches h) w e' P.
Proof.
  intros (w1 & E & HQ) Hc Hh. destruct (Hh w1 HQ) as (w2 & E2 & HP).
  exists w2. unfold try_except. rewrite E, Hc. auto.
Qed.

Lemma returns_ret {A} (a : A) w (P : World -> Prop) : P w -> returns (ret a) w a P.
Proof. intro. exists w. auto. Qed.

Lemma raises_raise {A} e w (P : World -> Prop) : P w -> raises (@raise A e) w e P.
Proof. intro. exists w. auto. Qed.

Section AtIo.

Variable lines : nat -> option string.
Variables nlines nanswers : nat.

Lemma at_io_emit e w :
  at_io lines nlines nanswers w ->
  returns (emit e) w tt (at_io lines nlines nanswers).
Proof. intros (H1 & H2 & H3). eexists. split; [reflexivity|]. repeat split; assumption. Qed.

Lemma at_io_print b w :
  at_io lines nlines nanswers w ->
  returns (print b) w tt (at_io lines nlines nanswers).
Proof. apply at_io_emit. Qed.

Lemma at_io_f_log m w :
  at_io lines nlines nanswers w ->
  returns (f_log m) w tt (at_io lines nlines nanswers).
Proof. apply at_io_emit. Qed.

Lemma at_io_clear_screen w :
  at_io lines nlines nanswers w ->
  returns clear_screen w tt (at_io lines nlines nanswers).
Proof. apply at_io_emit. Qed.

Lemma at_io_time_sleep secs w :
  at_io lines nlines nanswers w ->
  returns (time_sleep secs) w tt (at_io lines nlines nanswers).
Proof. intros (H1 & H2 & H3). eexists. split; [reflexivity|]. repeat split; assumption. Qed.

Lemma at_io_set_ip i w :
  at_io lines nlines nanswers w ->
  returns (set_ip i) w tt (fun w' => at_io lines nlines nanswers w' /\ self_ip w' = i).
Proof. intros (H1 & H2 & H3). eexists. split; [reflexivity|]. repeat split; assumption. Qed.

Lemma at_io_get_ip w (P : World -> Prop) :
  P w -> returns get_ip w (self_ip w) P.
Proof. intro. exists w. auto. Qed.

Lemma at_io_set_port p w :
  at_io lines nlines nanswers w ->
  returns (set_port p) w tt (at_io lines nlines nanswers).
Proof. intros (H1 & H2 & H3). eexists. split; [reflexivity|]. repeat split; assumption. Qed.

Lemma at_io_input prompt s w :
  at_io lines nlines nanswers w -> lines nlines = Some s ->
  returns (input prompt) w s (at_io lines (S nlines) nanswers).
Proof.
  intros (H1 & H2 & H3) Hs. unfold returns, input.
  rewrite H1, H2, Hs. eexists. split; [reflexivity|].
  repeat split; cbn; congruence.
Qed.

Lemma at_io_input_eof prompt w :
  at_io lines nlines nanswers w -> lines nlines = None ->
  raises (input prompt) w EOFError (at_io lines (S nlines) nanswers).
Proof.
  intros (H1 & H2 & H3) Hs. unfold raises, input.
  rewrite H1, H2, Hs. eexists. split; [reflexivity|].
  repeat split; cbn; congruence.
Qed.

Lemma at_io_f_list_connected_devices w :
  at_io lines nlines nanswers w ->
  returns f_list_connected_devices w tt (at_io lines nlines (S nanswers)).
Proof.
  intros (H1 & H2 & H3).
  unfold returns, f_list_connected_devices, try_except, bind, subprocess_run.
  destruct (snd (run_result true None (procs w (nproc w)))); cbn;
    eexists; (split; [reflexivity|]); repeat split; cbn; congruence.
Qed.

End AtIo.

Lemma int_of_empty s : PyStr.is_empty s = true -> PyStr.int s = None.
Proof. destruct s; [reflexivity|discriminate]. Qed.

Lemma eqb_3_1 : String.eqb "3" "1" = false.
Proof. reflexivity. Qed.

Lemma eqb_3_2 : String.eqb "3" "2" = false.
Proof. reflexivity. Qed.

Lemma eqb_3_3 : String.eqb "3" "3" = true.
Proof. reflexivity. Qed.

(** Runs the first call of a bind with a lemma about it. *)
Ltac step bindlem lem :=
  eapply bindlem; [eapply lem; eauto|cbv beta; intros ? ?].

(** The calls of [f_get_connection_info] up to the third [input], for an
    operator who gives an address and chooses option 3. *)
Ltac to_custom_line bindlem Hne H3 :=
  step bindlem at_io_f_list_connected_devices;
  step bindlem at_io_input;
  step bindlem at_io_set_ip;
  match goal with H : _ /\ self_ip ?w = _ |- _ =>
    let Hio := fresh "Hio" in let Hv := fresh "Hv" in
    destruct H as [Hio Hv];
    eapply bindlem; [apply at_io_get_ip; exact Hio|cbv beta; intros ? ?];
    rewrite Hv
  end;
  match goal with |- context [PyStr.is_empty ?s] =>
    destruct s eqn:?; [congruence|]; cbn [PyStr.is_empty]
  end;
  eapply bindlem; [apply returns_ret; eassumption|cbv beta; intros ? ?];
  step bindlem at_io_set_port;
  step bindlem at_io_print;
  step bindlem at_io_input;
  rewrite H3, eqb_3_1, eqb_3_2, eqb_3_3; cbn [PyStr.is_empty];
  eapply bindlem; [apply returns_ret; eassumption|cbv beta; intros ? ?];
  step bindlem at_io_input.

Lemma connection_info_custom w ip_line choice custom :
  inputs w (ninput w) = Some ip_line ->
  PyStr.strip ip_line <> "" ->
  inputs w (S (ninput w)) = Some choice ->
  PyStr.strip choice = "3" ->
  inputs w (S (S (ninput w))) = Some custom ->
  returns f_get_connection_info w
    (match PyStr.int (PyStr.strip custom) with
     | Some d => if (0 <? d) && (d <=? 432000) then Some d else None
     | None => None
     end)
    (at_io (inputs w) (S (S (S (ninput w)))) (S (nproc w))).
Proof.
  intros Hip Hne Hchoice H3 Hcustom.
  assert (H0 : at_io (inputs w) (ninput w) (nproc w) w) by (repeat split).
  unfold f_get_connection_info.
  set (handler := fun e : Exn => _).
  assert (Hhandler : forall msg w1,
             at_io (inputs w) (S (S (S (ninput w)))) (S (nproc w)) w1 ->
             returns (handler (ValueError msg)) w1 None
                     (at_io (inputs w) (S (S (S (ninput w)))) (S (nproc w)))).
  { intros msg w1 H1. unfold handler.
    step @returns_bind at_io_print.
    step @returns_bind at_io_time_sleep.
    step @returns_bind at_io_clear_screen.
    apply returns_ret. assumption. }
  destruct (PyStr.is_empty (PyStr.strip custom)) eqn:Eempty.
  { rewrite (int_of_empty _ Eempty).
    eapply returns_handler;
      [ to_custom_line @raises_bind_later Hne H3;
        rewrite Eempty; apply raises_bind_now; apply raises_raise; eassumption
      | reflexivity
      | intros; apply Hhandler; eassumption ]. }
  assert (Hrejected : forall msg,
             (forall w1, custom_duration (PyStr.strip custom) w1
                         = Raise (ValueError msg) w1) ->
             returns (try_except
                        (f_list_connected_devices ;;
                         ip_line0 <- input "Enter the IP address (ex: 192.168.x.x): " ;;
                         set_ip (PyStr.strip ip_line0) ;;
                         ip <- get_ip ;;
                         (if PyStr.is_empty ip
                          then raise (ValueError "IP address cannot be empty")
                          else ret tt) ;;
                         set_port 5555 ;;
                         print BDurationMenu ;;
                         duration_line <- input "Enter the desired duration: " ;;
                         (if PyStr.is_empty (PyStr.strip duration_line)
                          then raise (ValueError "Duration cannot be empty!")
                          else ret tt) ;;
                         (if String.eqb (PyStr.strip duration_line) "1"
                          then ret (Some (12 * 60 * 60))
                          else
                            if String.eqb (PyStr.strip duration_line) "2"
                            then ret (Some (24 * 60 * 60))
                            else
                              if String.eqb (PyStr.strip duration_line) "3"
                              then
                                custom_line <- input "Set the duration in seconds: " ;;
                                (if PyStr.is_empty (PyStr.strip custom_line)
                                 then raise (ValueError "Custom duration cannot be empty!")
                                 else ret tt) ;;
                                duration <- custom_duration (PyStr.strip custom_line) ;;
                                ret (Some duration)
                              else raise (ValueError "Invalid Option!")))
                        is_ValueError handler) w None
                     (at_io (inputs w) (S (S (S (ninput w)))) (S (nproc w)))).
  { intros msg Hraise.
    eapply returns_handler;
      [ to_custom_line @raises_bind_later Hne H3;
        rewrite Eempty;
        eapply raises_bind_later;
          [apply returns_ret; eassumption|cbv beta; intros ? ?];
        apply raises_bind_now; eexists; split; [apply Hraise|eassumption]
      | reflexivity
      | intros; apply Hhandler; eassumption ]. }
  destruct (PyStr.int (PyStr.strip custom)) as [d|] eqn:Eint.
  - destruct (0 <? d) eqn:Epos; cbn [andb].
    + destruct (d <=? 432000) eqn:Emax.
      * apply returns_try.
        to_custom_line @returns_bind Hne H3.
        rewrite Eempty.
        eapply returns_bind; [apply returns_ret; eassumption|cbv beta; intros ? ?].
        eapply returns_bind; [|cbv beta; intros ? ?; apply returns_ret; eassumption].
        eexists. split; [|eassumption].
        rewrite custom_duration_result, Eint.
        rewrite Z.leb_antisym, Epos, Z.ltb_antisym, Emax. reflexivity.
      * eapply Hrejected. intro w1.
        rewrite custom_duration_result, Eint.
        rewrite Z.leb_antisym, Epos, Z.ltb_antisym, Emax. reflexivity.
    + eapply Hrejected. intro w1.
      rewrite custom_duration_result, Eint.
      rewrite Z.leb_antisym, Epos. reflexivity.
  - eapply Hrejected. intro w1.
    rewrite custom_duration_result, Eint. reflexivity.
Qed.

Lemma test_frame_without_duration title label run_loop w0 w w' :
  sty w0 = true ->
  f_setup_logging label
    (with_trace w0 (trace w0 ++ [(clock w0, ELog (LTestStart title))])) = Ret true w ->
  f_get_connection_info w = Ret None w' ->
  test_frame title label run_loop w0 = Ret tt w'.
Proof.
  intros Hsty Hsetup Hinfo.
  unfold test_frame, bind, f_log, emit, getenv_STY. cbn.
  rewrite Hsty. cbn. rewrite Hsetup. cbn. rewrite Hinfo. reflexivity.
Qed.



Example custom_duration_examples :
  let run line :=
    returned (f_get_connection_info
                (fresh_world (scripted [] (answer "List of devices attached"))
                             (typed ["10.0.0.7"; "3"; line]))) in
  run "432000" = Some (Some 432000) /\ run "432001" = Some None /\
  run "0" = Some None /\ run "-5" = Some None /\ run "two hours" = Some None /\
  run "" = Some None /\ run "1" = Some (Some 1).
Proof. repeat split; reflexivity. Qed.

(** ** Following a call backwards from its outcome *)

Lemma bind_Ret_inv {A B} (m : M A) (k : A -> M B) w b w' :
  bind m k w = Ret b w' ->
  exists a w1, m w = Ret a w1 /\ k a w1 = Ret b w'.
Proof.
  unfold bind. destruct (m w) as [a w1|e w1|c w1|]; try discriminate. eauto.
Qed.

Lemma bind_Exit_inv {A B} (m : M A) (k : A -> M B) w c w' :
  bind m k w = Exit c w' ->
  m w = Exit c w' \/ exists a w1, m w = Ret a w1 /\ k a w1 = Exit c w'.
Proof.
  unfold bind. destruct (m w) as [a w1|e w1|c1 w1|]; try discriminate; intro H.
  - right. eauto.
  - left. inversion H. reflexivity.
Qed.

Lemma bind_eq {A B} (m : M A) (k : A -> M B) w a w1 :
  m w = Ret a w1 -> bind m k w = k a w1.
Proof. unfold bind. intros ->. reflexivity. Qed.

(** ** The standby wait (C2) *)

Lemma f_is_in_standby_eq device w :
  f_is_in_standby device w =
    Ret (answer_standby (procs w (nproc w)))
        (after_run w (dumpsys_cmd device) (Some 5)
           (fst (run_result false (Some 5) (procs w (nproc w))))).
Proof.
  unfold f_is_in_standby, try_except, bind, subprocess_run, answer_standby.
  destruct (snd (run_result false (Some 5) (procs w (nproc w)))); reflexivity.
Qed.

Lemma wait_standby_loop_eq fuel device initial_time duration w :
  wait_standby_loop (S fuel) device initial_time duration w =
    let r := procs w (nproc w) in
    let w1 := after_run w (dumpsys_cmd device) (Some 5)
                        (fst (run_result false (Some 5) r)) in
    if answer_standby r then
      if clock w1 - initial_time >=? duration
      then Exit 0 (logged w1 (LStandbyDeadline duration))
      else wait_standby_loop fuel device initial_time duration (slept w1 10)
    else Ret tt w1.
Proof.
  cbn [wait_standby_loop]. rewrite (bind_eq _ _ _ _ _ (f_is_in_standby_eq device w)).
  cbv zeta. destruct (answer_standby (procs w (nproc w))); [|reflexivity].
  unfold bind, time_time.
  destruct (clock _ - initial_time >=? duration); reflexivity.
Qed.

Lemma f_wait_standby_exit_eq fuel device initial_time duration w :
  f_wait_standby_exit fuel device initial_time duration w =
    match wait_standby_loop fuel device initial_time duration
                            (logged w LStandbyWaiting) with
    | Ret _ w1 => Ret tt (logged w1 LStandbyReturned)
    | Raise e w1 => Raise e w1
    | Exit c w1 => Exit c w1
    | OutOfFuel => OutOfFuel
    end.
Proof.
  unfold f_wait_standby_exit. rewrite (bind_eq _ _ _ _ _ (f_log_eq _ w)).
  unfold bind.
  destruct (wait_standby_loop fuel device initial_time duration _); reflexivity.
Qed.

Lemma wait_standby_loop_returns device initial_time duration fuel :
  forall w u w',
    wait_standby_loop fuel device initial_time duration w = Ret u w' ->
    exists polls,
      trace w' = trace w ++ polls /\
      polled device initial_time duration (clock w) polls.
Proof.
  induction fuel as [|fuel IH]; intros w u w' H; [discriminate H|].
  rewrite wait_standby_loop_eq in H. cbv zeta in H.
  destruct (answer_standby (procs w (nproc w))) eqn:Eanswer.
  - destruct (_ >=? duration) eqn:Echeck in H; [discriminate H|].
    rewrite Z.geb_leb in Echeck; apply Z.leb_gt in Echeck.
    destruct (IH _ _ _ H) as (polls & Et & Hp).
    exists ((clock w, EProc (dumpsys_cmd device) (Some 5) (procs w (nproc w)))
              :: (clock w + fst (run_result false (Some 5) (procs w (nproc w))),
                  ESleep 10)
              :: polls).
    split.
    + rewrite Et. cbn. rewrite <- !app_assoc. reflexivity.
    + cbn in Hp, Echeck. apply polled_standby; assumption.
  - inversion H; subst.
    exists [(clock w, EProc (dumpsys_cmd device) (Some 5) (procs w (nproc w)))].
    split; [reflexivity|].
    apply polled_active. exact Eanswer.
Qed.

Lemma wait_standby_loop_exits device initial_time duration fuel :
  forall w c w',
    wait_standby_loop fuel device initial_time duration w = Exit c w' ->
    c = 0 /\ duration <= clock w' - initial_time /\
    exists before t r,
      trace w' = trace w ++ before
                   ++ [(t, EProc (dumpsys_cmd device) (Some 5) r);
                       (clock w', ELog (LStandbyDeadline duration))] /\
      answer_standby r = true.
Proof.
  induction fuel as [|fuel IH]; intros w c w' H; [discriminate H|].
  rewrite wait_standby_loop_eq in H. cbv zeta in H.
  destruct (answer_standby (procs w (nproc w))) eqn:Eanswer; [|discriminate H].
  destruct (_ >=? duration) eqn:Echeck in H.
  - inversion H; subst. rewrite Z.geb_leb in Echeck. apply Z.leb_le in Echeck.
    split; [reflexivity|]. split; [cbn in *; lia|].
    exists [], (clock w), (procs w (nproc w)). split; [|exact Eanswer].
    cbn. rewrite <- !app_assoc. reflexivity.
  - destruct (IH _ _ _ H) as (-> & Hd & before & t & r & Et & Hr).
    split; [reflexivity|]. split; [exact Hd|].
    exists ((clock w, EProc (dumpsys_cmd device) (Some 5) (procs w (nproc w)))
              :: (clock w + fst (run_result false (Some 5) (procs w (nproc w))),
                  ESleep 10)
              :: before), t, r.
    split; [|exact Hr].
    rewrite Et. cbn. rewrite <- !app_assoc. reflexivity.
Qed.

Lemma wait_standby_loop_never_raises device initial_time duration fuel :
  forall w e w',
    wait_standby_loop fuel device initial_time duration w <> Raise e w'.
Proof.
  induction fuel as [|fuel IH]; intros w e w' H; [discriminate H|].
  rewrite wait_standby_loop_eq in H. cbv zeta in H.
  destruct (answer_standby _); [|discriminate H].
  destruct (_ >=? duration) in H; [discriminate H|].
  eapply IH; eassumption.
Qed.

Lemma elapsed_dumpsys r : 0 <= fst (run_result false (Some 5) r).
Proof. apply run_result_elapsed. lia. Qed.

Lemma wait_standby_loop_ends device initial_time duration fuel :
  forall w,
    initial_time + duration - clock w <= 10 * Z.of_nat fuel ->
    wait_standby_loop (S fuel) device initial_time duration w <> OutOfFuel.
Proof.
  induction fuel as [|fuel IH]; intros w Hfuel H;
    rewrite wait_standby_loop_eq in H; cbv zeta in H;
    pose proof (elapsed_dumpsys (procs w (nproc w))) as Hel;
    (destruct (answer_standby _); [|discriminate H]);
    destruct (_ >=? duration) eqn:Echeck in H; try discriminate H;
    rewrite Z.geb_leb in Echeck; apply Z.leb_gt in Echeck; cbn in Echeck.
  - lia.
  - revert H. apply IH. cbn. lia.
Qed.

Lemma rounds_left_enough pause now initial_time duration fuel :
  0 < pause ->
  (rounds_left pause now initial_time duration <= S fuel)%nat ->
  initial_time + duration - now <= pause * Z.of_nat fuel.
Proof.
  unfold rounds_left. intros Hp Hf.
  set (x := initial_time + duration - now) in *.
  destruct (Z.le_gt_cases 0 x) as [Hx|Hx]; [|nia].
  assert (0 <= x / pause) by (apply Z.div_pos; lia).
  assert (x / pause + 1 <= Z.of_nat fuel) by lia.
  pose proof (Z.mul_succ_div_gt x pause Hp). nia.
Qed.

(** C2, as the code has it.  The standby wait comes back only with a trace of this shape:
    its opening line, then polls that found the device in standby, each
    followed by a ten-second pause before the next poll and each made
    with the deadline not reached, then one poll that did not find the
    device in standby (an answer that names none of asleep, dozing and
    display off; a poll that fails or times out counts as such, as in
    [f_is_in_standby]), then the closing line.  When it leaves the
    process it does so with status 0, right after a poll that found the
    device in standby, with the deadline reached.  It never raises, and
    with fuel for the rounds left before the deadline it ends. *)
Theorem standby_wait_returns_after_active_poll :
  forall fuel device initial_time duration w,
    (forall w',
        f_wait_standby_exit fuel device initial_time duration w = Ret tt w' ->
        exists polls,
          trace w' = trace w ++ (clock w, ELog LStandbyWaiting) :: polls
                       ++ [(clock w', ELog LStandbyReturned)] /\
          polled device initial_time duration (clock w) polls) /\
    (forall c w',
        f_wait_standby_exit fuel device initial_time duration w = Exit c w' ->
        c = 0 /\ duration <= clock w' - initial_time /\
        exists before t r,
          trace w' = trace w ++ before
                       ++ [(t, EProc (dumpsys_cmd device) (Some 5) r);
                           (clock w', ELog (LStandbyDeadline duration))] /\
          answer_standby r = true) /\
    (forall e w',
        f_wait_standby_exit fuel device initial_time duration w <> Raise e w') /\
    ((rounds_left 10 (clock w) initial_time duration <= fuel)%nat ->
     f_wait_standby_exit fuel device initial_time duration w <> OutOfFuel).
Proof.
  intros fuel device initial_time duration w.
  rewrite f_wait_standby_exit_eq.
  destruct (wait_standby_loop fuel device initial_time duration
              (logged w LStandbyWaiting)) as [u w1|e w1|c w1|] eqn:Eloop.
  - split; [|split; [|split]]; try discriminate.
    intros w2 H. inversion H; subst.
    destruct (wait_standby_loop_returns _ _ _ _ _ _ _ Eloop) as (polls & Et & Hp).
    exists polls. split; [|exact Hp].
    cbn. rewrite Et. cbn. rewrite <- !app_assoc. reflexivity.
  - exfalso. eapply wait_standby_loop_never_raises. exact Eloop.
  - split; [|split; [|split]]; try discriminate.
    intros c2 w2 H. inversion H; subst.
    destruct (wait_standby_loop_exits _ _ _ _ _ _ _ Eloop)
      as (Hc & Hd & before & t & r & Et & Hr).
    split; [exact Hc|]. split; [exact Hd|].
    exists ((clock w, ELog LStandbyWaiting) :: before), t, r.
    split; [|exact Hr]. rewrite Et. cbn. rewrite <- !app_assoc. reflexivity.
  - split; [|split; [|split]]; try discriminate.
    intros Hfuel _. destruct fuel as [|fuel]; [cbv in Hfuel; lia|].
    revert Eloop. apply wait_standby_loop_ends.
    apply rounds_left_enough; [lia|exact Hfuel].
Qed.

(** A device asleep at the first poll and awake at the second. *)
Lemma standby_wait_returns_after_active_poll_witness :
  let w := connected_world 100
             (scripted [answer "mWakefulness=Asleep"] (answer "mWakefulness=Awake"))
             (typed []) false in
  exists w' polls,
    f_wait_standby_exit 3 "10.0.0.7:5555" 0 1000 w = Ret tt w' /\
    trace w' = trace w ++ (clock w, ELog LStandbyWaiting) :: polls
                 ++ [(clock w', ELog LStandbyReturned)] /\
    polled "10.0.0.7:5555" 0 1000 (clock w) polls.
Proof.
  intro w.
  destruct (standby_wait_returns_after_active_poll 3 "10.0.0.7:5555" 0 1000 w)
    as (Hret & _).
  destruct (f_wait_standby_exit 3 "10.0.0.7:5555" 0 1000 w) as [[] w'| | |] eqn:E;
    try (vm_compute in E; discriminate E).
  destruct (Hret w' eq_refl) as (polls & Ht & Hp).
  exists w', polls. auto.
Defined.

(** C2 as stated fails for a poll that gets no answer: the device is
    asleep and would say so, but after six seconds, one more than the
    poll waits; [f_is_in_standby] takes the timeout for a device that is
    not in standby, and the wait comes back after this one poll. *)
Lemma standby_wait_returns_after_timed_out_poll :
  let r := slow_answer "mWakefulness=Asleep" in
  let o := f_wait_standby_exit 3 "10.0.0.7:5555" 0 1000
             (connected_world 100 (scripted [] r) (typed []) false) in
  reports_standby "mWakefulness=Asleep" = true /\
  snd (run_result false (Some 5) r) = inr TimeoutExpired /\
  returned o = Some tt /\
  option_map trace (final o)
  = Some [(100, ELog LStandbyWaiting);
          (100, EProc (dumpsys_cmd "10.0.0.7:5555") (Some 5) r);
          (105, ELog LStandbyReturned)].
Proof. repeat split; reflexivity. Qed.

Example standby_wait_trace :
  option_map (fun w => map snd (trace w))
    (final (f_wait_standby_exit 3 "10.0.0.7:5555" 0 1000
              (connected_world 100
                 (scripted [answer "mWakefulness=Asleep"] (answer "mWakefulness=Awake"))
                 (typed []) false)))
  = Some [ELog LStandbyWaiting;
          EProc (dumpsys_cmd "10.0.0.7:5555") (Some 5) (answer "mWakefulness=Asleep");
          ESleep 10;
          EProc (dumpsys_cmd "10.0.0.7:5555") (Some 5) (answer "mWakefulness=Awake");
          ELog LStandbyReturned].
Proof. reflexivity. Qed.

Example standby_wait_deadline :
  exit_code (f_wait_standby_exit 3 "10.0.0.7:5555" 0 100
               (connected_world 100 (scripted [] (answer "Display Power: state=OFF"))
                                (typed []) false))
  = Some 0.
Proof. reflexivity. Qed.

Example answers_read_as_standby :
  answer_standby (answer "mWakefulness=Dozing") = true /\
  answer_standby (answer "mWakefulness=Awake Display Power: state=ON") = false /\
  answer_standby (slow_answer "mWakefulness=Asleep") = false /\
  answer_standby {| p_dt := 1; p_res := NotStarted |} = false.
Proof. repeat split; reflexivity. Qed.

(** ** The reconnection loop (C3, C4, C10) *)

Lemma behaves_returns (P : Z * Event -> Prop) (E : World -> Prop) {A} (m : M A) w a w' :
  behaves P E m -> m w = Ret a w' -> extends P w w'.
Proof.
  intros H Em. specialize (H w). unfold ends_well in H. rewrite Em in H. exact H.
Qed.

Lemma extends_events (P : Z * Event -> Prop) w w' :
  extends P w w' -> exists es, map snd (trace w') = map snd (trace w) ++ es.
Proof.
  intros [_ (d & E & _)]. exists (map snd d). rewrite E. apply map_app.
Qed.

Lemma ordinary_before_deadline initial_time duration t e :
  ordinary e = true -> before_deadline initial_time duration (t, e).
Proof.
  unfold ordinary, not_connect, before_deadline. cbn [fst snd].
  intros H Hc. rewrite Hc in H. rewrite andb_false_r in H. discriminate H.
Qed.

Lemma ordinary_any t e : ordinary e = true -> any_event (t, e).
Proof. intros _. exact I. Qed.

Lemma ordinary_not_connect e : ordinary e = true -> not_connect e = true.
Proof. unfold ordinary. intro H. apply andb_prop in H. apply H. Qed.

(** After its first command, [f_connect_device] leaves ordinary events. *)
Lemma f_connect_device_ends (P : Z * Event -> Prop) (E : World -> Prop) ip port w :
  (forall t e, ordinary e = true -> P (t, e)) ->
  P (clock w, EProc (connect_cmd (device_id ip port)) None (procs w (nproc w))) ->
  ends_well P E (f_connect_device ip port) w.
Proof.
  intros Hord Hfirst. unfold f_connect_device.
  apply ends_well_try_except.
  - apply ends_well_bind.
    + apply ends_well_subprocess_run; [exact I|exact Hfirst].
    + intros out w1 _.
      assert (Hb : behaves P E
                (if (PyStr.contains "connected" (PyStr.lower (PyStr.strip out))
                     || PyStr.contains "already connected"
                          (PyStr.lower (PyStr.strip out)))%bool
                 then
                   f_log (LConnected (PyStr.lower (PyStr.strip out))) ;;
                   time_sleep 10 ;; ret (Some (device_id ip port))
                 else
                   f_log (LConnectFailed (PyStr.lower (PyStr.strip out))) ;;
                   print (BConnectionFailed (device_id ip port)
                                            (PyStr.lower (PyStr.strip out))) ;;
                   time_sleep 10 ;; clear_screen ;; ret None))
        by (behave; apply Hord; reflexivity).
      apply Hb.
  - intros e w1 _.
    assert (Hb : forall e, behaves P E
               (f_log (LConnectError
                         (PyStr.strip match e with CalledProcessError s => s | _ => "" end)) ;;
                print (BAdbCommandError
                         (PyStr.strip match e with CalledProcessError s => s | _ => "" end)) ;;
                time_sleep 10 ;; clear_screen ;; ret (@None string)))
      by (intro; behave; apply Hord; reflexivity).
    apply Hb.
Qed.

(** *** Running the first call of a bind *)

Lemma bind_ret {A B} (a : A) (k : A -> M B) w : bind (ret a) k w = k a w.
Proof. reflexivity. Qed.

Lemma bind_f_log {B} m (k : unit -> M B) w : bind (f_log m) k w = k tt (logged w m).
Proof. reflexivity. Qed.

Lemma bind_print {B} b (k : unit -> M B) w :
  bind (print b) k w = k tt (with_trace w (trace w ++ [(clock w, EPrint b)])).
Proof. reflexivity. Qed.

Lemma bind_clear_screen {B} (k : unit -> M B) w :
  bind clear_screen k w = k tt (with_trace w (trace w ++ [(clock w, EClear)])).
Proof. reflexivity. Qed.

Lemma bind_time_sleep {B} secs (k : unit -> M B) w :
  bind (time_sleep secs) k w = k tt (slept w secs).
Proof. reflexivity. Qed.

Lemma bind_time_time {B} (k : Z -> M B) w : bind time_time k w = k (clock w) w.
Proof. reflexivity. Qed.

Lemma bind_set_error_already_shown {B} b (k : unit -> M B) w :
  bind (set_error_already_shown b) k w = k tt (with_error_shown w b).
Proof. reflexivity. Qed.

Lemma bind_get_error_already_shown {B} (k : bool -> M B) w :
  bind get_error_already_shown k w = k (error_already_shown w) w.
Proof. reflexivity. Qed.

Lemma bind_subprocess_run {B} cmd check timeout (k : string -> M B) w :
  bind (subprocess_run cmd check timeout) k w =
    match snd (run_result check timeout (procs w (nproc w))) with
    | inl out =>
        k out (after_run w cmd timeout
                 (fst (run_result check timeout (procs w (nproc w)))))
    | inr e =>
        Raise e (after_run w cmd timeout
                   (fst (run_result check timeout (procs w (nproc w)))))
    end.
Proof.
  unfold bind, subprocess_run.
  destruct (snd (run_result check timeout (procs w (nproc w)))); reflexivity.
Qed.

Lemma Ret_inj {A} (a a' : A) w w' : Ret a w = Ret a' w' -> a = a' /\ w = w'.
Proof. intro H. injection H. auto. Qed.

Lemma f_connect_device_returns ip port w x w' :
  f_connect_device ip port w = Ret x w' ->
  clock w + 10 <= clock w' /\
  forall d, truthy x = Some d ->
    d = device_id ip port /\
    exists out t,
      trace w' = trace w ++ [(clock w, EProc (connect_cmd d) None (procs w (nproc w)));
                             (t, ELog (LConnected out)); (t, ESleep 10)].
Proof.
  unfold f_connect_device. cbv zeta.
  generalize (device_id ip port) as device. intro device.
  pose proof (run_result_elapsed true None (procs w (nproc w)) I) as Hel.
  unfold try_except. rewrite (bind_subprocess_run (B:=option string)).
  destruct (snd (run_result true None (procs w (nproc w)))) as [out|e].
  - match goal with |- context [if ?b then _ else _] => destruct b end.
    + rewrite bind_f_log, bind_time_sleep. unfold ret.
      intro H. apply Ret_inj in H. destruct H as [<- <-].
      split; [cbn; lia|]. intros d Hd. unfold truthy in Hd.
      destruct (PyStr.is_empty device); [discriminate Hd|].
      injection Hd as <-. split; [reflexivity|].
      do 2 eexists. cbn. rewrite <- !app_assoc. reflexivity.
    + rewrite bind_f_log, bind_print, bind_time_sleep, bind_clear_screen. unfold ret.
      intro H. apply Ret_inj in H. destruct H as [<- <-].
      split; [cbn; lia|]. intros d Hd. discriminate Hd.
  - destruct (is_CalledProcessError e); [|discriminate].
    rewrite bind_f_log, bind_print, bind_time_sleep, bind_clear_screen. unfold ret.
    intro H. apply Ret_inj in H. destruct H as [<- <-].
    split; [cbn; lia|]. intros d Hd. discriminate Hd.
Qed.

Lemma f_is_device_ready_eq d w :
  f_is_device_ready d w =
    Ret (answer_ready (procs w (nproc w)))
        (after_run w (get_state_cmd d) None
           (fst (run_result true None (procs w (nproc w))))).
Proof.
  unfold f_is_device_ready, try_except, answer_ready.
  rewrite (bind_subprocess_run (B:=bool)).
  destruct (snd (run_result true None (procs w (nproc w)))); reflexivity.
Qed.

Lemma connected_and_ready_returns x w d w' :
  connected_and_ready x w = Ret (Some d) w' ->
  truthy x = Some d /\
  trace w' = trace w ++ [(clock w, EProc (get_state_cmd d) None (procs w (nproc w)))] /\
  answer_ready (procs w (nproc w)) = true.
Proof.
  unfold connected_and_ready.
  destruct (truthy x) as [d0|]; [|discriminate].
  rewrite (bind_eq _ _ _ _ _ (f_is_device_ready_eq d0 w)). unfold ret.
  destruct (answer_ready (procs w (nproc w)));
    intro H; apply Ret_inj in H; destruct H as [H <-]; [|discriminate H].
  injection H as <-. repeat split; reflexivity.
Qed.

Lemma after_run_error_already_shown w cmd timeout elapsed :
  error_already_shown (after_run w cmd timeout elapsed) = error_already_shown w.
Proof. reflexivity. Qed.

Lemma f_send_key_eq device key_code key_name w :
  f_send_key device key_code key_name w =
    let r := procs w (nproc w) in
    let w1 := after_run w (keyevent_cmd device key_code) (Some 5)
                        (fst (run_result true (Some 5) r)) in
    match snd (run_result true (Some 5) r) with
    | inl _ => Ret true (logged (with_error_shown w1 false) (LKeySent key_name))
    | inr e =>
        Ret false
            (slept (if error_already_shown w then w1
                    else with_error_shown (logged w1 (LKeyError key_name e)) true)
                   5)
    end.
Proof.
  unfold f_send_key, try_except. rewrite (bind_subprocess_run (B:=bool)). cbv zeta.
  destruct (snd (run_result true (Some 5) (procs w (nproc w)))) as [out|e].
  - reflexivity.
  - unfold is_Exception. rewrite bind_get_error_already_shown.
    rewrite after_run_error_already_shown.
    destruct (error_already_shown w); reflexivity.
Qed.

Lemma f_send_home_key_returns d w w' :
  f_send_home_key d w = Ret true w' ->
  exists t,
    trace w' = trace w ++ [(clock w, EProc (keyevent_cmd d "3") (Some 5) (procs w (nproc w)));
                           (t, ELog (LKeySent "KEY_HOME")); (t, ESleep 10)] /\
    answer_ok (Some 5) (procs w (nproc w)) = true.
Proof.
  unfold f_send_home_key, send_then_sleep, answer_ok.
  unfold bind at 1. rewrite f_send_key_eq. cbv zeta.
  destruct (snd (run_result true (Some 5) (procs w (nproc w)))) as [out|e].
  - rewrite bind_time_sleep. unfold ret.
    intro H. apply Ret_inj in H. destruct H as [_ <-].
    eexists. split; [|reflexivity].
    cbn. rewrite <- !app_assoc. reflexivity.
  - unfold ret. discriminate.
Qed.

(** The named keys and steps are instances of the two shapes. *)
Ltac unfold_steps :=
  unfold send_flow_with_navigation,
    open_netflix, open_amazon, open_youtube, open_disney, open_spotify, open_max;
  unfold f_send_home_key, f_send_right_key, f_send_left_key, f_send_down_key,
    f_send_up_key, f_send_ok_key, f_send_back_key, f_send_live_key,
    f_send_guide_key, f_send_channelUP_key, f_send_channelDOWN_key,
    f_send_volume_up_key, f_send_volume_down_key, f_send_mute_key,
    f_send_standby_key, f_send_wake_up_key.

(** Proves that code built from the dispatchers and queries [behaves],
    for a class of events that contains the ordinary ones. *)
Ltac ord_steps P_ordinary :=
  unfold_steps;
  match goal with
  | |- behaves ?P ?E _ =>
      pose proof (behaves_f_is_in_standby P E P_ordinary);
      pose proof (behaves_connected_and_ready P E P_ordinary);
      pose proof (behaves_f_send_key P E P_ordinary);
      pose proof (behaves_f_send_flow_key P E P_ordinary);
      pose proof (behaves_f_open_app P E P_ordinary);
      pose proof (behaves_f_open_app_secondary P E P_ordinary)
  end;
  unfold send_then_sleep, sleep_then_send;
  behave; try (apply P_ordinary; reflexivity).

(** The head of a round of a reconnection loop: the clock is read, and
    the round goes on only before the deadline. *)
Lemma deadline_check_passed (msg : LogMsg) now initial_time duration w u w1 :
  (if now - initial_time >=? duration then f_log msg ;; sys_exit 0 else ret tt) w
  = Ret u w1 ->
  now - initial_time < duration /\ w1 = w.
Proof.
  destruct (now - initial_time >=? duration) eqn:E.
  - discriminate.
  - unfold ret. intro H. apply Ret_inj in H. destruct H as [_ <-].
    rewrite Z.geb_leb in E. apply Z.leb_gt in E. auto.
Qed.

Section ReconnectionRounds.

Variable P : Z * Event -> Prop.
Variable E : World -> Prop.
Hypothesis P_ordinary : forall t e, ordinary e = true -> P (t, e).
Variables (ip : string) (port initial_time duration : Z).

Hypothesis E_deadline :
  forall w m, duration <= clock w - initial_time -> deadline_line m = true ->
              E (logged w m).

(** What [P] has to grant: a connection attempt made before the deadline. *)
Hypothesis P_connect :
  forall w, clock w - initial_time < duration ->
            P (clock w, EProc (connect_cmd (device_id ip port)) None (procs w (nproc w))).

Lemma reconnect_loop_behaves fuel :
  behaves P E (reconnect_loop fuel ip port initial_time duration).
Proof.
  induction fuel as [|fuel IH]; cbn [reconnect_loop]; intro w; [exact I|].
  apply ends_well_bind; [apply behaves_time_time|]. intros now w1 Hnow.
  apply Ret_inj in Hnow. destruct Hnow as [<- <-].
  apply ends_well_bind.
  { apply ends_well_deadline_check; auto. }
  intros u w1 Hcheck. apply deadline_check_passed in Hcheck.
  destruct Hcheck as [Hbefore ->].
  apply ends_well_bind.
  { apply f_connect_device_ends; [exact P_ordinary|apply P_connect; exact Hbefore]. }
  intros new_device w2 _. revert w2.
  change (behaves P E
            (usable <- connected_and_ready new_device ;;
             match usable with
             | Some d =>
                 f_log LReconnectOk ;;
                 time_sleep 30 ;;
                 home <- f_send_home_key d ;;
                 (if home
                  then set_error_already_shown false ;; ret (d, true)
                  else
                    f_log LReinitFailed ;;
                    reconnect_loop fuel ip port initial_time duration)
             | None =>
                 f_log LReconnectRetry ;;
                 time_sleep 5 ;;
                 reconnect_loop fuel ip port initial_time duration
             end)).
  ord_steps P_ordinary.
Qed.

Lemma reconnect_loop_project1_behaves fuel :
  behaves P E (reconnect_loop_project1 fuel ip port initial_time duration).
Proof.
  induction fuel as [|fuel IH]; cbn [reconnect_loop_project1]; intro w; [exact I|].
  apply ends_well_bind; [apply behaves_time_time|]. intros now w1 Hnow.
  apply Ret_inj in Hnow. destruct Hnow as [<- <-].
  apply ends_well_bind.
  { apply ends_well_deadline_check; auto. }
  intros u w1 Hcheck. apply deadline_check_passed in Hcheck.
  destruct Hcheck as [Hbefore ->].
  apply ends_well_bind.
  { apply f_connect_device_ends; [exact P_ordinary|apply P_connect; exact Hbefore]. }
  intros new_device w2 _. revert w2.
  change (behaves P E
            (usable <- connected_and_ready new_device ;;
             match usable with
             | Some d =>
                 f_log LReconnectOkP1 ;;
                 time_sleep 30 ;;
                 home <- f_send_home_key d ;;
                 (if home
                  then
                    _ <- f_send_guide_key d ;;
                    _ <- f_send_back_key d ;;
                    set_error_already_shown false ;; ret (d, true)
                  else
                    f_log LReinitFailed ;;
                    time_sleep 5 ;;
                    reconnect_loop_project1 fuel ip port initial_time duration)
             | None =>
                 f_log LReconnectRetry ;;
                 time_sleep 5 ;;
                 reconnect_loop_project1 fuel ip port initial_time duration
             end)).
  ord_steps P_ordinary.
Qed.

End ReconnectionRounds.

Lemma returns_grows {A} (m : M A) w a w' :
  behaves any_event anywhere m -> m w = Ret a w' ->
  exists es, trace w' = trace w ++ es.
Proof.
  intros Hb Em. destruct (behaves_returns _ _ _ _ _ _ Hb Em) as [_ (d & Et & _)]. eauto.
Qed.

Lemma behaves_any_f_connect_device ip port :
  behaves any_event anywhere (f_connect_device ip port).
Proof. intro w. apply f_connect_device_ends; [apply ordinary_any|exact I]. Qed.

Lemma ordinary_no_connect t e : ordinary e = true -> no_connect (t, e).
Proof.
  unfold no_connect, ordinary, not_connect. cbn [snd].
  destruct (is_connect e); [rewrite andb_false_r; discriminate|reflexivity].
Qed.

Lemma returns_without_connect {A} (m : M A) w a w' :
  behaves no_connect anywhere m -> m w = Ret a w' ->
  exists d, trace w' = trace w ++ d /\ Forall (fun e => is_connect e = false) (map snd d).
Proof.
  intros Hb Em. destruct (behaves_returns _ _ _ _ _ _ Hb Em) as [_ (d & Et & F)].
  exists d. split; [exact Et|]. apply Forall_map. exact F.
Qed.

Lemma grows_refl {X} (t : list X) : exists es, t = t ++ es.
Proof. exists []. rewrite app_nil_r. reflexivity. Qed.

Lemma grows_app {X} (t x a : list X) :
  (exists es, x = t ++ es) -> exists es, x ++ a = t ++ es.
Proof. intros (es & ->). exists (es ++ a). rewrite app_assoc. reflexivity. Qed.

(** Closes [exists es, ((t ++ a) ++ b) ++ c = t ++ es]. *)
Ltac grows := repeat apply grows_app; apply grows_refl.

Lemma recovered_after d initial_time duration announce (t t0 t' : list (Z * Event)) delta :
  (exists es, t0 = t ++ es) ->
  t' = t0 ++ delta ->
  recovered d initial_time duration announce delta ->
  exists delta', t' = t ++ delta' /\
                 recovered d initial_time duration announce delta'.
Proof.
  intros (es & ->) -> (before & t1 & r0 & tail & out & r1 & r2 & after & E & H).
  exists (es ++ delta). split; [rewrite app_assoc; reflexivity|].
  exists (es ++ before), t1, r0, tail, out, r1, r2, after.
  split; [|exact H]. rewrite E, app_assoc. reflexivity.
Qed.

Lemma recovered_later d initial_time duration announce es delta :
  recovered d initial_time duration announce delta ->
  recovered d initial_time duration announce (es ++ delta).
Proof.
  intros (before & t & r0 & tail & out & r1 & r2 & after & E & H).
  exists (es ++ before), t, r0, tail, out, r1, r2, after.
  split; [|exact H]. rewrite E, app_assoc. reflexivity.
Qed.

Lemma behaves_key_steps (P : Z * Event -> Prop) (E : World -> Prop) device :
  (forall t e, ordinary e = true -> P (t, e)) ->
  behaves P E (f_send_home_key device) /\
  behaves P E (f_send_guide_key device) /\
  behaves P E (f_send_back_key device) /\
  behaves P E (f_send_standby_key device) /\
  behaves P E (f_send_wake_up_key device).
Proof. intro Hord. repeat split; ord_steps Hord. Qed.

Section Recovered.

Variables (ip : string) (port initial_time duration : Z).

Lemma reconnect_loop_returns fuel :
  forall w d b w',
    reconnect_loop fuel ip port initial_time duration w = Ret (d, b) w' ->
    b = true /\ d = device_id ip port /\
    exists delta, trace w' = trace w ++ delta /\
                  recovered d initial_time duration LReconnectOk delta.
Proof.
  induction fuel as [|fuel IH]; intros w d b w' H; [discriminate H|].
  cbn [reconnect_loop] in H. rewrite bind_time_time in H.
  apply bind_Ret_inv in H. destruct H as (u & w1 & Echeck & H).
  apply deadline_check_passed in Echeck. destruct Echeck as [Hbefore ->].
  apply bind_Ret_inv in H. destruct H as (new_device & w2 & Econnect & H).
  apply bind_Ret_inv in H. destruct H as (usable & w3 & Eready & H).
  destruct (returns_grows _ _ _ _ (behaves_any_f_connect_device ip port) Econnect)
    as (es2 & Et2).
  destruct (returns_grows _ _ _ _
              (behaves_connected_and_ready _ _ ordinary_any new_device) Eready)
    as (es3 & Et3).
  destruct usable as [d0|].
  - rewrite bind_f_log, bind_time_sleep in H.
    apply bind_Ret_inv in H. destruct H as (home & w4 & Ehome & H).
    destruct home.
    + rewrite bind_set_error_already_shown in H. unfold ret in H.
      apply Ret_inj in H. destruct H as [H <-]. injection H as <- <-.
      apply connected_and_ready_returns in Eready.
      destruct Eready as (Htruthy & Et3' & Hready).
      apply f_connect_device_returns in Econnect.
      destruct Econnect as (_ & Hconn). destruct (Hconn _ Htruthy) as (-> & out & t & Et2').
      apply f_send_home_key_returns in Ehome. destruct Ehome as (t4 & Et4 & Hok).
      split; [reflexivity|]. split; [reflexivity|].
      eexists. split.
      * cbn [trace with_error_shown]. rewrite Et4. cbn [trace slept logged with_trace with_clock].
        rewrite Et3', Et2'. rewrite <- !app_assoc. reflexivity.
      * exists [], (clock w), (procs w (nproc w)). do 2 eexists.
        exists (procs w2 (nproc w2)). eexists.
        exists [ELog (LKeySent "KEY_HOME"); ESleep 10].
        split; [reflexivity|]. split; [exact Hbefore|].
        split; [cbn; reflexivity|]. split; [exact Hready|]. split; [exact Hok|].
        repeat constructor.
    + rewrite bind_f_log in H.
      destruct (returns_grows _ _ _ _
                  (proj1 (behaves_key_steps _ anywhere d0 ordinary_any)) Ehome) as (es4 & Et4).
      destruct (IH _ _ _ _ H) as (-> & -> & delta & Et & Hrec).
      split; [reflexivity|]. split; [reflexivity|].
      refine (recovered_after _ _ _ _ _ _ _ _ _ Et Hrec).
      cbn [trace logged with_trace]. rewrite Et4.
      cbn [trace slept logged with_trace with_clock]. rewrite Et3, Et2.
      grows.
  - rewrite bind_f_log, bind_time_sleep in H.
    destruct (IH _ _ _ _ H) as (-> & -> & delta & Et & Hrec).
    split; [reflexivity|]. split; [reflexivity|].
    refine (recovered_after _ _ _ _ _ _ _ _ _ Et Hrec).
    cbn [trace slept logged with_trace with_clock]. rewrite Et3, Et2.
    grows.
Qed.

Lemma reconnect_loop_project1_returns fuel :
  forall w d b w',
    reconnect_loop_project1 fuel ip port initial_time duration w = Ret (d, b) w' ->
    b = true /\ d = device_id ip port /\
    exists delta, trace w' = trace w ++ delta /\
                  recovered d initial_time duration LReconnectOkP1 delta.
Proof.
  induction fuel as [|fuel IH]; intros w d b w' H; [discriminate H|].
  cbn [reconnect_loop_project1] in H. rewrite bind_time_time in H.
  apply bind_Ret_inv in H. destruct H as (u & w1 & Echeck & H).
  apply deadline_check_passed in Echeck. destruct Echeck as [Hbefore ->].
  apply bind_Ret_inv in H. destruct H as (new_device & w2 & Econnect & H).
  apply bind_Ret_inv in H. destruct H as (usable & w3 & Eready & H).
  destruct (returns_grows _ _ _ _ (behaves_any_f_connect_device ip port) Econnect)
    as (es2 & Et2).
  destruct (returns_grows _ _ _ _
              (behaves_connected_and_ready _ _ ordinary_any new_device) Eready)
    as (es3 & Et3).
  destruct usable as [d0|].
  - rewrite bind_f_log, bind_time_sleep in H.
    apply bind_Ret_inv in H. destruct H as (home & w4 & Ehome & H).
    destruct home.
    + apply bind_Ret_inv in H. destruct H as (guide & w5 & Eguide & H).
      apply bind_Ret_inv in H. destruct H as (back & w6 & Eback & H).
      rewrite bind_set_error_already_shown in H. unfold ret in H.
      apply Ret_inj in H. destruct H as [H <-]. injection H as <- <-.
      apply connected_and_ready_returns in Eready.
      destruct Eready as (Htruthy & Et3' & Hready).
      apply f_connect_device_returns in Econnect.
      destruct Econnect as (_ & Hconn). destruct (Hconn _ Htruthy) as (-> & out & t & Et2').
      apply f_send_home_key_returns in Ehome. destruct Ehome as (t4 & Et4 & Hok).
      destruct (behaves_key_steps no_connect anywhere (device_id ip port) ordinary_no_connect)
        as (_ & Hguide & Hback & _).
      destruct (returns_without_connect _ _ _ _ Hguide Eguide) as (dg & Et5 & Fg).
      destruct (returns_without_connect _ _ _ _ Hback Eback) as (db & Et6 & Fb).
      split; [reflexivity|]. split; [reflexivity|].
      eexists. split.
      * cbn [trace with_error_shown]. rewrite Et6, Et5, Et4.
        cbn [trace slept logged with_trace with_clock].
        rewrite Et3', Et2'. rewrite <- !app_assoc. reflexivity.
      * exists [], (clock w), (procs w (nproc w)). eexists. exists out.
        exists (procs w2 (nproc w2)). eexists.
        exists ([ELog (LKeySent "KEY_HOME"); ESleep 10] ++ map snd dg ++ map snd db).
        split; [reflexivity|]. split; [exact Hbefore|].
        split; [cbn [app map snd]; rewrite !map_app; reflexivity|].
        split; [exact Hready|]. split; [exact Hok|].
        repeat (apply Forall_cons; [reflexivity|]).
        apply Forall_app. split; assumption.
    + rewrite bind_f_log, bind_time_sleep in H.
      destruct (returns_grows _ _ _ _
                  (proj1 (behaves_key_steps _ anywhere d0 ordinary_any)) Ehome) as (es4 & Et4).
      destruct (IH _ _ _ _ H) as (-> & -> & delta & Et & Hrec).
      split; [reflexivity|]. split; [reflexivity|].
      refine (recovered_after _ _ _ _ _ _ _ _ _ Et Hrec).
      cbn [trace slept logged with_trace with_clock]. rewrite Et4.
      cbn [trace slept logged with_trace with_clock]. rewrite Et3, Et2.
      grows.
  - rewrite bind_f_log, bind_time_sleep in H.
    destruct (IH _ _ _ _ H) as (-> & -> & delta & Et & Hrec).
    split; [reflexivity|]. split; [reflexivity|].
    refine (recovered_after _ _ _ _ _ _ _ _ _ Et Hrec).
    cbn [trace slept logged with_trace with_clock]. rewrite Et3, Et2.
    grows.
Qed.

End Recovered.

Section Reconnection.

Variable P : Z * Event -> Prop.
Variable E : World -> Prop.
Variables (ip : string) (port initial_time duration : Z).
Hypothesis P_ordinary : forall t e, ordinary e = true -> P (t, e).
Hypothesis P_attempt :
  forall t, P (t, ELog LReconnectAttempt) /\ P (t, ELog LReconnectAttemptP1).
Hypothesis P_connect :
  forall w, clock w - initial_time < duration ->
            P (clock w, EProc (connect_cmd (device_id ip port)) None (procs w (nproc w))).
Hypothesis E_deadline :
  forall w m, duration <= clock w - initial_time -> deadline_line m = true ->
              E (logged w m).

Lemma behaves_f_reconnect_and_reinitialize fuel :
  behaves P E (f_reconnect_and_reinitialize fuel ip port initial_time duration).
Proof.
  unfold f_reconnect_and_reinitialize.
  apply behaves_bind.
  - apply behaves_f_log. intro t. apply P_attempt.
  - intros _. apply reconnect_loop_behaves; assumption.
Qed.

Lemma behaves_f_reconnect_and_reinitialize_project1 fuel :
  behaves P E (f_reconnect_and_reinitialize_project1 fuel ip port initial_time duration).
Proof.
  unfold f_reconnect_and_reinitialize_project1.
  apply behaves_bind.
  - apply behaves_f_log. intro t. apply P_attempt.
  - intros _. apply reconnect_loop_project1_behaves; assumption.
Qed.

End Reconnection.

Lemma deadline_reached_logged initial_time duration w m :
  duration <= clock w - initial_time -> deadline_line m = true ->
  deadline_reached initial_time duration (logged w m).
Proof.
  intros Hd Hm. split; [exact Hd|]. exists (trace w), m. split; [reflexivity|exact Hm].
Qed.

Lemma before_deadline_attempt initial_time duration t :
  before_deadline initial_time duration (t, ELog LReconnectAttempt) /\
  before_deadline initial_time duration (t, ELog LReconnectAttemptP1).
Proof. split; intro H; discriminate H. Qed.

Lemma before_deadline_connect initial_time duration cmd w :
  clock w - initial_time < duration ->
  before_deadline initial_time duration (clock w, EProc cmd None (procs w (nproc w))).
Proof. intros H _. exact H. Qed.

Lemma f_reconnect_and_reinitialize_returns fuel ip port initial_time duration w d b w' :
  f_reconnect_and_reinitialize fuel ip port initial_time duration w = Ret (d, b) w' ->
  b = true /\ d = device_id ip port /\
  exists delta, trace w' = trace w ++ delta /\
                recovered d initial_time duration LReconnectOk delta.
Proof.
  unfold f_reconnect_and_reinitialize. rewrite bind_f_log. intro H.
  apply reconnect_loop_returns in H. destruct H as (Hb & Hd & delta & Et & Hrec).
  split; [exact Hb|]. split; [exact Hd|].
  refine (recovered_after _ _ _ _ _ _ _ _ _ Et Hrec).
  cbn [trace logged with_trace]. grows.
Qed.

Lemma f_reconnect_and_reinitialize_project1_returns fuel ip port initial_time duration
    w d b w' :
  f_reconnect_and_reinitialize_project1 fuel ip port initial_time duration w
  = Ret (d, b) w' ->
  b = true /\ d = device_id ip port /\
  exists delta, trace w' = trace w ++ delta /\
                recovered d initial_time duration LReconnectOkP1 delta.
Proof.
  unfold f_reconnect_and_reinitialize_project1. rewrite bind_f_log. intro H.
  apply reconnect_loop_project1_returns in H.
  destruct H as (Hb & Hd & delta & Et & Hrec).
  split; [exact Hb|]. split; [exact Hd|].
  refine (recovered_after _ _ _ _ _ _ _ _ _ Et Hrec).
  cbn [trace logged with_trace]. grows.
Qed.

(** C4.  Whichever of the two reconnection routines returns, it returns
    the device it connected to together with True, and the trace it
    leaves ends with a connection attempt that gave this device, the
    readiness check on this device, passed, then the recovery line, the
    pause and the HOME key of the reinitializer, taken, with no
    connection attempt after it. *)
Theorem recovered_session_passed_readiness_check :
  forall fuel ip port initial_time duration w d b w',
    f_reconnect_and_reinitialize fuel ip port initial_time duration w = Ret (d, b) w' \/
    f_reconnect_and_reinitialize_project1 fuel ip port initial_time duration w
    = Ret (d, b) w' ->
    b = true /\ d = device_id ip port /\
    exists delta announce,
      trace w' = trace w ++ delta /\
      recovered d initial_time duration announce delta.
Proof.
  intros fuel ip port initial_time duration w d b w' [H|H].
  - apply f_reconnect_and_reinitialize_returns in H.
    destruct H as (Hb & Hd & delta & Et & Hrec). eauto 8.
  - apply f_reconnect_and_reinitialize_project1_returns in H.
    destruct H as (Hb & Hd & delta & Et & Hrec). eauto 8.
Qed.

Lemma reconnection_deadline_exit fuel ip port initial_time duration w :
  ends_well (before_deadline initial_time duration)
            (deadline_reached initial_time duration)
            (f_reconnect_and_reinitialize fuel ip port initial_time duration) w /\
  ends_well (before_deadline initial_time duration)
            (deadline_reached initial_time duration)
            (f_reconnect_and_reinitialize_project1 fuel ip port initial_time duration) w.
Proof.
  split.
  - apply behaves_f_reconnect_and_reinitialize.
    + intros. apply ordinary_before_deadline. assumption.
    + apply before_deadline_attempt.
    + intros. apply before_deadline_connect. assumption.
    + apply deadline_reached_logged.
  - apply behaves_f_reconnect_and_reinitialize_project1.
    + intros. apply ordinary_before_deadline. assumption.
    + apply before_deadline_attempt.
    + intros. apply before_deadline_connect. assumption.
    + apply deadline_reached_logged.
Qed.

(** A reconnection that succeeds in its first round. *)
Lemma recovered_session_passed_readiness_check_witness :
  let w := connected_world 100 device_back (typed []) true in
  exists w' delta announce,
    f_reconnect_and_reinitialize 2 "10.0.0.7" 5555 0 1000 w
    = Ret ("10.0.0.7:5555", true) w' /\
    trace w' = trace w ++ delta /\
    recovered "10.0.0.7:5555" 0 1000 announce delta.
Proof.
  intro w.
  destruct (f_reconnect_and_reinitialize 2 "10.0.0.7" 5555 0 1000 w)
    as [[d b] w'| | |] eqn:E; try (vm_compute in E; discriminate E).
  destruct (recovered_session_passed_readiness_check
              2 "10.0.0.7" 5555 0 1000 w d b w' (or_introl E))
    as (-> & -> & delta & announce & Et & Hrec).
  exists w', delta, announce. repeat split; assumption.
Defined.

Example reconnection_trace :
  option_map (fun w => map snd (trace w))
    (final (f_reconnect_and_reinitialize 2 "10.0.0.7" 5555 0 1000
              (connected_world 100 device_back (typed []) true)))
  = Some [ELog LReconnectAttempt;
          EProc (connect_cmd "10.0.0.7:5555") None (answer "connected to 10.0.0.7:5555");
          ELog (LConnected "connected to 10.0.0.7:5555");
          ESleep 10;
          EProc (get_state_cmd "10.0.0.7:5555") None (answer "device");
          ELog LReconnectOk;
          ESleep 30;
          EProc (keyevent_cmd "10.0.0.7:5555" "3") (Some 5) (answer "");
          ELog (LKeySent "KEY_HOME");
          ESleep 10].
Proof. reflexivity. Qed.

(** C3, as the code has it.  In both reconnection routines every [adb connect] in the trace
    was issued at a time before the deadline, that is right after a
    deadline check that passed; a routine entered with the deadline
    reached leaves the process at once, with status 0 and nothing but
    its two log lines written; it leaves the process only so, at a
    deadline check that failed; and a session it returns comes from a
    connection attempt issued before the deadline. *)
Theorem reconnection_checks_deadline_before_each_attempt :
  forall fuel ip port initial_time duration w,
    let standard := f_reconnect_and_reinitialize fuel ip port initial_time duration in
    let project1 :=
      f_reconnect_and_reinitialize_project1 fuel ip port initial_time duration in
    (forall w',
        final (standard w) = Some w' \/ final (project1 w) = Some w' ->
        exists delta,
          trace w' = trace w ++ delta /\
          Forall (before_deadline initial_time duration) delta) /\
    (fuel <> O -> duration <= clock w - initial_time ->
     standard w = Exit 0 (logged (logged w LReconnectAttempt)
                                 (LReconnectDeadline duration)) /\
     project1 w = Exit 0 (logged (logged w LReconnectAttemptP1)
                                 LReconnectDeadlineP1)) /\
    (forall c w',
        standard w = Exit c w' \/ project1 w = Exit c w' ->
        c = 0 /\ deadline_reached initial_time duration w') /\
    (forall d b w',
        standard w = Ret (d, b) w' \/ project1 w = Ret (d, b) w' ->
        exists before t r after,
          trace w' = trace w ++ before ++ (t, EProc (connect_cmd d) None r) :: after /\
          t - initial_time < duration /\
          Forall no_connect after).
Proof.
  intros fuel ip port initial_time duration w standard project1.
  destruct (reconnection_deadline_exit fuel ip port initial_time duration w)
    as [Hs Hp].
  fold standard in Hs. fold project1 in Hp.
  unfold ends_well in Hs, Hp.
  split; [|split; [|split]].
  - intros w' [H|H].
    + destruct (standard w) as [a w1|e w1|c w1|]; cbn in H; try discriminate H;
        injection H as <-; [destruct Hs as [_ Hs]|destruct Hs as [_ Hs]
                           |destruct Hs as (_ & [_ Hs] & _)]; exact Hs.
    + destruct (project1 w) as [a w1|e w1|c w1|]; cbn in H; try discriminate H;
        injection H as <-; [destruct Hp as [_ Hp]|destruct Hp as [_ Hp]
                           |destruct Hp as (_ & [_ Hp] & _)]; exact Hp.
  - intros Hfuel Hdeadline. destruct fuel as [|fuel]; [congruence|].
    apply Z.leb_le in Hdeadline. rewrite <- Z.geb_leb in Hdeadline.
    unfold standard, project1, f_reconnect_and_reinitialize,
      f_reconnect_and_reinitialize_project1.
    rewrite !bind_f_log. cbn [reconnect_loop reconnect_loop_project1].
    rewrite !bind_time_time. cbn [clock logged with_trace].
    rewrite Hdeadline. split; reflexivity.
  - intros c w' [H|H].
    + rewrite H in Hs. destruct Hs as (Hc & _ & Hd). auto.
    + rewrite H in Hp. destruct Hp as (Hc & _ & Hd). auto.
  - intros d b w' [H|H].
    + apply f_reconnect_and_reinitialize_returns in H.
      destruct H as (_ & _ & delta & Et & Hrec).
      destruct Hrec as (before & t & r0 & tail & out & r1 & r2 & after & -> & Ht
                        & Htail & _ & _ & Hafter).
      exists before, t, r0, tail. split; [exact Et|]. split; [exact Ht|].
      apply (proj1 (Forall_map snd (fun e => is_connect e = false) tail)).
      rewrite Htail. apply Forall_app. split; [|exact Hafter].
      repeat (apply Forall_cons; [reflexivity|]). apply Forall_nil.
    + apply f_reconnect_and_reinitialize_project1_returns in H.
      destruct H as (_ & _ & delta & Et & Hrec).
      destruct Hrec as (before & t & r0 & tail & out & r1 & r2 & after & -> & Ht
                        & Htail & _ & _ & Hafter).
      exists before, t, r0, tail. split; [exact Et|]. split; [exact Ht|].
      apply (proj1 (Forall_map snd (fun e => is_connect e = false) tail)).
      rewrite Htail. apply Forall_app. split; [|exact Hafter].
      repeat (apply Forall_cons; [reflexivity|]). apply Forall_nil.
Qed.

(** The routine is entered at the deadline. *)
Lemma reconnection_checks_deadline_before_each_attempt_witness :
  let w := connected_world 100 device_back (typed []) true in
  (1%nat <> O /\ 100 <= clock w - 0) /\
  f_reconnect_and_reinitialize 1 "10.0.0.7" 5555 0 100 w
  = Exit 0 (logged (logged w LReconnectAttempt) (LReconnectDeadline 100)).
Proof.
  intro w.
  assert (H1 : 1%nat <> O) by discriminate.
  assert (H2 : 100 <= clock w - 0) by (vm_compute; discriminate).
  split; [split; assumption|].
  destruct (reconnection_checks_deadline_before_each_attempt
              1 "10.0.0.7" 5555 0 100 w) as (_ & H & _).
  apply (H H1 H2).
Defined.

(** C3 as stated fails for the time of the return: the routine is entered
    ten seconds before the deadline, its one attempt succeeds, and the
    session comes back after the connection, the readiness check and the
    HOME key with their pauses, past the deadline. *)
Lemma session_returned_after_deadline :
  let w := connected_world 100 device_back (typed []) true in
  let o := f_reconnect_and_reinitialize 1 "10.0.0.7" 5555 0 110 w in
  clock w - 0 < 110 /\
  returned o = Some ("10.0.0.7:5555", true) /\
  option_map (fun w' => 110 <=? clock w' - 0) (final o) = Some true /\
  option_map (fun w' => List.length (filter is_connect (map snd (trace w'))))
             (final o) = Some 1%nat.
Proof. repeat split; reflexivity. Qed.

(** ** Whole runs *)

Lemma any_ordinary : forall t e, ordinary e = true -> any_event (t, e).
Proof. intros. exact I. Qed.

Lemma anywhere_deadline initial_time duration :
  forall w m, duration <= clock w - initial_time -> deadline_line m = true ->
              anywhere (logged w m).
Proof. intros. exact I. Qed.

(** Proves that code [behaves] when every event and every place to leave
    the process from is allowed. *)
Ltac any := behave; try exact I.

Lemma behaves_any_f_setup_logging test_name :
  behaves any_event anywhere (f_setup_logging test_name).
Proof. unfold f_setup_logging. any. Qed.

Lemma behaves_any_f_get_connection_info :
  behaves any_event anywhere f_get_connection_info.
Proof.
  unfold f_get_connection_info, f_list_connected_devices, custom_duration, py_int.
  any.
Qed.

Lemma behaves_any_cec_method device args ok failed :
  behaves any_event anywhere (cec_method device args ok failed).
Proof. unfold cec_method. any. Qed.

Lemma behaves_any_f_disable_cec device :
  behaves any_event anywhere (f_disable_cec device).
Proof.
  unfold f_disable_cec. pose proof behaves_any_cec_method. any.
Qed.

Lemma behaves_any_f_initialize_device :
  behaves any_event anywhere f_initialize_device.
Proof.
  unfold f_initialize_device.
  pose proof behaves_any_f_connect_device.
  pose proof (behaves_connected_and_ready any_event anywhere any_ordinary).
  pose proof behaves_any_f_disable_cec.
  any.
Qed.

Lemma behaves_any_check_and_send fam fuel func device ip port initial_time duration :
  behaves any_event anywhere (func device) ->
  behaves any_event anywhere
    (check_and_send fam fuel func device ip port initial_time duration).
Proof.
  intro Hfunc.
  pose proof (behaves_f_is_in_standby any_event anywhere any_ordinary).
  pose proof (behaves_f_wait_standby_exit any_event anywhere initial_time duration
                any_ordinary (anywhere_deadline initial_time duration)).
  assert (behaves any_event anywhere
            (f_reconnect_and_reinitialize fuel ip port initial_time duration)).
  { apply behaves_f_reconnect_and_reinitialize; intros; try split; exact I. }
  assert (behaves any_event anywhere
            (f_reconnect_and_reinitialize_project1 fuel ip port initial_time duration)).
  { apply behaves_f_reconnect_and_reinitialize_project1; intros; try split; exact I. }
  destruct fam; cbn [check_and_send];
    unfold f_check_and_send, f_check_and_send_project1; any.
Qed.

Lemma behaves_any_for_steps fuel fam initial_time duration steps :
  Forall (fun func : Step => forall device, behaves any_event anywhere (func device))
         steps ->
  forall L, behaves any_event anywhere
              (for_steps fuel fam steps initial_time duration L).
Proof.
  induction 1 as [|func rest Hfunc Hrest IH]; intro L; cbn [for_steps].
  - apply behaves_ret.
  - apply behaves_bind; [apply behaves_the_device|]. intro dev.
    apply behaves_bind; [apply behaves_get_ip|]. intro ip.
    apply behaves_bind; [apply behaves_get_port|]. intro port.
    apply behaves_bind; [apply behaves_any_check_and_send; apply Hfunc|]. intro r.
    apply behaves_bind; [apply behaves_set_device|]. intros _.
    destruct (snd r); [any|apply IH].
Qed.

Lemma behaves_any_one_pass fuel fam initial_sequence steps initial_time duration L :
  behaves any_event anywhere initial_sequence ->
  Forall (fun func : Step => forall device, behaves any_event anywhere (func device))
         steps ->
  behaves any_event anywhere
    (one_pass fuel fam initial_sequence steps initial_time duration L).
Proof.
  intros Hinit Hsteps. unfold one_pass, count_pass.
  pose proof (behaves_any_for_steps fuel fam initial_time duration steps Hsteps).
  any.
Qed.

Lemma behaves_any_while passes pass initial_time duration :
  (forall L, behaves any_event anywhere (pass L)) ->
  forall L, behaves any_event anywhere
              (while_before_deadline passes pass initial_time duration L).
Proof.
  intro Hpass. induction passes as [|passes IH]; intro L; cbn [while_before_deadline].
  - intro w. exact I.
  - pose proof (Hpass L). any.
Qed.

Lemma behaves_any_test_frame title label run_loop :
  (forall initial_time duration, behaves any_event anywhere (run_loop initial_time duration)) ->
  behaves any_event anywhere (test_frame title label run_loop).
Proof.
  intro Hloop. unfold test_frame.
  pose proof behaves_any_f_setup_logging.
  pose proof behaves_any_f_get_connection_info.
  pose proof behaves_any_f_initialize_device.
  any.
Qed.

Section Steps.

Variable P : Z * Event -> Prop.
Variable E : World -> Prop.
Hypothesis P_ordinary : forall t e, ordinary e = true -> P (t, e).

(** Every step of every step list of the program leaves ordinary events
    only, and never leaves the process. *)
Lemma behaves_steps (t : Test) :
  Forall (fun func : Step => forall device, behaves P E (func device))
         match t with
         | ZappingStandard | ZappingProject1 => zapping_steps
         | NavigationProject1 => navigation_project1_steps
         | NavigationProject2 => navigation_project2_steps
         | NavigationProject3 => navigation_project3_steps
         | Apps => apps_steps
         | VolumeControl => volume_steps
         | StandbyWakeup => [f_send_standby_key; f_send_wake_up_key]
         end.
Proof.
  assert (Hflow : forall device, behaves P E (send_flow_with_navigation device))
    by (intro; ord_steps P_ordinary).
  assert (Happs : forall device,
             behaves P E (open_netflix device) /\ behaves P E (open_amazon device) /\
             behaves P E (open_youtube device) /\ behaves P E (open_disney device) /\
             behaves P E (open_spotify device) /\ behaves P E (open_max device))
    by (intro; split; [|split; [|split; [|split; [|split]]]];
        ord_steps P_ordinary).
  destruct t;
    repeat (apply Forall_cons;
            [intro device;
             lazymatch goal with
             | |- behaves _ _ (send_flow_with_navigation _) => apply Hflow
             | |- behaves _ _ (open_netflix _) => apply (Happs device)
             | |- behaves _ _ (open_amazon _) => apply (Happs device)
             | |- behaves _ _ (open_youtube _) => apply (Happs device)
             | |- behaves _ _ (open_disney _) => apply (Happs device)
             | |- behaves _ _ (open_spotify _) => apply (Happs device)
             | |- behaves _ _ (open_max _) => apply (Happs device)
             | |- _ =>
                 unfold_steps;
                 lazymatch goal with
                 | |- behaves _ _ (send_then_sleep _ _ _ _) =>
                     apply (behaves_send_then_sleep P E P_ordinary); lia
                 | |- behaves _ _ (sleep_then_send _ _ _ _) =>
                     apply (behaves_sleep_then_send P E P_ordinary); lia
                 end
             end
            |]);
    apply Forall_nil.
Qed.

Lemma behaves_initial_sequences :
  behaves P E zapping_standard_initial /\
  behaves P E zapping_project1_initial /\
  behaves P E home_initial /\
  behaves P E ready_initial.
Proof.
  unfold zapping_standard_initial, zapping_project1_initial, home_initial,
    ready_initial.
  pose proof (behaves_the_device P E).
  split; [|split; [|split]]; ord_steps P_ordinary.
Qed.

End Steps.

Lemma behaves_any_standby_pass fuel initial_time duration L :
  behaves any_event anywhere (standby_pass fuel initial_time duration L).
Proof.
  unfold standby_pass, standby_recover.
  assert (Hkeys : forall dev,
             behaves any_event anywhere (f_send_standby_key dev) /\
             behaves any_event anywhere (f_send_wake_up_key dev)).
  { intro dev.
    destruct (behaves_key_steps any_event anywhere dev any_ordinary)
      as (_ & _ & _ & Hs & Hw). auto. }
  assert (Hrec : forall ip port,
             behaves any_event anywhere
               (f_reconnect_and_reinitialize fuel ip port initial_time duration)).
  { intros. apply behaves_f_reconnect_and_reinitialize; intros; try split; exact I. }
  apply behaves_bind; [any|]. intro L1.
  apply behaves_bind; [apply behaves_the_device|]. intro dev.
  apply behaves_bind; [apply Hkeys|]. intro slept.
  destruct (negb slept); [any|].
  apply behaves_bind; [apply behaves_the_device|]. intro dev'.
  apply behaves_bind; [apply Hkeys|]. intro woke.
  destruct (negb woke); any.
Qed.

Lemma behaves_any_run_test t passes fuel :
  behaves any_event anywhere (run_test t passes fuel).
Proof.
  pose proof (behaves_initial_sequences any_event anywhere any_ordinary)
    as (Hzs & Hzp & Hhome & Hready).
  destruct t; cbn [run_test];
    unfold f_test_zapping_standard, f_test_zapping_project1,
      f_test_navigation_project1, f_test_navigation_project2,
      f_test_navigation_project3, f_test_apps, f_test_volume_control,
      f_test_standby_wakeup, step_list_test;
    apply behaves_any_test_frame; intros initial_time duration;
    apply behaves_any_while; intro L;
    try apply behaves_any_standby_pass;
    apply behaves_any_one_pass; try assumption.
  - apply (behaves_steps any_event anywhere any_ordinary ZappingStandard).
  - apply (behaves_steps any_event anywhere any_ordinary ZappingProject1).
  - apply (behaves_steps any_event anywhere any_ordinary NavigationProject1).
  - apply (behaves_steps any_event anywhere any_ordinary NavigationProject2).
  - apply (behaves_steps any_event anywhere any_ordinary NavigationProject3).
  - apply (behaves_steps any_event anywhere any_ordinary Apps).
  - apply (behaves_steps any_event anywhere any_ordinary VolumeControl).
Qed.

(** ** Leaving the process (C10) *)

(** C10.  The standby wait and both reconnection routines leave the
    process only with status 0, and only at a deadline: the duration is
    over and the last line of the trace reports it.  A whole test leaves
    the process only with status 0: none of its handlers sits between
    these three places and the end of the process, and nothing else in a
    test leaves the process. *)
Theorem deadline_exits_with_status_0 :
  forall fuel device ip port initial_time duration w c w',
    (f_wait_standby_exit fuel device initial_time duration w = Exit c w' \/
     f_reconnect_and_reinitialize fuel ip port initial_time duration w = Exit c w' \/
     f_reconnect_and_reinitialize_project1 fuel ip port initial_time duration w
     = Exit c w' ->
     c = 0 /\ deadline_reached initial_time duration w') /\
    (forall t passes, run_test t passes fuel w = Exit c w' -> c = 0).
Proof.
  intros fuel device ip port initial_time duration w c w'. split.
  - intros [H|[H|H]].
    + pose proof (behaves_f_wait_standby_exit
                    any_event (deadline_reached initial_time duration)
                    initial_time duration any_ordinary
                    (deadline_reached_logged initial_time duration)
                    fuel device w) as Hb.
      unfold ends_well in Hb. rewrite H in Hb. destruct Hb as (Hc & _ & Hd). auto.
    + destruct (reconnection_deadline_exit fuel ip port initial_time duration w)
        as [Hb _].
      unfold ends_well in Hb. rewrite H in Hb. destruct Hb as (Hc & _ & Hd). auto.
    + destruct (reconnection_deadline_exit fuel ip port initial_time duration w)
        as [_ Hb].
      unfold ends_well in Hb. rewrite H in Hb. destruct Hb as (Hc & _ & Hd). auto.
  - intros t passes H.
    pose proof (behaves_any_run_test t passes fuel w) as Hb.
    unfold ends_well in Hb. rewrite H in Hb. destruct Hb as (Hc & _). exact Hc.
Qed.

(** The standby wait runs into the deadline. *)
Lemma deadline_exits_with_status_0_witness :
  let w := connected_world 100 (scripted [] (answer "Display Power: state=OFF"))
                           (typed []) false in
  exists w',
    f_wait_standby_exit 3 "10.0.0.7:5555" 0 100 w = Exit 0 w' /\
    deadline_reached 0 100 w'.
Proof.
  intro w.
  destruct (f_wait_standby_exit 3 "10.0.0.7:5555" 0 100 w) as [| |c w'|] eqn:E;
    try (vm_compute in E; discriminate E).
  destruct (deadline_exits_with_status_0 3 "10.0.0.7:5555" "10.0.0.7" 5555 0 100 w c w')
    as [H _].
  destruct (H (or_introl E)) as [-> Hd].
  exists w'. auto.
Defined.

(** ** Passes (C1, C6) *)

Lemma bind_assoc {A B C} (m : M A) (f : A -> M B) (g : B -> M C) w :
  bind (bind m f) g w = bind m (fun a => bind (f a) g) w.
Proof. unfold bind. destruct (m w); reflexivity. Qed.

Lemma check_and_send_eq fam fuel func device ip port initial_time duration w :
  check_and_send fam fuel func device ip port initial_time duration w =
    bind (standby_gate fuel device initial_time duration)
         (fun _ =>
            ok <- func device ;;
            if negb ok then reconnect fam fuel ip port initial_time duration
            else ret (device, false)) w.
Proof.
  destruct fam; cbn [check_and_send reconnect];
    unfold f_check_and_send, f_check_and_send_project1, standby_gate;
    rewrite bind_assoc; reflexivity.
Qed.

Lemma for_steps_cons fuel fam func rest initial_time duration L w dev :
  self_device w = Some dev ->
  for_steps fuel fam (func :: rest) initial_time duration L w =
    bind (check_and_send fam fuel func dev (self_ip w) (self_port w)
                         initial_time duration)
         (fun r =>
            set_device (Some (fst r)) ;;
            if snd r then f_log LRestart ;; ret (mkLocals 0 true true)
            else for_steps fuel fam rest initial_time duration
                           (mkLocals (loop L) (need_initial_sequence L) false)) w.
Proof.
  intro Hdev. cbn [for_steps].
  unfold bind at 1. unfold the_device. rewrite Hdev. reflexivity.
Qed.

Lemma reconnect_returns fam fuel ip port initial_time duration w d b w' :
  reconnect fam fuel ip port initial_time duration w = Ret (d, b) w' ->
  b = true /\ d = device_id ip port /\
  exists delta, trace w' = trace w ++ delta /\ reconnection_in delta.
Proof.
  intro H.
  assert (Hfirst : exists m rest,
             trace w' = trace w ++ (clock w, ELog m) :: rest /\
             (m = LReconnectAttempt \/ m = LReconnectAttemptP1) /\
             b = true /\ d = device_id ip port).
  { destruct fam; cbn [reconnect] in H.
    - unfold f_reconnect_and_reinitialize in H. rewrite bind_f_log in H.
      apply reconnect_loop_returns in H. destruct H as (Hb & Hd & delta & Et & _).
      exists LReconnectAttempt, delta. rewrite Et. cbn [trace logged with_trace].
      rewrite <- app_assoc. auto.
    - unfold f_reconnect_and_reinitialize_project1 in H. rewrite bind_f_log in H.
      apply reconnect_loop_project1_returns in H.
      destruct H as (Hb & Hd & delta & Et & _).
      exists LReconnectAttemptP1, delta. rewrite Et. cbn [trace logged with_trace].
      rewrite <- app_assoc. auto. }
  destruct Hfirst as (m & rest & Et & Hm & Hb & Hd).
  split; [exact Hb|]. split; [exact Hd|].
  exists ((clock w, ELog m) :: rest). split; [exact Et|].
  exists (clock w). destruct Hm as [-> | ->]; [left|right]; left; reflexivity.
Qed.

Lemma ordinary_quiet t e : ordinary e = true -> quiet (t, e).
Proof. unfold ordinary, quiet. cbn [snd]. intro H. apply andb_prop in H. apply H. Qed.

Lemma returns_quietly {A} (m : M A) w a w' :
  behaves quiet anywhere m -> m w = Ret a w' ->
  exists delta, trace w' = trace w ++ delta /\ Forall quiet delta.
Proof.
  intros Hb Em. destruct (behaves_returns _ _ _ _ _ _ Hb Em) as [_ H]. exact H.
Qed.

Lemma behaves_quiet_standby_gate fuel device initial_time duration :
  behaves quiet anywhere (standby_gate fuel device initial_time duration).
Proof.
  unfold standby_gate.
  pose proof (behaves_f_is_in_standby quiet anywhere ordinary_quiet).
  pose proof (behaves_f_wait_standby_exit quiet anywhere initial_time duration
                ordinary_quiet (anywhere_deadline initial_time duration)).
  behave.
Qed.

Lemma reconnection_in_later es delta :
  reconnection_in delta -> reconnection_in (es ++ delta).
Proof.
  intros (t & [H|H]); exists t; [left|right]; apply in_or_app; right; exact H.
Qed.

Lemma reconnection_in_sooner delta es :
  reconnection_in delta -> reconnection_in (delta ++ es).
Proof.
  intros (t & [H|H]); exists t; [left|right]; apply in_or_app; left; exact H.
Qed.

Lemma check_and_send_cases fam fuel func device ip port initial_time duration
    w d r w' :
  behaves quiet anywhere (func device) ->
  check_and_send fam fuel func device ip port initial_time duration w = Ret (d, r) w' ->
  exists delta,
    trace w' = trace w ++ delta /\
    if r then reconnection_in delta else Forall quiet delta.
Proof.
  intros Hfunc H. rewrite check_and_send_eq in H.
  apply bind_Ret_inv in H. destruct H as (u & wa & Egate & H).
  apply bind_Ret_inv in H. destruct H as (ok & wb & Efunc & H).
  destruct (returns_quietly _ _ _ _
              (behaves_quiet_standby_gate fuel device initial_time duration) Egate)
    as (da & Eta & Fa).
  destruct (returns_quietly _ _ _ _ Hfunc Efunc) as (db & Etb & Fb).
  destruct ok; cbn [negb] in H.
  - unfold ret in H. apply Ret_inj in H. destruct H as [H <-]. injection H as <- <-.
    exists (da ++ db). split; [rewrite Etb, Eta, app_assoc; reflexivity|].
    apply Forall_app. auto.
  - apply reconnect_returns in H. destruct H as (-> & _ & dc & Etc & Hin).
    exists ((da ++ db) ++ dc).
    split; [rewrite Etc, Etb, Eta, !app_assoc; reflexivity|].
    apply reconnection_in_later. exact Hin.
Qed.

Lemma for_steps_cases fuel fam initial_time duration steps :
  Forall (fun func : Step => forall device, behaves quiet anywhere (func device))
         steps ->
  forall L w L' w',
    reconnected L = false ->
    for_steps fuel fam steps initial_time duration L w = Ret L' w' ->
    exists delta,
      trace w' = trace w ++ delta /\
      ((Forall quiet delta /\ L' = L) \/
       (reconnection_in delta /\ L' = mkLocals 0 true true)).
Proof.
  induction 1 as [|func rest Hfunc Hrest IH]; intros L w L' w' HL H.
  - cbn [for_steps] in H. unfold ret in H. apply Ret_inj in H. destruct H as [<- <-].
    exists []. rewrite app_nil_r. auto.
  - destruct (self_device w) as [dev|] eqn:Hdev.
    + rewrite (for_steps_cons _ _ _ _ _ _ _ _ _ Hdev) in H.
      apply bind_Ret_inv in H. destruct H as ([d r] & w1 & Esend & H).
      cbn [fst snd] in H.
      destruct (check_and_send_cases _ _ _ _ _ _ _ _ _ _ _ _ (Hfunc dev) Esend)
        as (d1 & Et1 & H1).
      unfold bind at 1 in H. unfold set_device in H.
      destruct r.
      * rewrite bind_f_log in H. unfold ret in H.
        apply Ret_inj in H. destruct H as [<- <-].
        exists (d1 ++ [(clock w1, ELog LRestart)]).
        split; [cbn [trace logged with_trace with_device]; rewrite Et1, app_assoc;
                reflexivity|].
        right. split; [apply reconnection_in_sooner; exact H1|reflexivity].
      * apply IH in H; [|reflexivity].
        destruct H as (d2 & Et2 & H2).
        exists (d1 ++ d2).
        split; [rewrite Et2; cbn [trace with_device]; rewrite Et1, app_assoc;
                reflexivity|].
        destruct H2 as [[F2 ->]|[R2 ->]].
        -- left. split; [apply Forall_app; auto|].
           destruct L as [l n r]. cbn in HL. subst r. reflexivity.
        -- right. split; [apply reconnection_in_later; exact R2|reflexivity].
    + cbn [for_steps] in H. unfold bind at 1 in H. unfold the_device in H.
      rewrite Hdev in H. discriminate H.
Qed.

Lemma one_pass_counted fuel fam initial_sequence steps initial_time duration
    L w L' w' :
  behaves quiet anywhere initial_sequence ->
  Forall (fun func : Step => forall device, behaves quiet anywhere (func device))
         steps ->
  one_pass fuel fam initial_sequence steps initial_time duration L w = Ret L' w' ->
  exists delta,
    trace w' = trace w ++ delta /\ counted delta (loop L) (loop L').
Proof.
  intros Hinit Hsteps H. unfold one_pass in H.
  apply bind_Ret_inv in H. destruct H as (L1 & w1 & Einit & H).
  apply bind_Ret_inv in H. destruct H as (L2 & w2 & Efor & H).
  assert (H1 : exists d1, trace w1 = trace w ++ d1 /\ Forall quiet d1 /\
                          loop L1 = loop L).
  { destruct (need_initial_sequence L).
    - apply bind_Ret_inv in Einit. destruct Einit as (u & w0 & Erun & Eret).
      unfold ret in Eret. apply Ret_inj in Eret. destruct Eret as [<- <-].
      destruct (returns_quietly _ _ _ _ Hinit Erun) as (d1 & Et1 & F1).
      exists d1. auto.
    - unfold ret in Einit. apply Ret_inj in Einit. destruct Einit as [<- <-].
      exists []. rewrite app_nil_r. auto. }
  destruct H1 as (d1 & Et1 & F1 & Hloop1).
  apply (for_steps_cases _ _ _ _ _ Hsteps) in Efor; [|reflexivity].
  unfold count_pass in H.
  destruct Efor as (d2 & Et2 & [[F2 ->]|[R2 ->]]); cbn [reconnected negb loop] in H.
  - rewrite bind_f_log in H. unfold ret in H.
    apply Ret_inj in H. destruct H as [<- <-].
    exists ((d1 ++ d2) ++ [(clock w2, ELog (LLoopConcluded (loop L1 + 1)))]).
    split; [cbn [trace logged with_trace]; rewrite Et2, Et1, !app_assoc; reflexivity|].
    left. split; [|cbn [loop]; lia].
    apply Forall_app. split; [apply Forall_app; auto|].
    apply Forall_cons; [reflexivity|apply Forall_nil].
  - unfold ret in H. apply Ret_inj in H. destruct H as [<- <-].
    exists (d1 ++ d2). split; [rewrite Et2, Et1, app_assoc; reflexivity|].
    right. split; [apply reconnection_in_later; exact R2|reflexivity].
Qed.

Lemma standby_recover_returns fuel initial_time duration w L' w' :
  standby_recover fuel initial_time duration w = Ret L' w' ->
  loop L' = 0 /\
  exists delta, trace w' = trace w ++ delta /\ reconnection_in delta.
Proof.
  unfold standby_recover. intro H.
  unfold bind at 1 in H. unfold get_ip in H.
  unfold bind at 1 in H. unfold get_port in H.
  apply bind_Ret_inv in H. destruct H as ([d b] & w1 & Erec & H).
  unfold bind at 1 in H. unfold set_device, ret in H.
  apply Ret_inj in H. destruct H as [<- <-].
  apply (reconnect_returns Standard) in Erec.
  destruct Erec as (_ & _ & delta & Et & Hin).
  split; [reflexivity|]. exists delta. split; [exact Et|exact Hin].
Qed.

Lemma standby_pass_counted fuel initial_time duration L w L' w' :
  standby_pass fuel initial_time duration L w = Ret L' w' ->
  exists delta,
    trace w' = trace w ++ delta /\ counted delta (loop L) (loop L').
Proof.
  intro H. unfold standby_pass in H.
  assert (Hkeys : forall dev,
             behaves quiet anywhere (f_send_standby_key dev) /\
             behaves quiet anywhere (f_send_wake_up_key dev)).
  { intro dev.
    destruct (behaves_key_steps quiet anywhere dev ordinary_quiet)
      as (_ & _ & _ & Hs & Hw). auto. }
  apply bind_Ret_inv in H. destruct H as (L1 & w1 & Einit & H).
  assert (H1 : exists d1, trace w1 = trace w ++ d1 /\ Forall quiet d1 /\
                          loop L1 = loop L).
  { destruct (need_initial_sequence L).
    - rewrite bind_f_log in Einit. unfold ret in Einit.
      apply Ret_inj in Einit. destruct Einit as [<- <-].
      exists [(clock w, ELog LInitialReady)]. repeat split.
      apply Forall_cons; [reflexivity|apply Forall_nil].
    - unfold ret in Einit. apply Ret_inj in Einit. destruct Einit as [<- <-].
      exists []. rewrite app_nil_r. auto. }
  destruct H1 as (d1 & Et1 & F1 & Hloop1).
  apply bind_Ret_inv in H. destruct H as (dev & w2 & Edev & H).
  assert (w2 = w1) as ->.
  { unfold the_device in Edev. destruct (self_device w1); [|discriminate Edev].
    apply Ret_inj in Edev. destruct Edev as [_ <-]. reflexivity. }
  apply bind_Ret_inv in H. destruct H as (slept & w3 & Eslept & H).
  destruct (returns_quietly _ _ _ _ (proj1 (Hkeys dev)) Eslept) as (d3 & Et3 & F3).
  destruct slept; cbn [negb] in H.
  - apply bind_Ret_inv in H. destruct H as (dev' & w4 & Edev' & H).
    assert (w4 = w3) as ->.
    { unfold the_device in Edev'. destruct (self_device w3); [|discriminate Edev'].
      apply Ret_inj in Edev'. destruct Edev' as [_ <-]. reflexivity. }
    apply bind_Ret_inv in H. destruct H as (woke & w5 & Ewoke & H).
    destruct (returns_quietly _ _ _ _ (proj2 (Hkeys dev')) Ewoke) as (d5 & Et5 & F5).
    destruct woke; cbn [negb] in H.
    + rewrite bind_f_log in H. unfold ret in H.
      apply Ret_inj in H. destruct H as [<- <-].
      exists (((d1 ++ d3) ++ d5) ++ [(clock w5, ELog (LLoopConcluded (loop L1 + 1)))]).
      split; [cbn [trace logged with_trace]; rewrite Et5, Et3, Et1, !app_assoc;
              reflexivity|].
      left. split; [|cbn [loop]; lia].
      repeat (apply Forall_app; split); auto.
      apply Forall_cons; [reflexivity|apply Forall_nil].
    + apply standby_recover_returns in H. destruct H as (Hl & d6 & Et6 & Hin).
      exists (((d1 ++ d3) ++ d5) ++ d6).
      split; [rewrite Et6, Et5, Et3, Et1, !app_assoc; reflexivity|].
      right. split; [apply reconnection_in_later; exact Hin|exact Hl].
  - apply standby_recover_returns in H. destruct H as (Hl & d6 & Et6 & Hin).
    exists ((d1 ++ d3) ++ d6).
    split; [rewrite Et6, Et3, Et1, !app_assoc; reflexivity|].
    right. split; [apply reconnection_in_later; exact Hin|exact Hl].
Qed.



Example counter_after_clean_pass :
  option_map loop
    (returned (test_pass StandbyWakeup 1 0 1000 (mkLocals 7 false false)
                 (connected_world 100 (scripted [] (answer "")) (typed []) false)))
  = Some 8.
Proof. reflexivity. Qed.

Example counter_after_reconnection :
  option_map loop
    (returned (test_pass StandbyWakeup 2 0 1000 (mkLocals 7 false false)
                 (connected_world 100
                    (scripted [refusal; answer "connected to 10.0.0.7:5555";
                               answer "device"] (answer ""))
                    (typed []) false)))
  = Some 0.
Proof. reflexivity. Qed.

Lemma for_steps_app fuel fam initial_time duration before rest :
  forall L w L1 w1,
    for_steps fuel fam before initial_time duration L w = Ret L1 w1 ->
    reconnected L1 = false ->
    for_steps fuel fam (before ++ rest) initial_time duration L w =
    for_steps fuel fam rest initial_time duration L1 w1.
Proof.
  induction before as [|func before IH]; intros L w L1 w1 H HL1.
  - cbn [for_steps] in H. unfold ret in H. apply Ret_inj in H. destruct H as [<- <-].
    reflexivity.
  - cbn [app].
    destruct (self_device w) as [dev|] eqn:Hdev.
    + rewrite (for_steps_cons _ _ _ _ _ _ _ _ _ Hdev) in H.
      rewrite (for_steps_cons _ _ _ _ _ _ _ _ _ Hdev).
      apply bind_Ret_inv in H. destruct H as (r & w2 & Esend & H).
      rewrite (bind_eq _ _ _ _ _ Esend).
      unfold bind at 1 in H. unfold set_device in H.
      unfold bind at 1. unfold set_device.
      destruct (snd r).
      * rewrite bind_f_log in H. unfold ret in H.
        apply Ret_inj in H. destruct H as [<- _]. discriminate HL1.
      * apply IH; assumption.
    + cbn [for_steps] in H. unfold bind at 1 in H. unfold the_device in H.
      rewrite Hdev in H. discriminate H.
Qed.

Lemma count_pass_restart w : count_pass (mkLocals 0 true true) w = Ret (mkLocals 0 true true) w.
Proof. reflexivity. Qed.

Lemma one_pass_after_restart fuel fam initial_sequence steps initial_time duration w :
  one_pass fuel fam initial_sequence steps initial_time duration
           (mkLocals 0 true true) w =
  (initial_sequence ;;
   L2 <- for_steps fuel fam steps initial_time duration (mkLocals 0 false false) ;;
   count_pass L2)%py w.
Proof.
  unfold one_pass. cbn [need_initial_sequence]. unfold bind, ret.
  destruct (initial_sequence w); reflexivity.
Qed.

Lemma while_before_deadline_step passes pass initial_time duration L w :
  clock w - initial_time < duration ->
  while_before_deadline (S passes) pass initial_time duration L w =
  bind (pass L) (while_before_deadline passes pass initial_time duration) w.
Proof.
  intro H. cbn [while_before_deadline]. rewrite bind_time_time.
  apply Z.ltb_lt in H. rewrite H. reflexivity.
Qed.

(** C1.  In a pass over the step list [before ++ func :: after], let the
    steps of [before] go through without a reconnection, let the step
    [func] at index [length before] fail, and let the reconnection that
    follows return.  Then the [for] loop ends there, with the restart line
    as its last act and none of the steps of [after] run: the locals are
    [loop = 0], [need_initial_sequence = True], [reconnected = True], the
    pass is not counted, and while the deadline has not been reached the
    run goes on with the initial sequence followed by the whole step list
    from its first step. *)
Theorem reconnection_restarts_step_list_from_first_step :
  forall fuel fam initial_sequence before func after initial_time duration
         L w L1 w1 dev wa wb d b wc,
    let steps := before ++ func :: after in
    let restart := mkLocals 0 true true in
    let pass := one_pass fuel fam initial_sequence steps initial_time duration in
    let w' := logged (with_device wc (Some d)) LRestart in
    for_steps fuel fam before initial_time duration L w = Ret L1 w1 ->
    reconnected L1 = false ->
    self_device w1 = Some dev ->
    standby_gate fuel dev initial_time duration w1 = Ret tt wa ->
    func dev wa = Ret false wb ->
    reconnect fam fuel (self_ip w1) (self_port w1) initial_time duration wb
      = Ret (d, b) wc ->
    b = true /\
    for_steps fuel fam steps initial_time duration L w = Ret restart w' /\
    trace w' = trace wc ++ [(clock wc, ELog LRestart)] /\
    forall L0 w0,
      (if need_initial_sequence L0 then initial_sequence w0 = Ret tt w
       else w0 = w) ->
      L = mkLocals (loop L0) false false ->
      pass L0 w0 = Ret restart w' /\
      forall passes,
        clock w0 - initial_time < duration ->
        clock w' - initial_time < duration ->
        while_before_deadline (S (S passes)) pass initial_time duration L0 w0 =
        (initial_sequence ;;
         L2 <- for_steps fuel fam steps initial_time duration
                         (mkLocals 0 false false) ;;
         L3 <- count_pass L2 ;;
         while_before_deadline passes pass initial_time duration L3)%py w'.
Proof.
  intros fuel fam initial_sequence before func after initial_time duration
         L w L1 w1 dev wa wb d b wc steps restart pass w'
         Hbefore HL1 Hdev Hgate Hfunc Hrec.
  assert (Hb : b = true) by (apply reconnect_returns in Hrec; tauto).
  subst b.
  assert (Hsend : check_and_send fam fuel func dev (self_ip w1) (self_port w1)
                    initial_time duration w1 = Ret (d, true) wc).
  { rewrite check_and_send_eq, (bind_eq _ _ _ _ _ Hgate), (bind_eq _ _ _ _ _ Hfunc).
    exact Hrec. }
  assert (Hfor : for_steps fuel fam steps initial_time duration L w = Ret restart w').
  { unfold steps. rewrite (for_steps_app _ _ _ _ _ _ _ _ _ _ Hbefore HL1).
    rewrite (for_steps_cons _ _ _ _ _ _ _ _ _ Hdev), (bind_eq _ _ _ _ _ Hsend).
    reflexivity. }
  split; [reflexivity|]. split; [exact Hfor|]. split; [reflexivity|].
  intros L0 w0 Hinit HL.
  assert (Hpass : pass L0 w0 = Ret restart w').
  { unfold pass, one_pass.
    destruct (need_initial_sequence L0) eqn:Hneed.
    - rewrite bind_assoc, (bind_eq _ _ _ _ _ Hinit).
      unfold bind at 1, ret at 1. cbn [loop need_initial_sequence].
      rewrite <- HL, (bind_eq _ _ _ _ _ Hfor). apply count_pass_restart.
    - subst w0. unfold bind at 1, ret at 1. rewrite Hneed, <- HL.
      rewrite (bind_eq _ _ _ _ _ Hfor). apply count_pass_restart. }
  split; [exact Hpass|].
  intros passes Hnow Hlater.
  rewrite (while_before_deadline_step _ _ _ _ _ _ Hnow), (bind_eq _ _ _ _ _ Hpass).
  rewrite (while_before_deadline_step _ _ _ _ _ _ Hlater).
  unfold pass at 1. unfold bind at 1. rewrite one_pass_after_restart.
  unfold bind. destruct (initial_sequence w'); try reflexivity.
  destruct (for_steps fuel fam steps initial_time duration (mkLocals 0 false false) _);
    reflexivity.
Qed.

(** The volume test: the third volume-up key is refused, the device
    comes back at the first attempt. *)
Lemma reconnection_restarts_step_list_from_first_step_witness :
  let a := answer "" in
  let w0 := connected_world 100
              (scripted [a; a; a; a; a; a; refusal;
                         answer "connected to 10.0.0.7:5555"; answer "device"] a)
              (typed []) false in
  let pass := one_pass 2 Standard home_initial volume_steps 0 1000 in
  exists w',
    pass start_locals w0 = Ret (mkLocals 0 true true) w' /\
    while_before_deadline 3 pass 0 1000 start_locals w0 =
    (home_initial ;;
     L2 <- for_steps 2 Standard volume_steps 0 1000 (mkLocals 0 false false) ;;
     L3 <- count_pass L2 ;;
     while_before_deadline 1 pass 0 1000 L3)%py w'.
Proof.
  intros a w0 pass.
  pose (after_ := fun (A : Type) (o : Outcome A) =>
                    match o with Ret _ x => x | _ => w0 end).
  pose (dev := "10.0.0.7:5555").
  pose (w := after_ _ (home_initial w0)).
  pose (w1 := after_ _ (for_steps 2 Standard (firstn 2 volume_steps) 0 1000
                          (mkLocals 0 false false) w)).
  pose (wa := after_ _ (standby_gate 2 dev 0 1000 w1)).
  pose (wb := after_ _ (f_send_volume_up_key dev wa)).
  pose (wc := after_ _ (reconnect Standard 2 (self_ip w1) (self_port w1) 0 1000 wb)).
  assert (Hinit : home_initial w0 = Ret tt w) by (vm_compute; reflexivity).
  assert (Hbefore : for_steps 2 Standard (firstn 2 volume_steps) 0 1000
                      (mkLocals 0 false false) w
                    = Ret (mkLocals 0 false false) w1) by (vm_compute; reflexivity).
  assert (Hdev : self_device w1 = Some dev) by (vm_compute; reflexivity).
  assert (Hgate : standby_gate 2 dev 0 1000 w1 = Ret tt wa) by (vm_compute; reflexivity).
  assert (Hfunc : f_send_volume_up_key dev wa = Ret false wb)
    by (vm_compute; reflexivity).
  assert (Hrec : reconnect Standard 2 (self_ip w1) (self_port w1) 0 1000 wb
                 = Ret (dev, true) wc) by (vm_compute; reflexivity).
  destruct (reconnection_restarts_step_list_from_first_step
              2 Standard home_initial (firstn 2 volume_steps) f_send_volume_up_key
              (skipn 3 volume_steps) 0 1000 (mkLocals 0 false false) w
              (mkLocals 0 false false) w1 dev wa wb dev true wc
              Hbefore eq_refl Hdev Hgate Hfunc Hrec) as (_ & _ & _ & H).
  destruct (H start_locals w0 Hinit eq_refl) as [Hpass Hwhile].
  exists (logged (with_device wc (Some dev)) LRestart).
  split; [exact Hpass|].
  apply Hwhile; vm_compute; reflexivity.
Defined.

Example restart_trace_has_no_later_step :
  let a := answer "" in
  let w0 := connected_world 100
              (scripted [a; a; a; a; a; a; refusal;
                         answer "connected to 10.0.0.7:5555"; answer "device"] a)
              (typed []) false in
  option_map (fun w' => List.length (filter (fun e => match snd e with
                                                 | EProc _ _ _ => true
                                                 | _ => false
                                                 end) (trace w')))
    (final (one_pass 2 Standard home_initial volume_steps 0 1000 start_locals w0))
  = Some 10%nat.
Proof. vm_compute. reflexivity. Qed.

(* ===================================================================== *)
(** * Further properties of the code *)
(* ===================================================================== *)
Lemma starts_with_contains a b : forall s,
  PyStr.starts_with (a ++ b)%string s = true -> PyStr.contains b s = true.
Proof.
  induction a as [|c a IH]; intros s H.
  - cbn [append] in H. destruct s; cbn [PyStr.contains]; rewrite H; reflexivity.
  - destruct s as [|c' s]; [discriminate H|].
    cbn [append PyStr.starts_with] in H. apply andb_true_iff in H. destruct H as [_ H].
    cbn [PyStr.contains]. rewrite (IH s H). apply orb_true_r.
Qed.

Lemma contains_suffix a b : forall s,
  PyStr.contains (a ++ b)%string s = true -> PyStr.contains b s = true.
Proof.
  induction s as [|c s IH]; intro H.
  - cbn [PyStr.contains] in H. rewrite orb_false_r in H.
    apply (starts_with_contains a b _ H).
  - cbn [PyStr.contains] in H. apply orb_true_iff in H. destruct H as [H|H].
    + apply (starts_with_contains a b _ H).
    + cbn [PyStr.contains]. rewrite (IH H). apply orb_true_r.
Qed.

Lemma connected_test output :
  (PyStr.contains "connected" output || PyStr.contains "already connected" output)%bool
  = PyStr.contains "connected" output.
Proof.
  destruct (PyStr.contains "connected" output) eqn:E1; [reflexivity|].
  destruct (PyStr.contains "already connected" output) eqn:E2; [|reflexivity].
  change "already connected" with ("already " ++ "connected")%string in E2.
  apply contains_suffix in E2. congruence.
Qed.

Lemma f_connect_device_completed ip port w rc out err :
  p_res (procs w (nproc w)) = Completed rc out err ->
  exists w',
    f_connect_device ip port w
    = Ret (if reports_connected rc out then Some (device_id ip port) else None) w' /\
    clock w' = clock w + Z.of_N (p_dt (procs w (nproc w))) + 10 /\
    nproc w' = S (nproc w).
Proof.
  intro Hres. unfold f_connect_device, reports_connected. cbv zeta.
  unfold try_except. rewrite (bind_subprocess_run (B:=option string)).
  unfold run_result. rewrite Hres. cbn [fst snd andb negb].
  destruct (rc =? 0); cbn [negb andb fst snd is_CalledProcessError].
  - rewrite connected_test.
    destruct (PyStr.contains "connected" (PyStr.lower (PyStr.strip out))).
    + rewrite bind_f_log, bind_time_sleep. eexists. split; [reflexivity|].
      split; reflexivity.
    + rewrite bind_f_log, bind_print, bind_time_sleep, bind_clear_screen.
      eexists. split; [reflexivity|]. split; reflexivity.
  - rewrite bind_f_log, bind_print, bind_time_sleep, bind_clear_screen.
    eexists. split; [reflexivity|]. split; reflexivity.
Qed.

Lemma f_connect_device_not_started ip port w :
  p_res (procs w (nproc w)) = NotStarted ->
  exists w', f_connect_device ip port w = Raise OSError w' /\ nproc w' = S (nproc w).
Proof.
  intro Hres. unfold f_connect_device. cbv zeta.
  unfold try_except. rewrite (bind_subprocess_run (B:=option string)).
  unfold run_result. rewrite Hres. cbn [fst snd is_CalledProcessError].
  eexists. split; reflexivity.
Qed.


Lemma run_result_within check t r :
  0 <= t -> 0 <= fst (run_result check (Some t) r) <= t.
Proof.
  intro Ht. unfold run_result.
  destruct (t <? Z.of_N (p_dt r)) eqn:E; cbn [fst]; [lia|].
  apply Z.ltb_ge in E. lia.
Qed.

Lemma cec_method_returns device args ok failed w0 i w :
  after_cec w0 i w ->
  exists w',
    cec_method device args ok failed w
    = Ret (if answer_ok (Some 10) (procs w0 (nproc w0 + i)%nat) then 1 else 0) w' /\
    after_cec w0 (S i) w'.
Proof.
  intros (Hp & Hn & Hc & (d & Ht)). unfold cec_method, try_except, answer_ok.
  rewrite (bind_subprocess_run (B:=Z)). rewrite Hp, Hn.
  pose proof (run_result_within true 10 (procs w0 (nproc w0 + i)%nat) ltac:(lia)) as Hdt.
  unfold after_cec.
  destruct (snd (run_result true (Some 10) (procs w0 (nproc w0 + i)%nat))) as [out|e];
    rewrite bind_f_log; (eexists; split; [reflexivity|]);
    cbn [procs nproc clock trace logged after_run with_clock with_trace with_nproc];
    rewrite Hn, Nat.add_succ_r, Ht, <- !app_assoc;
    (split; [assumption|]); (split; [reflexivity|]); (split; [lia|]);
    eexists; reflexivity.
Qed.

Lemma count_cons (f : ProcResp -> bool) r l :
  Z.of_nat (List.length (filter f (r :: l)))
  = (if f r then 1 else 0) + Z.of_nat (List.length (filter f l)).
Proof. cbn [filter]. destruct (f r); cbn [List.length]; lia. Qed.

(** Runs the next of the nine commands. *)
Ltac cec_next w0 :=
  match goal with
  | H : after_cec w0 ?i ?w
    |- context [bind (cec_method ?d ?args ?ok ?failed) ?k ?w] =>
      let w1 := fresh "w" in
      let E := fresh "E" in
      let H1 := fresh "H" in
      destruct (cec_method_returns d args ok failed w0 i w H) as (w1 & E & H1);
      rewrite (bind_eq _ _ _ _ _ E); cbv beta;
      clear E H
  end.

Lemma f_disable_cec_returns :
  forall device w,
    let successes :=
      Z.of_nat (List.length (filter (answer_ok (Some 10)) (cec_answers w))) in
    exists w' delta,
      f_disable_cec device w = Ret (0 <? successes) w' /\
      trace w' = trace w ++ delta /\
      nproc w' = (nproc w + 9)%nat /\
      clock w + 5 <= clock w' <= clock w + 95 /\
      (0 < successes -> In (ELog (cec_summary successes)) (map snd delta)).
Proof.
  intros device w successes.
  unfold f_disable_cec, try_except. rewrite bind_f_log.
  set (w0 := logged w _).
  assert (H0 : after_cec w0 0 w0).
  { unfold after_cec. rewrite Nat.add_0_r. repeat split; try lia.
    exists []. rewrite app_nil_r. reflexivity. }
  do 9 cec_next w0.
  match goal with |- context [0 <? ?n] => replace n with successes end.
  2:{ unfold successes, cec_answers. cbn [map seq].
      rewrite !count_cons. cbn [filter List.length Z.of_nat].
      change (procs w0) with (procs w). change (nproc w0) with (nproc w). lia. }
  match goal with H : after_cec w0 9 ?w9 |- _ =>
    destruct H as (_ & Hn & Hc & (d & Ht)) end.
  change (nproc w0) with (nproc w) in Hn. change (clock w0) with (clock w) in Hc.
  unfold w0 in Ht. cbn [trace logged with_trace] in Ht. rewrite <- app_assoc in Ht.
  destruct (0 <? successes) eqn:Epos.
  - rewrite !bind_f_log, bind_time_sleep.
    eexists. eexists. split; [reflexivity|].
    cbn [trace clock nproc slept logged with_trace with_clock].
    rewrite Ht, <- !app_assoc. split; [reflexivity|].
    split; [exact Hn|]. split; [lia|]. intros _.
    rewrite !map_app. apply in_or_app. right. apply in_or_app. right. left. reflexivity.
  - rewrite !bind_f_log, bind_time_sleep.
    eexists. eexists. split; [reflexivity|].
    cbn [trace clock nproc slept logged with_trace with_clock].
    rewrite Ht, <- !app_assoc. split; [reflexivity|].
    split; [exact Hn|]. split; [lia|]. intro H. apply Z.ltb_ge in Epos. lia.
Qed.

Section Keeps.

Variable R : World -> World -> Prop.
Hypothesis HR : untouched R.

Lemma keeps_ret {A} (a : A) : keeps R (ret a).
Proof.
  destruct HR as (R_refl & R_trans & R_trace & R_clock & R_nproc & R_ninput & R_error_shown).
  intro w. apply R_refl. Qed.

Lemma keeps_raise {A} e : keeps R (@raise A e).
Proof.
  destruct HR as (R_refl & R_trans & R_trace & R_clock & R_nproc & R_ninput & R_error_shown).
  intro w. apply R_refl. Qed.

Lemma keeps_sys_exit {A} c : keeps R (@sys_exit A c).
Proof.
  destruct HR as (R_refl & R_trans & R_trace & R_clock & R_nproc & R_ninput & R_error_shown).
  intro w. apply R_refl. Qed.

Lemma ends_in_bind {A B} (m : M A) (k : A -> M B) w :
  ends_in (m w) (R w) ->
  (forall a w1, m w = Ret a w1 -> ends_in (k a w1) (R w1)) ->
  ends_in (bind m k w) (R w).
Proof.
  destruct HR as (R_refl & R_trans & R_trace & R_clock & R_nproc & R_ninput & R_error_shown).
  unfold bind. intros Hm Hk.
  destruct (m w) as [a w1|e w1|c w1|]; auto.
  specialize (Hk a w1 eq_refl). cbn [ends_in] in Hm.
  destruct (k a w1); cbn [ends_in] in *; eauto.
Qed.

Lemma keeps_bind {A B} (m : M A) (k : A -> M B) :
  keeps R m -> (forall a, keeps R (k a)) -> keeps R (bind m k).
Proof.
  destruct HR as (R_refl & R_trans & R_trace & R_clock & R_nproc & R_ninput & R_error_shown).
  intros Hm Hk w. apply ends_in_bind; [apply Hm|]. intros. apply Hk. Qed.

Lemma keeps_try_except {A} (m : M A) catches (h : Exn -> M A) :
  keeps R m -> (forall e, keeps R (h e)) -> keeps R (try_except m catches h).
Proof.
  destruct HR as (R_refl & R_trans & R_trace & R_clock & R_nproc & R_ninput & R_error_shown).
  intros Hm Hh w. unfold try_except. specialize (Hm w).
  destruct (m w) as [a w1|e w1|c w1|]; auto.
  destruct (catches e); auto.
  specialize (Hh e w1). cbn [ends_in] in Hm.
  destruct (h e w1); cbn [ends_in] in *; eauto.
Qed.

Lemma keeps_emit e : keeps R (emit e).
Proof.
  destruct HR as (R_refl & R_trans & R_trace & R_clock & R_nproc & R_ninput & R_error_shown).
  intro w. apply R_trace. Qed.

Lemma keeps_time_sleep secs : keeps R (time_sleep secs).
Proof.
  destruct HR as (R_refl & R_trans & R_trace & R_clock & R_nproc & R_ninput & R_error_shown).
  intro w. cbn. eapply R_trans; [apply R_trace|apply R_clock]. Qed.

Lemma keeps_time_time : keeps R time_time.
Proof.
  destruct HR as (R_refl & R_trans & R_trace & R_clock & R_nproc & R_ninput & R_error_shown).
  intro w. apply R_refl. Qed.

Lemma keeps_input prompt : keeps R (input prompt).
Proof.
  destruct HR as (R_refl & R_trans & R_trace & R_clock & R_nproc & R_ninput & R_error_shown).
  intro w. unfold input.
  assert (R w (with_trace (with_ninput w (S (ninput w)))
                 (trace w ++ [(clock w, EInput prompt (inputs w (ninput w)))])))
    by (eapply R_trans; [apply R_ninput|apply R_trace]).
  destruct (inputs w (ninput w)); assumption.
Qed.

Lemma keeps_subprocess_run cmd check timeout :
  keeps R (subprocess_run cmd check timeout).
Proof.
  destruct HR as (R_refl & R_trans & R_trace & R_clock & R_nproc & R_ninput & R_error_shown).
  intro w. unfold subprocess_run.
  assert (R w (after_run w cmd timeout
                 (fst (run_result check timeout (procs w (nproc w)))))).
  { unfold after_run.
    eapply R_trans; [apply R_nproc|]. eapply R_trans; [apply R_trace|apply R_clock]. }
  destruct (snd (run_result check timeout (procs w (nproc w)))); assumption.
Qed.

Lemma keeps_get_device : keeps R get_device.
Proof.
  destruct HR as (R_refl & R_trans & R_trace & R_clock & R_nproc & R_ninput & R_error_shown).
  intro w. apply R_refl. Qed.

Lemma keeps_get_ip : keeps R get_ip.
Proof.
  destruct HR as (R_refl & R_trans & R_trace & R_clock & R_nproc & R_ninput & R_error_shown).
  intro w. apply R_refl. Qed.

Lemma keeps_get_port : keeps R get_port.
Proof.
  destruct HR as (R_refl & R_trans & R_trace & R_clock & R_nproc & R_ninput & R_error_shown).
  intro w. apply R_refl. Qed.

Lemma keeps_getenv_STY : keeps R getenv_STY.
Proof.
  destruct HR as (R_refl & R_trans & R_trace & R_clock & R_nproc & R_ninput & R_error_shown).
  intro w. apply R_refl. Qed.

Lemma keeps_the_device : keeps R the_device.
Proof.
  destruct HR as (R_refl & R_trans & R_trace & R_clock & R_nproc & R_ninput & R_error_shown).
  intro w. unfold the_device. destruct (self_device w); apply R_refl. Qed.

Lemma keeps_get_error_already_shown : keeps R get_error_already_shown.
Proof.
  destruct HR as (R_refl & R_trans & R_trace & R_clock & R_nproc & R_ninput & R_error_shown).
  intro w. apply R_refl. Qed.

Lemma keeps_set_error_already_shown b : keeps R (set_error_already_shown b).
Proof.
  destruct HR as (R_refl & R_trans & R_trace & R_clock & R_nproc & R_ninput & R_error_shown).
  intro w. apply R_error_shown. Qed.

End Keeps.

(** One step of the structural proof that a piece of code [keeps] a
    relation that none of its primitive calls breaks. *)
Ltac keep_step :=
  match goal with
  | |- keeps _ (bind _ _) => apply keeps_bind; [assumption| |intro]
  | |- keeps _ (try_except _ _ _) => apply keeps_try_except; [assumption| |intro]
  | |- keeps _ (time_sleep _) => apply keeps_time_sleep; assumption
  | |- keeps _ (f_log _) => apply keeps_emit; assumption
  | |- keeps _ (print _) => apply keeps_emit; assumption
  | |- keeps _ clear_screen => apply keeps_emit; assumption
  | |- keeps _ (input _) => apply keeps_input; assumption
  | |- keeps _ (subprocess_run _ _ _) => apply keeps_subprocess_run; assumption
  | |- keeps _ (ret _) => apply keeps_ret; assumption
  | |- keeps _ (raise _) => apply keeps_raise; assumption
  | |- keeps _ (sys_exit _) => apply keeps_sys_exit; assumption
  | |- keeps _ time_time => apply keeps_time_time; assumption
  | |- keeps _ get_device => apply keeps_get_device; assumption
  | |- keeps _ get_ip => apply keeps_get_ip; assumption
  | |- keeps _ get_port => apply keeps_get_port; assumption
  | |- keeps _ getenv_STY => apply keeps_getenv_STY; assumption
  | |- keeps _ the_device => apply keeps_the_device; assumption
  | |- keeps _ get_error_already_shown => apply keeps_get_error_already_shown; assumption
  | |- keeps _ (set_error_already_shown _) =>
      apply keeps_set_error_already_shown; assumption
  | |- keeps _ (if ?b then _ else _) => destruct b
  | |- keeps _ (match ?x with _ => _ end) => destruct x
  | |- keeps _ _ => solve [auto]
  end.

Ltac keep := repeat keep_step.

Lemma untouched_same_session : untouched same_session.
Proof.
  unfold untouched, same_session. repeat split; try reflexivity; cbn; intuition congruence.
Qed.

Lemma keeps_f_send_key R device key_code key_name :
  untouched R -> keeps R (f_send_key device key_code key_name).
Proof. intro HR. unfold f_send_key. keep. Qed.

Section KeepsCode.

Variable R : World -> World -> Prop.
Hypothesis HR : untouched R.

Lemma keeps_f_is_in_standby device : keeps R (f_is_in_standby device).
Proof. unfold f_is_in_standby. keep. Qed.

Lemma keeps_f_is_device_ready device : keeps R (f_is_device_ready device).
Proof. unfold f_is_device_ready. keep. Qed.

Lemma keeps_connected_and_ready d : keeps R (connected_and_ready d).
Proof. unfold connected_and_ready. pose proof keeps_f_is_device_ready. keep. Qed.

Lemma keeps_send_then_sleep device key_code key_name delay :
  keeps R (send_then_sleep device key_code key_name delay).
Proof.
  unfold send_then_sleep. pose proof (fun d c n => keeps_f_send_key R d c n HR). keep.
Qed.

Lemma keeps_sleep_then_send device key_code key_name delay :
  keeps R (sleep_then_send device key_code key_name delay).
Proof.
  unfold sleep_then_send. pose proof (fun d c n => keeps_f_send_key R d c n HR). keep.
Qed.

Lemma keeps_f_send_flow_key device : keeps R (f_send_flow_key device).
Proof. unfold f_send_flow_key. keep. Qed.

Lemma keeps_f_open_app device package description :
  keeps R (f_open_app device package description).
Proof. unfold f_open_app. keep. Qed.

Lemma keeps_f_open_app_secondary device package description :
  keeps R (f_open_app_secondary device package description).
Proof. unfold f_open_app_secondary. keep. Qed.

Lemma keeps_f_connect_device ip port : keeps R (f_connect_device ip port).
Proof. unfold f_connect_device. keep. Qed.

Lemma keeps_cec_method device args ok failed :
  keeps R (cec_method device args ok failed).
Proof. unfold cec_method. keep. Qed.

Lemma keeps_f_disable_cec device : keeps R (f_disable_cec device).
Proof. unfold f_disable_cec. pose proof keeps_cec_method. keep. Qed.

Lemma keeps_wait_standby_loop fuel device initial_time duration :
  keeps R (wait_standby_loop fuel device initial_time duration).
Proof.
  induction fuel as [|fuel IH]; cbn [wait_standby_loop]; [intro w; exact I|].
  pose proof keeps_f_is_in_standby. keep.
Qed.

Lemma keeps_f_wait_standby_exit fuel device initial_time duration :
  keeps R (f_wait_standby_exit fuel device initial_time duration).
Proof. unfold f_wait_standby_exit. pose proof keeps_wait_standby_loop. keep. Qed.

Lemma keeps_reconnect fam fuel ip port initial_time duration :
  keeps R (reconnect fam fuel ip port initial_time duration).
Proof.
  pose proof keeps_f_connect_device. pose proof keeps_connected_and_ready.
  pose proof keeps_send_then_sleep. pose proof keeps_sleep_then_send.
  destruct fam; cbn [reconnect];
    unfold f_reconnect_and_reinitialize, f_reconnect_and_reinitialize_project1;
    (apply keeps_bind; [assumption|keep|intros _]);
    induction fuel as [|fuel IH];
    cbn [reconnect_loop reconnect_loop_project1]; try (intro w; exact I);
    unfold f_send_home_key, f_send_guide_key, f_send_back_key; keep.
Qed.

Lemma keeps_standby_gate fuel device initial_time duration :
  keeps R (standby_gate fuel device initial_time duration).
Proof.
  unfold standby_gate. pose proof keeps_f_is_in_standby.
  pose proof keeps_f_wait_standby_exit. keep.
Qed.

Lemma keeps_check_and_send fam fuel (func : Step) device ip port initial_time duration :
  keeps R (func device) ->
  keeps R (check_and_send fam fuel func device ip port initial_time duration).
Proof.
  intros Hfunc.
  pose proof keeps_standby_gate. pose proof keeps_reconnect.
  assert (Hk : keeps R (bind (standby_gate fuel device initial_time duration)
                          (fun _ =>
                             ok <- func device ;;
                             if negb ok
                             then reconnect fam fuel ip port initial_time duration
                             else ret (device, false)))) by keep.
  intro w. rewrite check_and_send_eq. apply Hk.
Qed.

(** Every step of every test keeps [R]. *)
Lemma keeps_steps (t : Test) :
  Forall (fun func : Step => forall device, keeps R (func device)) (test_steps t).
Proof.
  assert (Hflow : forall device, keeps R (send_flow_with_navigation device)).
  { intro. unfold send_flow_with_navigation. pose proof keeps_f_send_flow_key. keep. }
  assert (Happs : forall device,
             keeps R (open_netflix device) /\ keeps R (open_amazon device) /\
             keeps R (open_youtube device) /\ keeps R (open_disney device) /\
             keeps R (open_spotify device) /\ keeps R (open_max device)).
  { intro. pose proof keeps_send_then_sleep. pose proof keeps_f_open_app.
    pose proof keeps_f_open_app_secondary.
    split; [|split; [|split; [|split; [|split]]]]; unfold_steps; keep. }
  destruct t; cbn [test_steps];
    repeat (apply Forall_cons;
            [intro device;
             lazymatch goal with
             | |- keeps _ (send_flow_with_navigation _) => apply Hflow
             | |- keeps _ (open_netflix _) => apply (Happs device)
             | |- keeps _ (open_amazon _) => apply (Happs device)
             | |- keeps _ (open_youtube _) => apply (Happs device)
             | |- keeps _ (open_disney _) => apply (Happs device)
             | |- keeps _ (open_spotify _) => apply (Happs device)
             | |- keeps _ (open_max _) => apply (Happs device)
             | |- _ =>
                 unfold_steps;
                 lazymatch goal with
                 | |- keeps _ (send_then_sleep _ _ _ _) => apply keeps_send_then_sleep
                 | |- keeps _ (sleep_then_send _ _ _ _) => apply keeps_sleep_then_send
                 end
             end
            |]);
    apply Forall_nil.
Qed.

Lemma keeps_initial_sequences :
  keeps R zapping_standard_initial /\
  keeps R zapping_project1_initial /\
  keeps R home_initial /\
  keeps R ready_initial.
Proof.
  unfold zapping_standard_initial, zapping_project1_initial, home_initial,
    ready_initial.
  pose proof keeps_send_then_sleep. pose proof keeps_sleep_then_send.
  pose proof keeps_f_send_flow_key.
  split; [|split; [|split]]; unfold_steps; keep.
Qed.

End KeepsCode.

(** X2.  [f_disable_cec] always returns: it runs its nine commands
    whatever becomes of each, waits at most ten seconds for each and
    five at the end, and returns True exactly when at least one of the
    nine went through; the session is left as it was.  The summary line
    counts the commands that went through, up to nine, out of the seven
    methods it names. *)
Theorem cec_disable_outcome :
  forall device w,
    let successes :=
      Z.of_nat (List.length (filter (answer_ok (Some 10)) (cec_answers w))) in
    exists w' delta,
      f_disable_cec device w = Ret (0 <? successes) w' /\
      trace w' = trace w ++ delta /\
      nproc w' = (nproc w + 9)%nat /\
      clock w + 5 <= clock w' <= clock w + 95 /\
      same_session w w' /\
      (0 < successes -> In (ELog (cec_summary successes)) (map snd delta)).
Proof.
  intros device w successes.
  destruct (f_disable_cec_returns device w) as (w' & delta & E & Ht & Hn & Hc & Hin).
  exists w', delta. repeat (split; [assumption|]).
  split; [|exact Hin].
  pose proof (keeps_f_disable_cec same_session untouched_same_session device w) as Hk.
  rewrite E in Hk. exact Hk.
Qed.

Example cec_counts_nine_of_seven :
  let w := connected_world 100 (scripted [] (answer "")) (typed []) false in
  returned (f_disable_cec "10.0.0.7:5555" w) = Some true /\
  option_map (fun w' => existsb (fun e => match snd e with
                                         | ELog (LCec line) =>
                                             String.eqb line
                                               "CEC disable completed: 9/7 methods successful"
                                         | _ => false
                                         end) (trace w'))
             (final (f_disable_cec "10.0.0.7:5555" w)) = Some true.
Proof. split; reflexivity. Qed.

(** ** The session during a run *)

Lemma check_and_send_device fam fuel func device ip port initial_time duration
    w d r w' :
  check_and_send fam fuel func device ip port initial_time duration w = Ret (d, r) w' ->
  d = device \/ d = device_id ip port.
Proof.
  intro H. rewrite check_and_send_eq in H.
  apply bind_Ret_inv in H. destruct H as (u & wa & _ & H).
  apply bind_Ret_inv in H. destruct H as (ok & wb & _ & H).
  destruct (negb ok).
  - apply reconnect_returns in H. right. tauto.
  - unfold ret in H. apply Ret_inj in H. destruct H as [H _]. left. congruence.
Qed.

Lemma same_session_with_device w d :
  self_device w = d -> same_session w (with_device w d).
Proof. intro H. unfold same_session. cbn. auto. Qed.

Lemma session_of_address_same w w' :
  same_session w w' -> session_of_address w -> session_of_address w'.
Proof.
  unfold same_session, session_of_address. intros (Hd & Hi & Hp) H. congruence.
Qed.

Lemma same_session_trans w1 w2 w3 :
  same_session w1 w2 -> same_session w2 w3 -> same_session w1 w3.
Proof. unfold same_session. intuition congruence. Qed.

Lemma ends_in_weaken {A} (o : Outcome A) (P Q : World -> Prop) :
  (forall w, P w -> Q w) -> ends_in o P -> ends_in o Q.
Proof. intro H. destruct o; cbn [ends_in]; auto. Qed.

Lemma for_steps_session fuel fam initial_time duration steps :
  Forall (fun func : Step => forall device, keeps same_session (func device)) steps ->
  forall L w,
    session_of_address w ->
    ends_in (for_steps fuel fam steps initial_time duration L w) (same_session w).
Proof.
  induction 1 as [|func rest Hfunc Hrest IH]; intros L w Hw.
  - cbn. unfold same_session. auto.
  - rewrite (for_steps_cons _ _ _ _ _ _ _ _ _ Hw).
    apply (ends_in_bind same_session untouched_same_session).
    + apply keeps_check_and_send; [exact untouched_same_session|apply Hfunc].
    + intros [d r] w1 E. cbn [fst snd].
      pose proof (keeps_check_and_send same_session untouched_same_session
                    fam fuel func (device_id (self_ip w) (self_port w))
                    (self_ip w) (self_port w) initial_time duration
                    (Hfunc _) w) as Hk.
      rewrite E in Hk. cbn [ends_in] in Hk.
      assert (Hd : d = device_id (self_ip w) (self_port w))
        by (apply check_and_send_device in E; tauto).
      subst d.
      assert (H1 : same_session w1 (with_device w1
                                      (Some (device_id (self_ip w) (self_port w))))).
      { apply same_session_with_device. destruct Hk as (-> & _ & _). exact Hw. }
      unfold bind at 1. unfold set_device.
      destruct r.
      * rewrite bind_f_log. cbn [ends_in ret].
        eapply same_session_trans; [exact H1|]. unfold same_session. cbn. auto.
      * eapply ends_in_weaken; [intros w2; apply same_session_trans; exact H1|].
        apply IH.
        eapply session_of_address_same; [|exact Hw].
        eapply same_session_trans; eassumption.
Qed.

Lemma keeps_count_pass L : keeps same_session (count_pass L).
Proof.
  pose proof untouched_same_session. unfold count_pass. keep.
Qed.

Lemma ends_in_bind_session {A B} (m : M A) (k : A -> M B) w :
  keeps same_session m ->
  session_of_address w ->
  (forall a w1, session_of_address w1 -> ends_in (k a w1) (same_session w1)) ->
  ends_in (bind m k w) (same_session w).
Proof.
  intros Hm Hw Hk.
  apply (ends_in_bind same_session untouched_same_session); [apply Hm|].
  intros a w1 E. apply Hk.
  specialize (Hm w). rewrite E in Hm.
  eapply session_of_address_same; eassumption.
Qed.

Lemma one_pass_session fuel fam initial_sequence steps initial_time duration L w :
  keeps same_session initial_sequence ->
  Forall (fun func : Step => forall device, keeps same_session (func device)) steps ->
  session_of_address w ->
  ends_in (one_pass fuel fam initial_sequence steps initial_time duration L w)
          (same_session w).
Proof.
  intros Hinit Hsteps Hw. unfold one_pass.
  apply ends_in_bind_session; [|exact Hw|].
  { pose proof untouched_same_session. keep. }
  intros L1 w1 Hw1.
  apply (ends_in_bind same_session untouched_same_session).
  - apply for_steps_session; assumption.
  - intros L2 w2 _. apply keeps_count_pass.
Qed.

Lemma standby_recover_session fuel initial_time duration w :
  session_of_address w ->
  ends_in (standby_recover fuel initial_time duration w) (same_session w).
Proof.
  intro Hw. unfold standby_recover.
  unfold bind at 1. unfold get_ip. unfold bind at 1. unfold get_port.
  apply (ends_in_bind same_session untouched_same_session).
  - apply (keeps_reconnect same_session untouched_same_session Standard).
  - intros [d b] w1 E. cbn [fst snd].
    pose proof (keeps_reconnect same_session untouched_same_session Standard
                  fuel (self_ip w) (self_port w) initial_time duration w) as Hk.
    cbn [reconnect] in Hk. rewrite E in Hk. cbn [ends_in] in Hk.
    apply (reconnect_returns Standard) in E. destruct E as (_ & -> & _).
    unfold bind, set_device, ret. cbn [ends_in].
    apply same_session_with_device. destruct Hk as (-> & _ & _). exact Hw.
Qed.

Lemma standby_pass_session fuel initial_time duration L w :
  session_of_address w ->
  ends_in (standby_pass fuel initial_time duration L w) (same_session w).
Proof.
  intro Hw. unfold standby_pass.
  pose proof untouched_same_session as HR.
  pose proof (keeps_send_then_sleep same_session HR) as Hkey.
  apply ends_in_bind_session; [keep|exact Hw|]. intros L1 w1 Hw1.
  apply ends_in_bind_session; [keep|exact Hw1|]. intros dev w2 Hw2.
  apply ends_in_bind_session; [apply Hkey|exact Hw2|]. intros slept w3 Hw3.
  destruct (negb slept); [apply standby_recover_session; exact Hw3|].
  apply ends_in_bind_session; [keep|exact Hw3|]. intros dev' w4 Hw4.
  apply ends_in_bind_session; [apply Hkey|exact Hw4|]. intros woke w5 Hw5.
  destruct (negb woke); [apply standby_recover_session; exact Hw5|].
  assert (Hk : keeps same_session
                 (f_log (LLoopConcluded (loop L1 + 1)) ;;
                  ret (mkLocals (loop L1 + 1) (need_initial_sequence L1)
                                (reconnected L1)))) by keep.
  apply Hk.
Qed.

Lemma test_pass_session t fuel initial_time duration L w :
  session_of_address w ->
  ends_in (test_pass t fuel initial_time duration L w) (same_session w).
Proof.
  intro Hw.
  pose proof (keeps_initial_sequences same_session untouched_same_session)
    as (Hzs & Hzp & Hhome & Hready).
  pose proof (keeps_steps same_session untouched_same_session t) as Hsteps.
  destruct t; cbn [test_pass test_steps] in *;
    try (apply one_pass_session; assumption).
  apply standby_pass_session. exact Hw.
Qed.

(** X3.  From a world in which [self.device] is the identifier made of
    [self.ip] and [self.port], the loop of a test, however long it runs
    and however it ends, leaves [self.device], [self.ip] and [self.port]
    as they were: a reconnection puts the same identifier back. *)
Theorem session_is_address_throughout :
  forall t passes fuel initial_time duration L w,
    session_of_address w ->
    ends_in (while_before_deadline passes (test_pass t fuel initial_time duration)
               initial_time duration L w)
            (fun w' => same_session w w' /\ session_of_address w').
Proof.
  intros t passes fuel initial_time duration.
  assert (H : forall L w,
             session_of_address w ->
             ends_in (while_before_deadline passes
                        (test_pass t fuel initial_time duration)
                        initial_time duration L w)
                     (same_session w)).
  { induction passes as [|passes IH]; intros L w Hw; [exact I|].
    cbn [while_before_deadline]. rewrite bind_time_time.
    destruct (clock w - initial_time <? duration).
    - apply (ends_in_bind same_session untouched_same_session).
      + apply test_pass_session. exact Hw.
      + intros L' w1 E. apply IH.
        pose proof (test_pass_session t fuel initial_time duration L w Hw) as Hp.
        rewrite E in Hp. eapply session_of_address_same; eassumption.
    - cbn. unfold same_session. auto. }
  intros L w Hw. eapply ends_in_weaken; [|apply H; exact Hw].
  intros w' Hs. split; [exact Hs|]. eapply session_of_address_same; eassumption.
Qed.

(** A volume test whose third key is refused and whose device comes back. *)
Lemma session_is_address_throughout_witness :
  let a := answer "" in
  let w := connected_world 100
             (scripted [a; a; a; a; a; a; refusal;
                        answer "connected to 10.0.0.7:5555"; answer "device"] a)
             (typed []) false in
  session_of_address w /\
  exists L' w',
    while_before_deadline 3 (test_pass VolumeControl 2 0 200) 0 200 start_locals w
    = Ret L' w' /\
    same_session w w' /\ session_of_address w'.
Proof.
  intros a w.
  assert (Hw : session_of_address w) by reflexivity.
  split; [exact Hw|].
  pose proof (session_is_address_throughout VolumeControl 3 2 0 200 start_locals w Hw)
    as H.
  destruct (while_before_deadline 3 (test_pass VolumeControl 2 0 200) 0 200
              start_locals w) as [L' w'| | |] eqn:E;
    try (vm_compute in E; discriminate E).
  exists L', w'. split; [reflexivity|exact H].
Defined.

(** ** Device initialisation *)

Lemma untouched_same_environment : untouched same_environment.
Proof.
  unfold untouched, same_environment. repeat split; try reflexivity; cbn;
    intuition congruence.
Qed.

Lemma device_id_not_empty ip port : PyStr.is_empty (device_id ip port) = false.
Proof. unfold device_id. destruct ip; reflexivity. Qed.

Lemma f_initialize_device_returns w rc out err :
  p_res (procs w (nproc w)) = Completed rc out err ->
  let device := device_id (self_ip w) (self_port w) in
  let connected := reports_connected rc out in
  let ready := connected && answer_ready (procs w (S (nproc w))) in
  exists w',
    f_initialize_device w = Ret ready w' /\
    self_device w' = (if connected then Some device else None) /\
    self_ip w' = self_ip w /\ self_port w' = self_port w /\
    nproc w' = (nproc w + if connected then if ready then 11 else 2 else 1)%nat.
Proof.
  intros Hres device connected ready. subst device.
  set (device := device_id (self_ip w) (self_port w)).
  unfold f_initialize_device.
  unfold bind at 1. unfold get_ip. unfold bind at 1. unfold get_port.
  destruct (f_connect_device_completed (self_ip w) (self_port w) w rc out err Hres)
    as (w1 & E1 & _ & Hn1).
  pose proof (keeps_f_connect_device same_environment untouched_same_environment
                (self_ip w) (self_port w) w) as He1.
  pose proof (keeps_f_connect_device same_session untouched_same_session
                (self_ip w) (self_port w) w) as Hs1.
  rewrite E1 in He1, Hs1. cbn [ends_in] in He1, Hs1.
  destruct He1 as (Hp1 & _). destruct Hs1 as (_ & Hi1 & Hq1).
  rewrite (bind_eq _ _ _ _ _ E1). fold connected.
  unfold bind at 1. unfold set_device.
  subst ready. destruct connected; cbn [andb].
  - unfold connected_and_ready, truthy. rewrite device_id_not_empty. fold device.
    rewrite bind_assoc. unfold bind at 1. rewrite f_is_device_ready_eq.
    cbn [procs nproc with_device]. rewrite Hp1, Hn1.
    destruct (answer_ready (procs w (S (nproc w)))).
    + rewrite bind_ret.
      set (w2 := after_run _ _ _ _).
      destruct (f_disable_cec_returns device w2) as (w3 & d & E3 & _ & Hn3 & _).
      pose proof (keeps_f_disable_cec same_session untouched_same_session device w2)
        as Hs3.
      rewrite E3 in Hs3. cbn [ends_in] in Hs3. destruct Hs3 as (Hd3 & Hi3 & Hq3).
      rewrite (bind_eq _ _ _ _ _ E3). exists w3. split; [reflexivity|].
      rewrite Hd3, Hi3, Hq3, Hn3. unfold w2. cbn. rewrite Hn1.
      repeat split; try assumption. lia.
    + rewrite bind_ret, bind_print, bind_time_sleep, bind_clear_screen.
      eexists. split; [reflexivity|]. cbn. rewrite Hn1.
      repeat split; try assumption. lia.
  - unfold connected_and_ready, truthy.
    rewrite bind_ret, bind_print, bind_time_sleep, bind_clear_screen.
    eexists. split; [reflexivity|]. cbn. rewrite Hn1.
    repeat split; try assumption. lia.
Qed.



(** ** Connection data *)

Lemma bind_input {B} prompt (k : string -> M B) w :
  bind (input prompt) k w =
    let w' := with_trace (with_ninput w (S (ninput w)))
                (trace w ++ [(clock w, EInput prompt (inputs w (ninput w)))]) in
    match inputs w (ninput w) with
    | Some s => k s w'
    | None => Raise EOFError w'
    end.
Proof. unfold bind, input. destruct (inputs w (ninput w)); reflexivity. Qed.

Lemma bind_raise {A B} e (k : A -> M B) w : bind (raise e) k w = Raise e w.
Proof. reflexivity. Qed.

Lemma bind_set_ip {B} i (k : unit -> M B) w : bind (set_ip i) k w = k tt (with_ip w i).
Proof. reflexivity. Qed.

Lemma bind_get_ip {B} (k : string -> M B) w : bind get_ip k w = k (self_ip w) w.
Proof. reflexivity. Qed.

Lemma bind_set_port {B} p (k : unit -> M B) w :
  bind (set_port p) k w = k tt (with_port w p).
Proof. reflexivity. Qed.

Lemma is_empty_false s : PyStr.is_empty s = false -> s <> "".
Proof. destruct s; [discriminate|]. intros _. discriminate. Qed.

Lemma f_get_connection_info_ends :
  forall w,
    ends_with (f_get_connection_info w)
      (fun r w' =>
         nproc w' = S (nproc w) /\
         match r with
         | Some d => 0 < d <= 432000 /\ self_ip w' <> "" /\ self_port w' = 5555
         | None => True
         end)
      (fun e w' => e = EOFError /\ nproc w' = S (nproc w)).
Proof.
  intro w. unfold f_get_connection_info, try_except.
  destruct (at_io_f_list_connected_devices (inputs w) (ninput w) (nproc w) w)
    as (w1 & E1 & Hin & Hni & Hnp); [repeat split|].
  rewrite (bind_eq _ _ _ _ _ E1).
  rewrite bind_input. cbv zeta.
  destruct (inputs w1 (ninput w1)) as [ip_line|]; [|cbn; auto].
  rewrite bind_set_ip, bind_get_ip. cbn [self_ip with_ip].
  destruct (PyStr.is_empty (PyStr.strip ip_line)) eqn:Eip.
  { rewrite bind_raise. cbn [is_ValueError].
    rewrite bind_print, bind_time_sleep, bind_clear_screen. cbn. auto. }
  apply is_empty_false in Eip.
  rewrite bind_ret, bind_set_port, bind_print, bind_input. cbv zeta.
  cbn [inputs ninput with_port with_ip with_trace with_ninput].
  destruct (inputs w1 (S (ninput w1))) as [choice|]; [|cbn; auto].
  destruct (PyStr.is_empty (PyStr.strip choice)) eqn:Echoice.
  { rewrite bind_raise. cbn [is_ValueError].
    rewrite bind_print, bind_time_sleep, bind_clear_screen. cbn. auto. }
  rewrite bind_ret.
  destruct (String.eqb (PyStr.strip choice) "1").
  { cbn. repeat split; try assumption; lia. }
  destruct (String.eqb (PyStr.strip choice) "2").
  { cbn. repeat split; try assumption; lia. }
  destruct (String.eqb (PyStr.strip choice) "3").
  2:{ unfold raise. cbn [is_ValueError].
      rewrite bind_print, bind_time_sleep, bind_clear_screen. cbn. auto. }
  rewrite bind_input. cbv zeta.
  cbn [inputs ninput with_port with_ip with_trace with_ninput].
  destruct (inputs w1 (S (S (ninput w1)))) as [custom|]; [|cbn; auto].
  destruct (PyStr.is_empty (PyStr.strip custom)) eqn:Ecustom.
  { rewrite bind_raise. cbn [is_ValueError].
    rewrite bind_print, bind_time_sleep, bind_clear_screen. cbn. auto. }
  rewrite bind_ret. unfold bind at 1. rewrite custom_duration_result.
  destruct (PyStr.int (PyStr.strip custom)) as [d|].
  2:{ cbn [is_ValueError].
      rewrite bind_print, bind_time_sleep, bind_clear_screen. cbn. auto. }
  destruct (d <=? 0) eqn:Epos.
  { cbn [is_ValueError].
    rewrite bind_print, bind_time_sleep, bind_clear_screen. cbn. auto. }
  destruct (432000 <? d) eqn:Emax.
  { cbn [is_ValueError].
    rewrite bind_print, bind_time_sleep, bind_clear_screen. cbn. auto. }
  apply Z.leb_gt in Epos. apply Z.ltb_ge in Emax.
  cbn. repeat split; try assumption; lia.
Qed.


Example connection_info_presets :
  let run line :=
    returned (f_get_connection_info
                (fresh_world (scripted [] (answer "List of devices attached"))
                             (typed [" 10.0.0.7 "; line]))) in
  run "1" = Some (Some 43200) /\ run " 2" = Some (Some 86400) /\
  run "4" = Some None /\ run "" = Some None /\ run "12" = Some None.
Proof. repeat split; reflexivity. Qed.

Example connection_info_end_of_input :
  let o := f_get_connection_info
             (fresh_world (scripted [] (answer "List of devices attached"))
                          (typed ["10.0.0.7"])) in
  match o with Raise EOFError w' => self_ip w' = "10.0.0.7" | _ => False end.
Proof. reflexivity. Qed.

(** ** What a test raises *)

Lemma bind_Raise_inv {A B} (m : M A) (k : A -> M B) w e w' :
  bind m k w = Raise e w' ->
  m w = Raise e w' \/ exists a w1, m w = Ret a w1 /\ k a w1 = Raise e w'.
Proof.
  unfold bind. destruct (m w) as [a w1|e1 w1|c1 w1|]; try discriminate; intro H.
  - right. eauto.
  - left. inversion H. reflexivity.
Qed.

Lemma f_setup_logging_ends test_name w :
  ends_with (f_setup_logging test_name w)
            (fun _ w' => nproc w' = nproc w) (fun _ _ => False).
Proof.
  unfold f_setup_logging, try_except. rewrite bind_input. cbv zeta.
  destruct (inputs w (ninput w)) as [raw|].
  - match goal with |- context [if ?b then _ else _] => destruct b end.
    + rewrite bind_print, bind_time_sleep, bind_clear_screen. reflexivity.
    + rewrite bind_time_time. reflexivity.
  - cbn [is_Exception]. rewrite bind_print, bind_time_sleep, bind_clear_screen.
    reflexivity.
Qed.

Lemma f_initialize_device_raises w e w' :
  f_initialize_device w = Raise e w' ->
  e = OSError /\ nproc w' = S (nproc w) /\ p_res (procs w (nproc w)) = NotStarted.
Proof.
  intro H.
  destruct (p_res (procs w (nproc w))) as [rc out err|] eqn:Hres.
  - destruct (f_initialize_device_returns w rc out err Hres) as (w1 & E & _).
    rewrite E in H. discriminate H.
  - destruct (f_connect_device_not_started (self_ip w) (self_port w) w Hres)
      as (w1 & E & Hn).
    unfold f_initialize_device in H.
    unfold bind at 1 in H. unfold get_ip in H.
    unfold bind at 1 in H. unfold get_port in H.
    unfold bind at 1 in H. rewrite E in H.
    inversion H; subst. auto.
Qed.

Lemma try_except_Exception_Raise {A} (m : M A) (h : Exn -> M A) w e w' :
  try_except m is_Exception h w = Raise e w' ->
  exists e1 w1, h e1 w1 = Raise e w'.
Proof.
  unfold try_except. destruct (m w) as [a w1|e1 w1|c1 w1|]; try discriminate.
  cbn [is_Exception]. eauto.
Qed.

Lemma test_frame_raises title label run_loop w e w' :
  test_frame title label run_loop w = Raise e w' ->
  (e = EOFError /\ nproc w' = S (nproc w)) \/
  (e = OSError /\ nproc w' = S (S (nproc w))).
Proof.
  unfold test_frame. rewrite bind_f_log. unfold bind at 1. unfold getenv_STY.
  cbn [sty logged with_trace].
  destruct (negb (sty w)).
  { rewrite bind_print, bind_time_sleep, bind_clear_screen. discriminate. }
  intro H. apply bind_Raise_inv in H.
  pose proof (f_setup_logging_ends label (logged w (LTestStart title))) as Hlog.
  destruct H as [H|(logging & w1 & E1 & H)]; rewrite ?H, ?E1 in Hlog;
    cbn [ends_with] in Hlog; [contradiction|].
  cbn [nproc logged with_trace] in Hlog.
  destruct (negb logging); [discriminate H|].
  apply bind_Raise_inv in H.
  pose proof (f_get_connection_info_ends w1) as Hinfo.
  destruct H as [H|(duration & w2 & E2 & H)]; rewrite ?H, ?E2 in Hinfo;
    cbn [ends_with] in Hinfo.
  { left. destruct Hinfo as [-> Hn]. split; [reflexivity|congruence]. }
  destruct Hinfo as [Hn2 _].
  destruct duration as [duration|]; [|discriminate H].
  apply bind_Raise_inv in H.
  destruct H as [H|(initialized & w3 & E3 & H)].
  { right. apply f_initialize_device_raises in H. destruct H as (-> & Hn & _).
    split; [reflexivity|congruence]. }
  destruct (negb initialized); [discriminate H|].
  rewrite bind_time_time in H. unfold bind at 1 in H.
  unfold set_error_already_shown in H.
  apply bind_Raise_inv in H.
  destruct H as [H|(u & w4 & _ & H)]; [|discriminate H].
  apply try_except_Exception_Raise in H. destruct H as (e1 & w4 & H).
  discriminate H.
Qed.



(** ** What the dispatchers do with a failure *)

Lemma f_send_key_dispatched device key_code key_name w :
  dispatched is_Exception (f_send_key device key_code key_name) w.
Proof.
  unfold dispatched. rewrite f_send_key_eq. cbv zeta.
  destruct (snd (run_result true (Some 5) (procs w (nproc w)))); cbn [is_Exception];
    eexists; reflexivity.
Qed.

Ltac launcher_dispatched :=
  unfold dispatched, try_except;
  rewrite (bind_subprocess_run (B:=bool));
  match goal with
  | |- context [snd (run_result true (Some 5) ?r)] =>
      destruct (snd (run_result true (Some 5) r)) as [out|e];
      [rewrite bind_f_log, bind_time_sleep; eexists; reflexivity
      |destruct (is_SubprocessError e);
       [rewrite bind_f_log; eexists; reflexivity|eexists; reflexivity]]
  end.

(** X7.  What a dispatcher returns is read off the answer to its one
    command.  A key press that fails returns False whatever the failure
    is.  The three launchers return False for a command that fails or
    times out, but their handlers take [SubprocessError] only: when
    [adb] cannot be started the [OSError] goes through to the caller. *)
Theorem launchers_let_os_error_through :
  forall device key_code key_name package description w,
    dispatched is_Exception (f_send_key device key_code key_name) w /\
    dispatched is_SubprocessError (f_open_app device package description) w /\
    dispatched is_SubprocessError (f_open_app_secondary device package description) w /\
    dispatched is_SubprocessError (f_send_flow_key device) w /\
    is_SubprocessError OSError = false.
Proof.
  intros device key_code key_name package description w.
  split; [apply f_send_key_dispatched|].
  split; [unfold f_open_app; launcher_dispatched|].
  split; [unfold f_open_app_secondary; launcher_dispatched|].
  split; [unfold f_send_flow_key; launcher_dispatched|reflexivity].
Qed.

Example launch_without_adb :
  let w := connected_world 100 (scripted [] {| p_dt := 0; p_res := NotStarted |})
                           (typed []) false in
  (exists w', f_open_app "10.0.0.7:5555" "com.netflix.ninja" "Netflix" w
              = Raise OSError w') /\
  returned (f_send_home_key "10.0.0.7:5555" w) = Some false.
Proof. split; [eexists|]; reflexivity. Qed.

(** ** The loop of a test *)

(** X8.  The loop of a test, whatever its pass is, returns only with the
    deadline reached: the time since the start is the duration or
    more. *)
Theorem test_loop_returns_at_deadline :
  forall passes pass initial_time duration L w L' w',
    while_before_deadline passes pass initial_time duration L w = Ret L' w' ->
    duration <= clock w' - initial_time.
Proof.
  induction passes as [|passes IH]; intros pass initial_time duration L w L' w' H;
    [discriminate H|].
  cbn [while_before_deadline] in H. rewrite bind_time_time in H.
  destruct (clock w - initial_time <? duration) eqn:Echeck.
  - apply bind_Ret_inv in H. destruct H as (L1 & w1 & _ & H).
    eapply IH. exact H.
  - unfold ret in H. apply Ret_inj in H. destruct H as [_ <-].
    apply Z.ltb_ge in Echeck. exact Echeck.
Qed.

(** A standby test of 150 seconds, started at time 100. *)
Lemma test_loop_returns_at_deadline_witness :
  let w := connected_world 100 (scripted [] (answer "")) (typed []) false in
  exists L' w',
    while_before_deadline 9 (test_pass StandbyWakeup 1 100 150) 100 150 start_locals w
    = Ret L' w' /\
    150 <= clock w' - 100.
Proof.
  intro w.
  destruct (while_before_deadline 9 (test_pass StandbyWakeup 1 100 150) 100 150
              start_locals w) as [L' w'| | |] eqn:E;
    try (vm_compute in E; discriminate E).
  exists L', w'. split; [reflexivity|].
  apply (test_loop_returns_at_deadline 9 (test_pass StandbyWakeup 1 100 150)
           100 150 start_locals w L' w' E).
Defined.

(** ** The log name *)

Lemma contains_space_cons c s :
  PyStr.contains " " (String c s) = (Ascii.eqb " " c || PyStr.contains " " s)%bool.
Proof.
  cbn [PyStr.contains PyStr.starts_with]. rewrite andb_true_r. reflexivity.
Qed.

Lemma replace_space_no_space s : no_space (PyStr.replace_space s).
Proof.
  unfold no_space. induction s as [|c s IH]; [reflexivity|].
  cbn [PyStr.replace_space]. rewrite contains_space_cons, IH, orb_false_r.
  destruct (Ascii.eqb c " ") eqn:E; [reflexivity|].
  rewrite Ascii.eqb_sym. exact E.
Qed.

Lemma lower_char_space c :
  Ascii.eqb " " (PyStr.lower_char c) = Ascii.eqb " " c.
Proof. destruct c as [[] [] [] [] [] [] [] []]; reflexivity. Qed.

Lemma lower_no_space s : no_space s -> no_space (PyStr.lower s).
Proof.
  unfold no_space. induction s as [|c s IH]; [reflexivity|].
  cbn [PyStr.lower]. rewrite !contains_space_cons, lower_char_space.
  intro H. apply orb_false_iff in H. destruct H as [-> H].
  rewrite (IH H). reflexivity.
Qed.

Lemma append_no_space a b : no_space a -> no_space b -> no_space (a ++ b)%string.
Proof.
  unfold no_space. induction a as [|c a IH]; intros Ha Hb; [exact Hb|].
  cbn [append]. rewrite contains_space_cons in *.
  apply orb_false_iff in Ha. destruct Ha as [-> Ha]. apply IH; assumption.
Qed.


Example log_setup_end_of_input :
  returned (f_setup_logging "APPS" (fresh_world (scripted [] refusal) (typed [])))
  = Some false.
Proof. reflexivity. Qed.

(** ** Calls that end *)

Lemma bind_OutOfFuel_inv {A B} (m : M A) (k : A -> M B) w :
  bind m k w = OutOfFuel ->
  m w = OutOfFuel \/ exists a w1, m w = Ret a w1 /\ k a w1 = OutOfFuel.
Proof.
  unfold bind. destruct (m w) as [a w1|e1 w1|c1 w1|]; try discriminate; intro H.
  - right. eauto.
  - left. reflexivity.
Qed.

Lemma finishes_bind {A B} (m : M A) (k : A -> M B) :
  finishes m -> (forall a, finishes (k a)) -> finishes (bind m k).
Proof.
  intros Hm Hk w H. apply bind_OutOfFuel_inv in H.
  destruct H as [H|(a & w1 & _ & H)]; [exact (Hm w H)|exact (Hk a w1 H)].
Qed.

Lemma finishes_try_except {A} (m : M A) catches (h : Exn -> M A) :
  finishes m -> (forall e, finishes (h e)) -> finishes (try_except m catches h).
Proof.
  intros Hm Hh w. unfold try_except. specialize (Hm w).
  destruct (m w) as [a w1|e w1|c w1|]; try discriminate; [|contradiction].
  destruct (catches e); [apply Hh|discriminate].
Qed.

Lemma finishes_emit e : finishes (emit e).
Proof. intro w. discriminate. Qed.

Lemma finishes_time_sleep secs : finishes (time_sleep secs).
Proof. intro w. discriminate. Qed.

Lemma finishes_input prompt : finishes (input prompt).
Proof. intro w. unfold input. destruct (inputs w (ninput w)); discriminate. Qed.

Lemma finishes_subprocess_run cmd check timeout :
  finishes (subprocess_run cmd check timeout).
Proof.
  intro w. unfold subprocess_run.
  destruct (snd (run_result check timeout (procs w (nproc w)))); discriminate.
Qed.

Lemma finishes_the_device : finishes the_device.
Proof. intro w. unfold the_device. destruct (self_device w); discriminate. Qed.

Lemma finishes_state {A} (f : World -> A) (g : World -> World) :
  finishes (fun w => Ret (f w) (g w)).
Proof. intro w. discriminate. Qed.

Lemma finishes_raise {A} e : finishes (@raise A e).
Proof. intro w. discriminate. Qed.

Lemma finishes_sys_exit {A} c : finishes (@sys_exit A c).
Proof. intro w. discriminate. Qed.

(** One step of the structural proof that code without a loop
    [finishes]. *)
Ltac finish_step :=
  match goal with
  | |- finishes (bind _ _) => apply finishes_bind; [|intro]
  | |- finishes (try_except _ _ _) => apply finishes_try_except; [|intro]
  | |- finishes (time_sleep _) => apply finishes_time_sleep
  | |- finishes (f_log _) => apply finishes_emit
  | |- finishes (print _) => apply finishes_emit
  | |- finishes clear_screen => apply finishes_emit
  | |- finishes (input _) => apply finishes_input
  | |- finishes (subprocess_run _ _ _) => apply finishes_subprocess_run
  | |- finishes the_device => apply finishes_the_device
  | |- finishes (raise _) => apply finishes_raise
  | |- finishes (sys_exit _) => apply finishes_sys_exit
  | |- finishes (if ?b then _ else _) => destruct b
  | |- finishes (match ?x with _ => _ end) => destruct x
  | |- finishes _ => solve [auto | intro; discriminate]
  end.

Ltac finish := repeat finish_step.

Lemma finishes_f_connect_device ip port : finishes (f_connect_device ip port).
Proof. unfold f_connect_device. finish. Qed.

Lemma finishes_connected_and_ready d : finishes (connected_and_ready d).
Proof. unfold connected_and_ready, f_is_device_ready. finish. Qed.

Lemma finishes_f_send_key device key_code key_name :
  finishes (f_send_key device key_code key_name).
Proof. unfold f_send_key. finish. Qed.

Lemma finishes_send_then_sleep device key_code key_name delay :
  finishes (send_then_sleep device key_code key_name delay).
Proof. unfold send_then_sleep. pose proof finishes_f_send_key. finish. Qed.

Lemma finishes_sleep_then_send device key_code key_name delay :
  finishes (sleep_then_send device key_code key_name delay).
Proof. unfold sleep_then_send. pose proof finishes_f_send_key. finish. Qed.

(** ** Reconnection ends *)

Lemma returns_later (P : Z * Event -> Prop) (E : World -> Prop) {A} (m : M A) w a w' :
  behaves P E m -> m w = Ret a w' -> clock w <= clock w'.
Proof. intros H Em. apply (behaves_returns P E m w a w' H Em). Qed.

(** Follows a round of a reconnection loop that ran out of fuel down to
    the next round. *)
Ltac next_round H :=
  rewrite bind_ret in H;
  apply bind_OutOfFuel_inv in H;
  destruct H as [H|(new_device & w1 & Econnect & H)];
    [exact (finishes_f_connect_device _ _ _ H)|];
  apply f_connect_device_returns in Econnect; destruct Econnect as [Hc1 _];
  apply bind_OutOfFuel_inv in H;
  destruct H as [H|(usable & w2 & Eready & H)];
    [exact (finishes_connected_and_ready _ _ H)|];
  apply (returns_later any_event anywhere _ _ _ _
           (behaves_connected_and_ready _ _ ordinary_any new_device)) in Eready;
  destruct usable as [d0|];
    [rewrite bind_f_log, bind_time_sleep in H;
     apply bind_OutOfFuel_inv in H;
     destruct H as [H|(home & w3 & Ehome & H)];
       [exact (finishes_send_then_sleep _ _ _ _ _ H)|];
     apply (returns_later any_event anywhere _ _ _ _
              (proj1 (behaves_key_steps _ anywhere d0 ordinary_any))) in Ehome;
     cbn [clock slept logged with_trace with_clock] in Ehome
    |rewrite bind_f_log, bind_time_sleep in H].

Lemma reconnect_loop_ends ip port initial_time duration fuel :
  forall w,
    initial_time + duration - clock w <= 15 * Z.of_nat fuel ->
    reconnect_loop (S fuel) ip port initial_time duration w <> OutOfFuel.
Proof.
  induction fuel as [|fuel IH]; intros w Hfuel H;
    cbn [reconnect_loop] in H; rewrite bind_time_time in H;
    (destruct (clock w - initial_time >=? duration) eqn:Echeck;
     [unfold bind at 1 in H; rewrite bind_f_log in H; discriminate H|]);
    rewrite Z.geb_leb in Echeck; apply Z.leb_gt in Echeck; [lia|].
  next_round H.
  - destruct home; [discriminate H|]. rewrite bind_f_log in H.
    revert H. apply IH. cbn [clock logged with_trace]. lia.
  - revert H. apply IH. cbn [clock slept logged with_trace with_clock]. lia.
Qed.

Lemma reconnect_loop_project1_ends ip port initial_time duration fuel :
  forall w,
    initial_time + duration - clock w <= 15 * Z.of_nat fuel ->
    reconnect_loop_project1 (S fuel) ip port initial_time duration w <> OutOfFuel.
Proof.
  induction fuel as [|fuel IH]; intros w Hfuel H;
    cbn [reconnect_loop_project1] in H; rewrite bind_time_time in H;
    (destruct (clock w - initial_time >=? duration) eqn:Echeck;
     [unfold bind at 1 in H; rewrite bind_f_log in H; discriminate H|]);
    rewrite Z.geb_leb in Echeck; apply Z.leb_gt in Echeck; [lia|].
  next_round H.
  - destruct home.
    + apply bind_OutOfFuel_inv in H.
      destruct H as [H|(g & w4 & _ & H)];
        [exact (finishes_sleep_then_send _ _ _ _ _ H)|].
      apply bind_OutOfFuel_inv in H.
      destruct H as [H|(b & w5 & _ & H)];
        [exact (finishes_sleep_then_send _ _ _ _ _ H)|].
      discriminate H.
    + rewrite bind_f_log, bind_time_sleep in H.
      revert H. apply IH. cbn [clock slept logged with_trace with_clock]. lia.
  - revert H. apply IH. cbn [clock slept logged with_trace with_clock]. lia.
Qed.

(** X10.  Both reconnection routines end.  Every round that does not end
    the routine takes fifteen seconds or more, ten of them in the pause
    that closes a connection attempt, so with fuel for the rounds of
    fifteen seconds left before the deadline the routine returns the
    session, raises, or leaves the process at the deadline. *)
Theorem reconnection_ends :
  forall fam fuel ip port initial_time duration w,
    (rounds_left 15 (clock w) initial_time duration <= fuel)%nat ->
    reconnect fam fuel ip port initial_time duration w <> OutOfFuel.
Proof.
  intros fam fuel ip port initial_time duration w Hfuel.
  destruct fuel as [|fuel]; [cbv in Hfuel; lia|].
  apply rounds_left_enough in Hfuel; [|lia].
  destruct fam; cbn [reconnect];
    unfold f_reconnect_and_reinitialize, f_reconnect_and_reinitialize_project1;
    rewrite bind_f_log.
  - apply reconnect_loop_ends. exact Hfuel.
  - apply reconnect_loop_project1_ends. exact Hfuel.
Qed.

(** A device that refuses every connection until the deadline. *)
Lemma reconnection_ends_witness :
  let w := connected_world 100 (scripted [] refusal) (typed []) true in
  (rounds_left 15 (clock w) 0 160 <= 6)%nat /\
  reconnect Project1 6 "10.0.0.7" 5555 0 160 w <> OutOfFuel /\
  exit_code (reconnect Project1 6 "10.0.0.7" 5555 0 160 w) = Some 0.
Proof.
  intro w.
  assert (Hfuel : (rounds_left 15 (clock w) 0 160 <= 6)%nat) by (vm_compute; lia).
  split; [exact Hfuel|].
  split; [|reflexivity].
  apply (reconnection_ends Project1 6 "10.0.0.7" 5555 0 160 w Hfuel).
Defined.

(** ** What a recovery leaves and takes *)

Lemma f_send_key_later device key_code key_name w b w' :
  f_send_key device key_code key_name w = Ret b w' -> clock w <= clock w'.
Proof.
  apply (returns_later any_event anywhere).
  apply behaves_f_send_key. apply ordinary_any.
Qed.

Lemma send_then_sleep_later device key_code key_name delay w b w' :
  0 <= delay ->
  send_then_sleep device key_code key_name delay w = Ret b w' ->
  clock w <= clock w' /\ (b = true -> clock w + delay <= clock w').
Proof.
  intros Hd H. unfold send_then_sleep in H.
  apply bind_Ret_inv in H. destruct H as (ok & w1 & Ekey & H).
  apply f_send_key_later in Ekey.
  destruct ok.
  - rewrite bind_time_sleep in H. unfold ret in H.
    apply Ret_inj in H. destruct H as [_ <-]. cbn. lia.
  - unfold ret in H. apply Ret_inj in H. destruct H as [<- <-].
    split; [lia|discriminate].
Qed.

Lemma sleep_then_send_later device key_code key_name delay w b w' :
  sleep_then_send device key_code key_name delay w = Ret b w' ->
  clock w + delay <= clock w'.
Proof.
  intro H. unfold sleep_then_send in H. rewrite bind_time_sleep in H.
  apply f_send_key_later in H. cbn in H. exact H.
Qed.

(** Follows a round of a reconnection loop that returned. *)
Ltac returned_round H :=
  rewrite bind_time_time in H;
  apply bind_Ret_inv in H; destruct H as (u & w1 & Echeck & H);
  apply deadline_check_passed in Echeck; destruct Echeck as [_ ->];
  apply bind_Ret_inv in H; destruct H as (new_device & w2 & Econnect & H);
  apply f_connect_device_returns in Econnect; destruct Econnect as [Hc1 _];
  apply bind_Ret_inv in H; destruct H as (usable & w3 & Eready & H);
  apply (returns_later any_event anywhere _ _ _ _
           (behaves_connected_and_ready _ _ ordinary_any new_device)) in Eready;
  destruct usable as [d0|];
    [rewrite bind_f_log, bind_time_sleep in H;
     apply bind_Ret_inv in H; destruct H as (home & w4 & Ehome & H);
     apply send_then_sleep_later in Ehome; [|lia];
     cbn [clock slept logged with_trace with_clock] in Ehome;
     destruct Ehome as [Hc4 Hhome]
    |rewrite bind_f_log, bind_time_sleep in H].

Lemma reconnect_loop_recovery ip port initial_time duration fuel :
  forall w r w',
    reconnect_loop fuel ip port initial_time duration w = Ret r w' ->
    error_already_shown w' = false /\ clock w + 50 <= clock w'.
Proof.
  induction fuel as [|fuel IH]; intros w r w' H; [discriminate H|].
  cbn [reconnect_loop] in H. returned_round H.
  - destruct home.
    + rewrite bind_set_error_already_shown in H. unfold ret in H.
      apply Ret_inj in H. destruct H as [_ <-].
      split; [reflexivity|]. specialize (Hhome eq_refl). cbn. lia.
    + rewrite bind_f_log in H. apply IH in H.
      cbn [clock logged with_trace] in H. split; [tauto|lia].
  - apply IH in H. cbn [clock slept logged with_trace with_clock] in H.
    split; [tauto|lia].
Qed.

Lemma reconnect_loop_project1_recovery ip port initial_time duration fuel :
  forall w r w',
    reconnect_loop_project1 fuel ip port initial_time duration w = Ret r w' ->
    error_already_shown w' = false /\ clock w + 65 <= clock w'.
Proof.
  induction fuel as [|fuel IH]; intros w r w' H; [discriminate H|].
  cbn [reconnect_loop_project1] in H. returned_round H.
  - destruct home.
    + apply bind_Ret_inv in H. destruct H as (g & w5 & Eguide & H).
      apply sleep_then_send_later in Eguide.
      apply bind_Ret_inv in H. destruct H as (b & w6 & Eback & H).
      apply sleep_then_send_later in Eback.
      rewrite bind_set_error_already_shown in H. unfold ret in H.
      apply Ret_inj in H. destruct H as [_ <-].
      split; [reflexivity|]. specialize (Hhome eq_refl). cbn. lia.
    + rewrite bind_f_log, bind_time_sleep in H. apply IH in H.
      cbn [clock slept logged with_trace with_clock] in H. split; [tauto|lia].
  - apply IH in H. cbn [clock slept logged with_trace with_clock] in H.
    split; [tauto|lia].
Qed.

Lemma reconnect_recovery fam fuel ip port initial_time duration w r w' :
  reconnect fam fuel ip port initial_time duration w = Ret r w' ->
  error_already_shown w' = false /\
  clock w + (match fam with Standard => 50 | Project1 => 65 end) <= clock w'.
Proof.
  destruct fam; cbn [reconnect];
    unfold f_reconnect_and_reinitialize, f_reconnect_and_reinitialize_project1;
    rewrite bind_f_log; intro H.
  - apply reconnect_loop_recovery in H. exact H.
  - apply reconnect_loop_project1_recovery in H. exact H.
Qed.

(** X11.  A reconnection that returns gives back the identifier made of
    the address and the port, with True, and has cleared the flag of the
    failure notifications, so the next failure is reported again, also
    when the GUIDE or the BACK key of the Project 1 reinitializer
    failed.  It has taken at least 50 seconds of the run, 65 in the
    Project 1 routine: the pauses after the connection, before the HOME
    key and after it, and before the GUIDE and BACK keys. *)
Theorem recovery_clears_flag_and_takes_time :
  forall fam fuel ip port initial_time duration w r w',
    reconnect fam fuel ip port initial_time duration w = Ret r w' ->
    r = (device_id ip port, true) /\
    error_already_shown w' = false /\
    clock w + (match fam with Standard => 50 | Project1 => 65 end) <= clock w'.
Proof.
  intros fam fuel ip port initial_time duration w [d b] w' H.
  destruct (reconnect_recovery _ _ _ _ _ _ _ _ _ H) as [Hflag Hclock].
  apply reconnect_returns in H. destruct H as (-> & -> & _).
  auto.
Qed.

(** The device is back at once; the GUIDE key of the reinitializer is
    refused. *)
Lemma recovery_clears_flag_and_takes_time_witness :
  let w := connected_world 100
             (scripted [answer "connected to 10.0.0.7:5555"; answer "device";
                        answer ""; refusal] (answer ""))
             (typed []) true in
  exists w',
    reconnect Project1 1 "10.0.0.7" 5555 0 1000 w = Ret ("10.0.0.7:5555", true) w' /\
    error_already_shown w' = false /\ clock w + 65 <= clock w'.
Proof.
  intro w.
  destruct (reconnect Project1 1 "10.0.0.7" 5555 0 1000 w) as [r w'| | |] eqn:E;
    try (vm_compute in E; discriminate E).
  destruct (recovery_clears_flag_and_takes_time
              Project1 1 "10.0.0.7" 5555 0 1000 w r w' E) as (-> & Hflag & Hclock).
  exists w'. split; [reflexivity|]. split; assumption.
Defined.

(** ** Every test ends *)

Lemma advances_send_then_sleep device key_code key_name delay :
  3 <= delay -> advances 3 (send_then_sleep device key_code key_name delay).
Proof.
  intros Hd w b w' H. apply send_then_sleep_later in H; [|lia].
  destruct H as [H1 H2]. split; [exact H1|]. intro Hb. specialize (H2 Hb). lia.
Qed.

Lemma advances_sleep_then_send device key_code key_name delay :
  3 <= delay -> advances 3 (sleep_then_send device key_code key_name delay).
Proof.
  intros Hd w b w' H. apply sleep_then_send_later in H. split; [lia|]. intros _. lia.
Qed.

(** A launcher: the command, then on success a line and a pause of 15
    seconds or more. *)
Ltac launcher_advances :=
  let H := fresh "H" in
  intros w b w' H; unfold try_except in H;
  rewrite (bind_subprocess_run (B:=bool)) in H;
  pose proof (run_result_within true 5 (procs w (nproc w)) ltac:(lia));
  destruct (snd (run_result true (Some 5) (procs w (nproc w)))) as [out|e];
  [rewrite bind_f_log, bind_time_sleep in H; unfold ret in H;
   apply Ret_inj in H; destruct H as [_ <-]; cbn; lia
  |destruct (is_SubprocessError e); [|discriminate H];
   rewrite bind_f_log in H; unfold ret in H;
   apply Ret_inj in H; destruct H as [<- <-]; cbn; split; [lia|discriminate]].

Lemma advances_f_send_flow_key device : advances 3 (f_send_flow_key device).
Proof. unfold f_send_flow_key. launcher_advances. Qed.

Lemma advances_f_open_app device package description :
  advances 3 (f_open_app device package description).
Proof. unfold f_open_app. launcher_advances. Qed.

Lemma advances_f_open_app_secondary device package description :
  advances 3 (f_open_app_secondary device package description).
Proof. unfold f_open_app_secondary. launcher_advances. Qed.

Lemma advances_after {A} (m : M A) (k : M bool) :
  (forall w a w', m w = Ret a w' -> clock w <= clock w') ->
  advances 3 k -> advances 3 (bind m (fun _ => k)).
Proof.
  intros Hm Hk w b w' H. apply bind_Ret_inv in H. destruct H as (a & w1 & Em & H).
  apply Hm in Em. apply Hk in H. destruct H as [H1 H2].
  split; [lia|]. intro Hb. specialize (H2 Hb). lia.
Qed.

Lemma finishes_launchers device package description :
  finishes (f_send_flow_key device) /\
  finishes (f_open_app device package description) /\
  finishes (f_open_app_secondary device package description).
Proof.
  unfold f_send_flow_key, f_open_app, f_open_app_secondary.
  split; [|split]; finish.
Qed.

(** Every step of every test ends. *)
Lemma steps_finish (t : Test) :
  Forall (fun func : Step => forall device, finishes (func device)) (test_steps t).
Proof.
  assert (Hflow : forall device, finishes (send_flow_with_navigation device)).
  { intro device. unfold send_flow_with_navigation.
    pose proof (proj1 (finishes_launchers device "" "")). finish. }
  assert (Happ : forall device,
             finishes (open_netflix device) /\ finishes (open_amazon device) /\
             finishes (open_youtube device) /\ finishes (open_disney device) /\
             finishes (open_spotify device) /\ finishes (open_max device)).
  { intro device.
    pose proof (fun p d => proj1 (proj2 (finishes_launchers device p d))) as Ha.
    pose proof (fun p d => proj2 (proj2 (finishes_launchers device p d))) as Hs.
    pose proof (finishes_send_then_sleep device "3" "KEY_HOME" 10) as Hk.
    fold (f_send_home_key device) in Hk.
    unfold open_netflix, open_amazon, open_youtube, open_disney, open_spotify,
      open_max.
    split; [|split; [|split; [|split; [|split]]]]; finish. }
  destruct t; cbn [test_steps];
    repeat (apply Forall_cons;
            [intro device;
             lazymatch goal with
             | |- finishes (send_flow_with_navigation _) => apply Hflow
             | |- finishes (open_netflix _) => apply (Happ device)
             | |- finishes (open_amazon _) => apply (Happ device)
             | |- finishes (open_youtube _) => apply (Happ device)
             | |- finishes (open_disney _) => apply (Happ device)
             | |- finishes (open_spotify _) => apply (Happ device)
             | |- finishes (open_max _) => apply (Happ device)
             | |- _ =>
                 unfold_steps;
                 lazymatch goal with
                 | |- finishes (send_then_sleep _ _ _ _) =>
                     apply finishes_send_then_sleep
                 | |- finishes (sleep_then_send _ _ _ _) =>
                     apply finishes_sleep_then_send
                 end
             end
            |]);
    apply Forall_nil.
Qed.

(** Every step of every test takes three seconds or more when it goes
    through. *)
Lemma steps_advance (t : Test) :
  Forall (fun func : Step => forall device, advances 3 (func device)) (test_steps t).
Proof.
  assert (Hhome : forall device w a w',
             f_send_home_key device w = Ret a w' -> clock w <= clock w').
  { intros device w a w' H. apply send_then_sleep_later in H; [tauto|lia]. }
  assert (Hsleep : forall w a w', time_sleep 5 w = Ret a w' -> clock w <= clock w').
  { intros w a w' H. rewrite time_sleep_eq in H. apply Ret_inj in H.
    destruct H as [_ <-]. cbn. lia. }
  assert (Hflow : forall device, advances 3 (send_flow_with_navigation device)).
  { intro device. unfold send_flow_with_navigation.
    apply advances_after; [exact Hsleep|apply advances_f_send_flow_key]. }
  assert (Happ : forall device,
             advances 3 (open_netflix device) /\ advances 3 (open_amazon device) /\
             advances 3 (open_youtube device) /\ advances 3 (open_disney device) /\
             advances 3 (open_spotify device) /\ advances 3 (open_max device)).
  { intro device.
    unfold open_netflix, open_amazon, open_youtube, open_disney, open_spotify,
      open_max.
    split; [|split; [|split; [|split; [|split]]]];
      (apply advances_after; [apply Hhome|]);
      first [apply advances_f_open_app|apply advances_f_open_app_secondary]. }
  destruct t; cbn [test_steps];
    repeat (apply Forall_cons;
            [intro device;
             lazymatch goal with
             | |- advances 3 (send_flow_with_navigation _) => apply Hflow
             | |- advances 3 (open_netflix _) => apply (Happ device)
             | |- advances 3 (open_amazon _) => apply (Happ device)
             | |- advances 3 (open_youtube _) => apply (Happ device)
             | |- advances 3 (open_disney _) => apply (Happ device)
             | |- advances 3 (open_spotify _) => apply (Happ device)
             | |- advances 3 (open_max _) => apply (Happ device)
             | |- _ =>
                 unfold_steps;
                 lazymatch goal with
                 | |- advances 3 (send_then_sleep _ _ _ _) =>
                     apply advances_send_then_sleep; apply Z.leb_le; reflexivity
                 | |- advances 3 (sleep_then_send _ _ _ _) =>
                     apply advances_sleep_then_send; apply Z.leb_le; reflexivity
                 end
             end
            |]);
    apply Forall_nil.
Qed.

Lemma standby_gate_later fuel device initial_time duration w u w' :
  standby_gate fuel device initial_time duration w = Ret u w' -> clock w <= clock w'.
Proof.
  apply (returns_later quiet anywhere). apply behaves_quiet_standby_gate.
Qed.

Lemma check_and_send_advances fam fuel (func : Step) device ip port
    initial_time duration w r w' :
  advances 3 (func device) ->
  check_and_send fam fuel func device ip port initial_time duration w = Ret r w' ->
  clock w + 3 <= clock w'.
Proof.
  intros Hfunc H. rewrite check_and_send_eq in H.
  apply bind_Ret_inv in H. destruct H as (u & wa & Egate & H).
  apply standby_gate_later in Egate.
  apply bind_Ret_inv in H. destruct H as (ok & wb & Efunc & H).
  apply Hfunc in Efunc. destruct Efunc as [Hb Hok].
  destruct ok; cbn [negb] in H.
  - unfold ret in H. apply Ret_inj in H. destruct H as [_ <-].
    specialize (Hok eq_refl). lia.
  - apply reconnect_recovery in H. destruct H as [_ H]. destruct fam; lia.
Qed.

Lemma for_steps_later fuel fam initial_time duration steps L w L' w' :
  Forall (fun func : Step => forall device, behaves any_event anywhere (func device))
         steps ->
  for_steps fuel fam steps initial_time duration L w = Ret L' w' ->
  clock w <= clock w'.
Proof.
  intro Hsteps. apply (returns_later any_event anywhere).
  apply behaves_any_for_steps. exact Hsteps.
Qed.

Lemma for_steps_advances fuel fam initial_time duration func rest L w L' w' :
  (forall device, advances 3 (func device)) ->
  Forall (fun func : Step => forall device, behaves any_event anywhere (func device))
         rest ->
  for_steps fuel fam (func :: rest) initial_time duration L w = Ret L' w' ->
  clock w + 3 <= clock w'.
Proof.
  intros Hfunc Hrest H.
  destruct (self_device w) as [dev|] eqn:Hdev.
  - rewrite (for_steps_cons _ _ _ _ _ _ _ _ _ Hdev) in H.
    apply bind_Ret_inv in H. destruct H as (r & w1 & Esend & H).
    apply check_and_send_advances in Esend; [|apply Hfunc].
    unfold bind at 1 in H. unfold set_device in H.
    destruct (snd r).
    + rewrite bind_f_log in H. unfold ret in H.
      apply Ret_inj in H. destruct H as [_ <-]. cbn. lia.
    + apply for_steps_later in H; [|exact Hrest]. cbn in H. lia.
  - cbn [for_steps] in H. unfold bind at 1 in H. unfold the_device in H.
    rewrite Hdev in H. discriminate H.
Qed.

(** The fuel of the inner loops is enough for a run of [duration]
    seconds. *)
Lemma f_wait_standby_exit_ends fuel device initial_time duration w :
  initial_time <= clock w ->
  duration <= 10 * Z.of_nat fuel ->
  f_wait_standby_exit (S fuel) device initial_time duration w <> OutOfFuel.
Proof.
  intros Hnow Hfuel H. rewrite f_wait_standby_exit_eq in H.
  destruct (wait_standby_loop (S fuel) device initial_time duration
              (logged w LStandbyWaiting)) eqn:E; try discriminate H.
  revert E. apply wait_standby_loop_ends. cbn. lia.
Qed.

Lemma reconnect_ends fam fuel ip port initial_time duration w :
  initial_time <= clock w ->
  duration <= 10 * Z.of_nat fuel ->
  reconnect fam (S fuel) ip port initial_time duration w <> OutOfFuel.
Proof.
  intros Hnow Hfuel.
  destruct fam; cbn [reconnect];
    unfold f_reconnect_and_reinitialize, f_reconnect_and_reinitialize_project1;
    rewrite bind_f_log.
  - apply reconnect_loop_ends. cbn. lia.
  - apply reconnect_loop_project1_ends. cbn. lia.
Qed.

Lemma finishes_f_is_in_standby device : finishes (f_is_in_standby device).
Proof. unfold f_is_in_standby. finish. Qed.

Lemma check_and_send_ends fam fuel (func : Step) device ip port
    initial_time duration w :
  finishes (func device) ->
  behaves any_event anywhere (func device) ->
  initial_time <= clock w ->
  duration <= 10 * Z.of_nat fuel ->
  check_and_send fam (S fuel) func device ip port initial_time duration w
  <> OutOfFuel.
Proof.
  intros Hfin Hbeh Hnow Hfuel H. rewrite check_and_send_eq in H.
  apply bind_OutOfFuel_inv in H. destruct H as [H|(u & wa & Egate & H)].
  - unfold standby_gate in H. apply bind_OutOfFuel_inv in H.
    destruct H as [H|(standby & w1 & Epoll & H)];
      [exact (finishes_f_is_in_standby _ _ H)|].
    apply (returns_later any_event anywhere _ _ _ _
             (behaves_f_is_in_standby _ _ any_ordinary device)) in Epoll.
    destruct standby; [|discriminate H].
    revert H. apply f_wait_standby_exit_ends; lia.
  - apply standby_gate_later in Egate.
    apply bind_OutOfFuel_inv in H. destruct H as [H|(ok & wb & Efunc & H)];
      [exact (Hfin _ H)|].
    apply (returns_later any_event anywhere _ _ _ _ Hbeh) in Efunc.
    destruct (negb ok); [|discriminate H].
    revert H. apply reconnect_ends; lia.
Qed.

Lemma for_steps_ends fuel fam initial_time duration steps :
  Forall (fun func : Step => forall device, finishes (func device)) steps ->
  Forall (fun func : Step => forall device, behaves any_event anywhere (func device))
         steps ->
  duration <= 10 * Z.of_nat fuel ->
  forall L w,
    initial_time <= clock w ->
    for_steps (S fuel) fam steps initial_time duration L w <> OutOfFuel.
Proof.
  intros Hfin Hbeh Hfuel. revert Hbeh.
  induction Hfin as [|func rest Hfunc Hrest IH]; intros Hbeh L w Hnow H;
    [discriminate H|].
  inversion Hbeh as [|? ? Hb Hbrest]; subst.
  destruct (self_device w) as [dev|] eqn:Hdev.
  - rewrite (for_steps_cons _ _ _ _ _ _ _ _ _ Hdev) in H.
    apply bind_OutOfFuel_inv in H. destruct H as [H|(r & w1 & Esend & H)].
    + revert H. apply check_and_send_ends; auto.
    + apply (returns_later any_event anywhere _ _ _ _
               (behaves_any_check_and_send _ _ _ _ _ _ _ _ (Hb dev))) in Esend.
      unfold bind at 1 in H. unfold set_device in H.
      destruct (snd r).
      * rewrite bind_f_log in H. discriminate H.
      * revert H. apply IH; [exact Hbrest|]. cbn. lia.
  - cbn [for_steps] in H. unfold bind at 1 in H. unfold the_device in H.
    rewrite Hdev in H. discriminate H.
Qed.

Lemma steps_behave (t : Test) :
  Forall (fun func : Step => forall device, behaves any_event anywhere (func device))
         (test_steps t).
Proof. exact (behaves_steps any_event anywhere any_ordinary t). Qed.

Lemma initial_part_later (initial_sequence : M unit) L w L1 w1 :
  behaves any_event anywhere initial_sequence ->
  (if need_initial_sequence L then
     initial_sequence ;; ret (mkLocals (loop L) false (reconnected L))
   else ret L) w = Ret L1 w1 ->
  clock w <= clock w1.
Proof.
  intros Hinit H. destruct (need_initial_sequence L).
  - apply bind_Ret_inv in H. destruct H as (u & w0 & E & H).
    apply (returns_later any_event anywhere _ _ _ _ Hinit) in E.
    unfold ret in H. apply Ret_inj in H. destruct H as [_ <-]. exact E.
  - unfold ret in H. apply Ret_inj in H. destruct H as [_ <-]. lia.
Qed.

Lemma count_pass_later L w L' w' : count_pass L w = Ret L' w' -> clock w' = clock w.
Proof.
  unfold count_pass. destruct (negb (reconnected L)).
  - rewrite bind_f_log. unfold ret. intro H. apply Ret_inj in H.
    destruct H as [_ <-]. reflexivity.
  - unfold ret. intro H. apply Ret_inj in H. destruct H as [_ <-]. reflexivity.
Qed.

Lemma one_pass_advances fuel fam initial_sequence func rest initial_time duration
    L w L' w' :
  behaves any_event anywhere initial_sequence ->
  (forall device, advances 3 (func device)) ->
  Forall (fun func : Step => forall device, behaves any_event anywhere (func device))
         rest ->
  one_pass fuel fam initial_sequence (func :: rest) initial_time duration L w
  = Ret L' w' ->
  clock w + 3 <= clock w'.
Proof.
  intros Hinit Hfunc Hrest H. unfold one_pass in H.
  apply bind_Ret_inv in H. destruct H as (L1 & w1 & E1 & H).
  apply initial_part_later in E1; [|exact Hinit].
  apply bind_Ret_inv in H. destruct H as (L2 & w2 & E2 & H).
  apply for_steps_advances in E2; [|exact Hfunc|exact Hrest].
  apply count_pass_later in H. lia.
Qed.

Lemma standby_recover_advances fuel initial_time duration w L' w' :
  standby_recover fuel initial_time duration w = Ret L' w' ->
  clock w + 50 <= clock w'.
Proof.
  intro H. unfold standby_recover in H.
  unfold bind at 1 in H. unfold get_ip in H.
  unfold bind at 1 in H. unfold get_port in H.
  apply bind_Ret_inv in H. destruct H as (r & w1 & E & H).
  apply (reconnect_recovery Standard) in E. destruct E as [_ E].
  unfold bind, set_device, ret in H. apply Ret_inj in H. destruct H as [_ <-].
  cbn. exact E.
Qed.

Lemma standby_pass_advances fuel initial_time duration L w L' w' :
  standby_pass fuel initial_time duration L w = Ret L' w' ->
  clock w + 3 <= clock w'.
Proof.
  intro H. unfold standby_pass in H.
  apply bind_Ret_inv in H. destruct H as (L1 & w1 & E1 & H).
  apply (initial_part_later (f_log LInitialReady)) in E1;
    [|apply behaves_f_log; intro; exact I].
  apply bind_Ret_inv in H. destruct H as (dev & w2 & Edev & H).
  assert (w2 = w1) as ->
      by (unfold the_device in Edev; destruct (self_device w1);
          inversion Edev; reflexivity).
  apply bind_Ret_inv in H. destruct H as (slept & w3 & Ekey & H).
  apply send_then_sleep_later in Ekey; [|lia]. destruct Ekey as [Hc3 Hslept].
  destruct slept; cbn [negb] in H.
  - specialize (Hslept eq_refl).
    apply bind_Ret_inv in H. destruct H as (dev' & w4 & Edev' & H).
    assert (w4 = w3) as ->
        by (unfold the_device in Edev'; destruct (self_device w3);
            inversion Edev'; reflexivity).
    apply bind_Ret_inv in H. destruct H as (woke & w5 & Ewake & H).
    apply send_then_sleep_later in Ewake; [|lia]. destruct Ewake as [Hc5 _].
    destruct woke; cbn [negb] in H.
    + rewrite bind_f_log in H. unfold ret in H.
      apply Ret_inj in H. destruct H as [_ <-]. cbn. lia.
    + apply standby_recover_advances in H. lia.
  - apply standby_recover_advances in H. lia.
Qed.

Lemma test_pass_advances t fuel initial_time duration L w L' w' :
  test_pass t fuel initial_time duration L w = Ret L' w' ->
  clock w + 3 <= clock w'.
Proof.
  pose proof (behaves_initial_sequences any_event anywhere any_ordinary)
    as (Hzs & Hzp & Hhome & Hready).
  pose proof (steps_behave t) as Hb. pose proof (steps_advance t) as Ha.
  destruct t; cbn [test_pass test_steps] in *;
    try (inversion Hb; inversion Ha; subst; apply one_pass_advances; assumption).
  apply standby_pass_advances.
Qed.

Lemma initial_sequences_finish :
  finishes zapping_standard_initial /\
  finishes zapping_project1_initial /\
  finishes home_initial /\
  finishes ready_initial.
Proof.
  unfold zapping_standard_initial, zapping_project1_initial, home_initial,
    ready_initial.
  pose proof finishes_send_then_sleep. pose proof finishes_sleep_then_send.
  pose proof (fun d => proj1 (finishes_launchers d "" "")).
  split; [|split; [|split]]; unfold_steps; finish.
Qed.

Lemma one_pass_ends fuel fam initial_sequence steps initial_time duration L w :
  finishes initial_sequence ->
  behaves any_event anywhere initial_sequence ->
  Forall (fun func : Step => forall device, finishes (func device)) steps ->
  Forall (fun func : Step => forall device, behaves any_event anywhere (func device))
         steps ->
  duration <= 10 * Z.of_nat fuel ->
  initial_time <= clock w ->
  one_pass (S fuel) fam initial_sequence steps initial_time duration L w
  <> OutOfFuel.
Proof.
  intros Hfin Hbeh Hsfin Hsbeh Hfuel Hnow H. unfold one_pass in H.
  apply bind_OutOfFuel_inv in H. destruct H as [H|(L1 & w1 & E1 & H)].
  - assert (Hf : finishes (if need_initial_sequence L
                           then initial_sequence ;;
                                ret (mkLocals (loop L) false (reconnected L))
                           else ret L)) by finish.
    exact (Hf w H).
  - apply initial_part_later in E1; [|exact Hbeh].
    apply bind_OutOfFuel_inv in H. destruct H as [H|(L2 & w2 & _ & H)].
    + revert H. apply for_steps_ends; auto. lia.
    + assert (Hf : finishes (count_pass L2)) by (unfold count_pass; finish).
      exact (Hf w2 H).
Qed.

Lemma standby_recover_ends fuel initial_time duration w :
  duration <= 10 * Z.of_nat fuel ->
  initial_time <= clock w ->
  standby_recover (S fuel) initial_time duration w <> OutOfFuel.
Proof.
  intros Hfuel Hnow H. unfold standby_recover in H.
  unfold bind at 1 in H. unfold get_ip in H.
  unfold bind at 1 in H. unfold get_port in H.
  apply bind_OutOfFuel_inv in H. destruct H as [H|(r & w1 & _ & H)].
  - revert H. apply (reconnect_ends Standard); assumption.
  - discriminate H.
Qed.

Lemma standby_pass_ends fuel initial_time duration L w :
  duration <= 10 * Z.of_nat fuel ->
  initial_time <= clock w ->
  standby_pass (S fuel) initial_time duration L w <> OutOfFuel.
Proof.
  intros Hfuel Hnow H. unfold standby_pass in H.
  apply bind_OutOfFuel_inv in H. destruct H as [H|(L1 & w1 & E1 & H)].
  { destruct (need_initial_sequence L); discriminate H. }
  apply (initial_part_later (f_log LInitialReady)) in E1;
    [|apply behaves_f_log; intro; exact I].
  apply bind_OutOfFuel_inv in H. destruct H as [H|(dev & w2 & Edev & H)].
  { exact (finishes_the_device _ H). }
  assert (w2 = w1) as ->
      by (unfold the_device in Edev; destruct (self_device w1);
          inversion Edev; reflexivity).
  apply bind_OutOfFuel_inv in H. destruct H as [H|(slept & w3 & Ekey & H)].
  { exact (finishes_send_then_sleep _ _ _ _ _ H). }
  apply send_then_sleep_later in Ekey; [|lia]. destruct Ekey as [Hc3 _].
  destruct slept; cbn [negb] in H.
  - apply bind_OutOfFuel_inv in H. destruct H as [H|(dev' & w4 & Edev' & H)].
    { exact (finishes_the_device _ H). }
    assert (w4 = w3) as ->
        by (unfold the_device in Edev'; destruct (self_device w3);
            inversion Edev'; reflexivity).
    apply bind_OutOfFuel_inv in H. destruct H as [H|(woke & w5 & Ewake & H)].
    { exact (finishes_send_then_sleep _ _ _ _ _ H). }
    apply send_then_sleep_later in Ewake; [|lia]. destruct Ewake as [Hc5 _].
    destruct woke; cbn [negb] in H.
    + rewrite bind_f_log in H. discriminate H.
    + revert H. apply standby_recover_ends; [assumption|lia].
  - revert H. apply standby_recover_ends; [assumption|lia].
Qed.

Lemma test_pass_ends t fuel initial_time duration L w :
  duration <= 10 * Z.of_nat fuel ->
  initial_time <= clock w ->
  test_pass t (S fuel) initial_time duration L w <> OutOfFuel.
Proof.
  intros Hfuel Hnow.
  pose proof (behaves_initial_sequences any_event anywhere any_ordinary)
    as (Hzs & Hzp & Hhome & Hready).
  pose proof initial_sequences_finish as (Fzs & Fzp & Fhome & Fready).
  pose proof (steps_behave t) as Hb. pose proof (steps_finish t) as Hf.
  destruct t; cbn [test_pass test_steps] in *;
    try (apply one_pass_ends; assumption).
  apply standby_pass_ends; assumption.
Qed.

Lemma test_loop_ends t fuel initial_time duration passes :
  duration <= 10 * Z.of_nat fuel ->
  forall L w,
    initial_time <= clock w ->
    initial_time + duration - clock w <= 3 * Z.of_nat passes ->
    while_before_deadline (S passes) (test_pass t (S fuel) initial_time duration)
                          initial_time duration L w
    <> OutOfFuel.
Proof.
  intro Hfuel.
  induction passes as [|passes IH]; intros L w Hnow Hpasses H;
    cbn [while_before_deadline] in H; rewrite bind_time_time in H;
    (destruct (clock w - initial_time <? duration) eqn:Echeck;
     [|discriminate H]); apply Z.ltb_lt in Echeck; [lia|].
  apply bind_OutOfFuel_inv in H. destruct H as [H|(L1 & w1 & Epass & H)].
  - revert H. apply test_pass_ends; assumption.
  - apply test_pass_advances in Epass.
    revert H. apply IH; lia.
Qed.

Lemma finishes_f_setup_logging test_name : finishes (f_setup_logging test_name).
Proof. unfold f_setup_logging. finish. Qed.

Lemma finishes_f_get_connection_info : finishes f_get_connection_info.
Proof.
  unfold f_get_connection_info, f_list_connected_devices, custom_duration, py_int.
  finish.
Qed.

Lemma finishes_f_disable_cec device : finishes (f_disable_cec device).
Proof.
  assert (forall args ok failed, finishes (cec_method device args ok failed))
    by (intros; unfold cec_method; finish).
  unfold f_disable_cec. finish.
Qed.

Lemma finishes_f_initialize_device : finishes f_initialize_device.
Proof.
  unfold f_initialize_device.
  pose proof finishes_f_connect_device. pose proof finishes_connected_and_ready.
  pose proof finishes_f_disable_cec. finish.
Qed.

Lemma try_except_OutOfFuel {A} (m : M A) (h : Exn -> M A) catches w :
  (forall e, finishes (h e)) ->
  try_except m catches h w = OutOfFuel -> m w = OutOfFuel.
Proof.
  intros Hh. unfold try_except.
  destruct (m w) as [a w1|e w1|c w1|]; try discriminate; [|reflexivity].
  destruct (catches e); [|discriminate]. intro H. destruct (Hh e w1 H).
Qed.

Lemma test_frame_ends title label t passes fuel w :
  432000 <= 3 * Z.of_nat passes ->
  432000 <= 10 * Z.of_nat fuel ->
  test_frame title label
    (fun initial_time duration =>
       while_before_deadline (S passes) (test_pass t (S fuel) initial_time duration)
                             initial_time duration start_locals) w
  <> OutOfFuel.
Proof.
  intros Hpasses Hfuel H. unfold test_frame in H.
  rewrite bind_f_log in H. unfold bind at 1 in H. unfold getenv_STY in H.
  destruct (negb _).
  { rewrite bind_print, bind_time_sleep, bind_clear_screen in H. discriminate H. }
  apply bind_OutOfFuel_inv in H. destruct H as [H|(logging & w1 & _ & H)];
    [exact (finishes_f_setup_logging _ _ H)|].
  destruct (negb logging); [discriminate H|].
  apply bind_OutOfFuel_inv in H. destruct H as [H|(r & w2 & Einfo & H)];
    [exact (finishes_f_get_connection_info _ H)|].
  pose proof (f_get_connection_info_ends w1) as Hinfo.
  rewrite Einfo in Hinfo. cbn [ends_with] in Hinfo. destruct Hinfo as [_ Hd].
  destruct r as [duration|]; [|discriminate H]. destruct Hd as [Hd _].
  apply bind_OutOfFuel_inv in H. destruct H as [H|(initialized & w3 & _ & H)];
    [exact (finishes_f_initialize_device _ H)|].
  destruct (negb initialized); [discriminate H|].
  rewrite bind_time_time in H. unfold bind at 1 in H.
  unfold set_error_already_shown in H.
  apply bind_OutOfFuel_inv in H. destruct H as [H|(u & w4 & _ & H)];
    [|discriminate H].
  apply try_except_OutOfFuel in H; [|intros e w5; discriminate].
  apply bind_OutOfFuel_inv in H. destruct H as [H|(L & w5 & _ & H)];
    [|discriminate H].
  revert H. apply test_loop_ends; cbn [clock with_error_shown]; lia.
Qed.

Lemma run_test_eq t passes fuel :
  exists title label,
    run_test t passes fuel =
    test_frame title label
      (fun initial_time duration =>
         while_before_deadline passes (test_pass t fuel initial_time duration)
                               initial_time duration start_locals).
Proof. destruct t; do 2 eexists; reflexivity. Qed.

(** X12.  Every test ends, whatever the device answers and the operator
    types.  The duration is 432000 seconds at most; a pass of a test
    that comes back has taken three seconds or more, a round of the
    standby wait ten and a round of a reconnection fifteen.  So with
    fuel for 144000 passes and for 43200 rounds no loop of a test is
    left running: the test returns, raises, or leaves the process. *)
Theorem every_test_ends :
  forall t passes fuel w,
    144000 < Z.of_nat passes ->
    43200 < Z.of_nat fuel ->
    run_test t passes fuel w <> OutOfFuel.
Proof.
  intros t passes fuel w Hpasses Hfuel.
  destruct passes as [|passes]; [lia|]. destruct fuel as [|fuel]; [lia|].
  destruct (run_test_eq t (S passes) (S fuel)) as (title & label & ->).
  apply test_frame_ends; lia.
Qed.

(** An apps test against a device that answers nothing useful. *)
Lemma every_test_ends_witness :
  let w := fresh_world (scripted [] refusal) (typed ["apps"; "10.0.0.7"; "3"; "60"]) in
  let passes := Z.to_nat 144001 in
  let fuel := Z.to_nat 43201 in
  (144000 < Z.of_nat passes /\ 43200 < Z.of_nat fuel) /\
  run_test Apps passes fuel w <> OutOfFuel.
Proof.
  intros w passes fuel.
  assert (Hpasses : 144000 < Z.of_nat passes) by (unfold passes; lia).
  assert (Hfuel : 43200 < Z.of_nat fuel) by (unfold fuel; lia).
  split; [split; assumption|].
  apply (every_test_ends Apps passes fuel w Hpasses Hfuel).
Defined.


(** ** The standby check before a step *)

Lemma polled_last device initial_time duration t polls :
  polled device initial_time duration t polls ->
  exists before t' r,
    polls = before ++ [(t', EProc (dumpsys_cmd device) (Some 5) r)] /\
    answer_standby r = false.
Proof.
  induction 1 as [t r Hr|t r rest Hr Hd Hrest IH].
  - exists [], t, r. auto.
  - destruct IH as (before & t' & r' & -> & Hr').
    exists ((t, EProc (dumpsys_cmd device) (Some 5) r)
              :: (t + fst (run_result false (Some 5) r), ESleep 10) :: before), t', r'.
    auto.
Qed.

Lemma standby_gate_returns fuel device initial_time duration w u wa :
  standby_gate fuel device initial_time duration w = Ret u wa ->
  exists gate, trace wa = trace w ++ gate /\ gate_open device gate.
Proof.
  intro H. unfold standby_gate in H.
  apply bind_Ret_inv in H. destruct H as (standby & w1 & Epoll & H).
  rewrite f_is_in_standby_eq in Epoll. apply Ret_inj in Epoll.
  destruct Epoll as [<- <-].
  destruct (answer_standby (procs w (nproc w))) eqn:Eanswer.
  - rewrite f_wait_standby_exit_eq in H.
    destruct (wait_standby_loop _ _ _ _ _) as [u2 w2| | |] eqn:Eloop;
      try discriminate H.
    apply Ret_inj in H. destruct H as [_ <-].
    apply wait_standby_loop_returns in Eloop. destruct Eloop as (polls & Et & Hp).
    apply polled_last in Hp. destruct Hp as (before & t' & r & -> & Hr).
    eexists. split.
    + cbn [trace logged with_trace]. rewrite Et.
      cbn [trace logged after_run with_trace with_clock with_nproc].
      rewrite <- !app_assoc. reflexivity.
    + exists ([(clock w, EProc (dumpsys_cmd device) (Some 5) (procs w (nproc w)))]
                ++ [(clock w + fst (run_result false (Some 5) (procs w (nproc w))),
                     ELog LStandbyWaiting)] ++ before), t', r.
      eexists. split; [rewrite <- !app_assoc; cbn [app]; reflexivity|].
      split; [exact Hr|]. right. eexists. reflexivity.
  - unfold ret in H. apply Ret_inj in H. destruct H as [_ <-].
    eexists. split; [reflexivity|].
    exists [], (clock w), (procs w (nproc w)), []. auto.
Qed.

(** X13.  Whichever the family, a step sent through the check is
    dispatched only after the standby check has come back, and its trace
    then ends with a poll that did not find the device in standby, with
    at most the closing line of the standby wait after it.  A step that
    goes through ends the call with the session unchanged and
    [reconnected = False]; a step that fails hands over to the
    reconnection routine of the family. *)
Theorem step_dispatched_after_standby_check :
  forall fam fuel (func : Step) device ip port initial_time duration w r w',
    check_and_send fam fuel func device ip port initial_time duration w = Ret r w' ->
    exists gate wa ok wb,
      trace wa = trace w ++ gate /\ gate_open device gate /\
      func device wa = Ret ok wb /\
      if ok then r = (device, false) /\ w' = wb
      else reconnect fam fuel ip port initial_time duration wb = Ret r w'.
Proof.
  intros fam fuel func device ip port initial_time duration w r w' H.
  rewrite check_and_send_eq in H.
  apply bind_Ret_inv in H. destruct H as (u & wa & Egate & H).
  apply standby_gate_returns in Egate. destruct Egate as (gate & Et & Hgate).
  apply bind_Ret_inv in H. destruct H as (ok & wb & Efunc & H).
  exists gate, wa, ok, wb. repeat (split; [assumption|]).
  destruct ok; cbn [negb] in H; [|exact H].
  unfold ret in H. apply Ret_inj in H. destruct H as [<- <-]. auto.
Qed.

(** The device is asleep at the check and awake at the next poll. *)
Lemma step_dispatched_after_standby_check_witness :
  let w := connected_world 100
             (scripted [answer "mWakefulness=Asleep"; answer "mWakefulness=Awake"]
                       (answer ""))
             (typed []) false in
  exists r w' gate wa wb,
    check_and_send Standard 2 f_send_ok_key "10.0.0.7:5555" "10.0.0.7" 5555 0 1000 w
    = Ret r w' /\
    trace wa = trace w ++ gate /\ gate_open "10.0.0.7:5555" gate /\
    f_send_ok_key "10.0.0.7:5555" wa = Ret true wb /\
    r = ("10.0.0.7:5555", false) /\ w' = wb.
Proof.
  intro w.
  destruct (check_and_send Standard 2 f_send_ok_key "10.0.0.7:5555" "10.0.0.7" 5555
              0 1000 w) as [[d b] w'| | |] eqn:E;
    try (vm_compute in E; discriminate E).
  assert (Hb : b = false).
  { pose proof E as E'. vm_compute in E'. injection E' as _ Hb _. symmetry. exact Hb. }
  destruct (step_dispatched_after_standby_check
              Standard 2 f_send_ok_key "10.0.0.7:5555" "10.0.0.7" 5555 0 1000
              w (d, b) w' E) as (gate & wa & ok & wb & Et & Hg & Ef & H).
  destruct ok.
  - destruct H as [H ->]. exists (d, b), wb, gate, wa, wb.
    repeat (split; [assumption || reflexivity|]). reflexivity.
  - apply (reconnect_returns Standard) in H. destruct H as (Hb' & _). congruence.
Defined.

(** ** The environment during a test *)

Lemma keeps_environment_setters :
  (forall d, keeps same_environment (set_device d)) /\
  (forall i, keeps same_environment (set_ip i)) /\
  (forall p, keeps same_environment (set_port p)) /\
  (forall p, keeps same_environment (set_log_path p)).
Proof. unfold keeps, same_environment. repeat split. Qed.

(** Proves that code keeps the environment. *)
Ltac keep_environment :=
  pose proof untouched_same_environment;
  pose proof (proj1 keeps_environment_setters);
  pose proof (proj1 (proj2 keeps_environment_setters));
  pose proof (proj1 (proj2 (proj2 keeps_environment_setters)));
  pose proof (proj2 (proj2 (proj2 keeps_environment_setters)));
  keep.

Lemma keeps_environment_for_steps fuel fam initial_time duration steps :
  Forall (fun func : Step => forall device, keeps same_environment (func device))
         steps ->
  forall L, keeps same_environment (for_steps fuel fam steps initial_time duration L).
Proof.
  induction 1 as [|func rest Hfunc Hrest IH]; intro L; cbn [for_steps].
  - keep_environment.
  - pose proof (fun dev ip port =>
                  keeps_check_and_send same_environment untouched_same_environment
                    fam fuel func dev ip port initial_time duration (Hfunc dev)).
    keep_environment.
Qed.

Lemma keeps_environment_test_pass t fuel initial_time duration L :
  keeps same_environment (test_pass t fuel initial_time duration L).
Proof.
  pose proof (keeps_initial_sequences same_environment untouched_same_environment)
    as (Hzs & Hzp & Hhome & Hready).
  pose proof (keeps_steps same_environment untouched_same_environment t) as Hsteps.
  pose proof (keeps_send_then_sleep same_environment untouched_same_environment).
  pose proof (keeps_reconnect same_environment untouched_same_environment Standard)
    as Hrec. cbn [reconnect] in Hrec.
  destruct t; cbn [test_pass test_steps] in *;
    try (unfold one_pass, count_pass;
         pose proof (keeps_environment_for_steps fuel Standard initial_time duration
                       _ Hsteps);
         pose proof (keeps_environment_for_steps fuel Project1 initial_time duration
                       _ Hsteps);
         keep_environment).
  unfold standby_pass, standby_recover, f_send_standby_key, f_send_wake_up_key.
  keep_environment.
Qed.

Lemma keeps_environment_while passes pass initial_time duration :
  (forall L, keeps same_environment (pass L)) ->
  forall L, keeps same_environment
              (while_before_deadline passes pass initial_time duration L).
Proof.
  intro Hpass. induction passes as [|passes IH]; intro L; cbn [while_before_deadline].
  - intro w. exact I.
  - keep_environment.
Qed.

Lemma keeps_environment_run_test t passes fuel :
  keeps same_environment (run_test t passes fuel).
Proof.
  destruct (run_test_eq t passes fuel) as (title & label & ->).
  pose proof (fun i d => keeps_environment_while passes
                           (test_pass t fuel i d) i d
                           (keeps_environment_test_pass t fuel i d)) as Hloop.
  pose proof (keeps_f_connect_device same_environment untouched_same_environment).
  pose proof (keeps_connected_and_ready same_environment untouched_same_environment).
  pose proof (keeps_f_disable_cec same_environment untouched_same_environment).
  unfold test_frame, f_setup_logging, f_get_connection_info,
    f_list_connected_devices, custom_duration, py_int, f_initialize_device.
  keep_environment.
Qed.

(** ** The menus *)

Lemma menu_ok_bind r {A B} (m : MenuM A) (k : A -> MenuM B) c :
  menu_ok r (m c) ->
  (forall a c1, sty (tester c1) = true -> menu_ok r (k a c1)) ->
  menu_ok r (menu_bind m k c).
Proof.
  unfold menu_bind. intros Hm Hk.
  destruct (m c) as [a c1|e c1|code c1|]; auto.
Qed.

Lemma menu_ok_try r {A} (m : MenuM A) (h : Exn -> MenuM A) c :
  menu_ok true (m c) ->
  (forall e c1, sty (tester c1) = true -> menu_ok r (h e c1)) ->
  menu_ok r (menu_try m h c).
Proof.
  unfold menu_try. intros Hm Hh.
  destruct (m c) as [a c1|e c1|code c1|]; auto.
  destruct Hm as [_ Hm]. auto.
Qed.

Lemma menu_ok_weaken {A} (o : MenuOutcome A) : menu_ok false o -> menu_ok true o.
Proof. destruct o; cbn; auto. intros [H _]. discriminate H. Qed.

Lemma menu_ok_print r t c : sty (tester c) = true -> menu_ok r (menu_print t c).
Proof. intro H. exact H. Qed.

Lemma menu_ok_ret r {A} (a : A) c : sty (tester c) = true -> menu_ok r (menu_ret a c).
Proof. intro H. exact H. Qed.

Lemma menu_ok_lift {A} (m : M A) c :
  keeps same_environment m ->
  behaves any_event anywhere m ->
  sty (tester c) = true ->
  menu_ok true (lift m c).
Proof.
  intros Hk Hb Hsty. unfold lift. specialize (Hk (tester c)). specialize (Hb (tester c)).
  unfold ends_well in Hb.
  destruct (m (tester c)) as [a w|e w|code w|]; cbn [menu_ok ends_in tester] in *;
    try destruct Hk as (_ & _ & ->); auto.
  destruct Hb as [-> _]. auto.
Qed.

Lemma menu_ok_lift_test t passes fuel c :
  sty (tester c) = true -> menu_ok true (lift (run_test t passes fuel) c).
Proof.
  apply menu_ok_lift;
    [apply keeps_environment_run_test|apply behaves_any_run_test].
Qed.

Lemma menu_ok_pause r secs c :
  sty (tester c) = true ->
  menu_ok r ((lift (time_sleep secs) ;; lift clear_screen ;; menu_ret Continue)%menu c).
Proof. intro H. exact H. Qed.

Lemma menu_ok_project_menu_body project (zapping navigation : Test) passes fuel c :
  sty (tester c) = true ->
  menu_ok false (project_menu_body project (run_test zapping passes fuel)
                                   (run_test navigation passes fuel) passes fuel c).
Proof.
  intro Hsty. unfold project_menu_body.
  apply menu_ok_bind; [apply menu_ok_print; exact Hsty|]. intros _ c1 H1.
  apply menu_ok_try.
  - apply menu_ok_bind.
    + apply menu_ok_lift; [keep_environment|behave; exact I|exact H1].
    + intros line c2 H2. cbv zeta.
      destruct (String.eqb (PyStr.strip line) "1").
      { apply menu_ok_bind; [apply (menu_ok_lift_test zapping); exact H2|].
        intros; apply menu_ok_ret; assumption. }
      destruct (String.eqb (PyStr.strip line) "2").
      { apply menu_ok_bind; [apply (menu_ok_lift_test navigation); exact H2|].
        intros; apply menu_ok_ret; assumption. }
      destruct (String.eqb (PyStr.strip line) "3").
      { apply menu_ok_bind; [apply (menu_ok_lift_test Apps); exact H2|].
        intros; apply menu_ok_ret; assumption. }
      destruct (String.eqb (PyStr.strip line) "4").
      { apply menu_ok_bind; [apply (menu_ok_lift_test StandbyWakeup); exact H2|].
        intros; apply menu_ok_ret; assumption. }
      destruct (String.eqb (PyStr.strip line) "5").
      { apply menu_ok_bind; [apply (menu_ok_lift_test VolumeControl); exact H2|].
        intros; apply menu_ok_ret; assumption. }
      destruct (String.eqb (PyStr.strip line) "0").
      { apply menu_ok_ret. exact H2. }
      apply menu_ok_bind; [apply menu_ok_print; exact H2|]. intros _ c3 H3.
      apply menu_ok_pause. exact H3.
  - intros e c2 H2.
    apply menu_ok_bind; [apply menu_ok_print; exact H2|]. intros _ c3 H3.
    apply menu_ok_pause. exact H3.
Qed.

Lemma menu_ok_loop r rounds (body : MenuM LoopNext) :
  (forall c, sty (tester c) = true -> menu_ok r (body c)) ->
  forall c, sty (tester c) = true -> menu_ok r (menu_loop rounds body c).
Proof.
  intro Hbody. induction rounds as [|rounds IH]; intros c Hsty; [exact I|].
  cbn [menu_loop]. apply menu_ok_bind; [apply Hbody; exact Hsty|].
  intros next c1 H1. destruct next; [apply IH; exact H1|exact H1].
Qed.

Lemma menu_ok_project_menus rounds passes fuel c :
  sty (tester c) = true ->
  menu_ok false (f_menu_project1 rounds passes fuel c) /\
  menu_ok false (f_menu_project2 rounds passes fuel c) /\
  menu_ok false (f_menu_project3 rounds passes fuel c).
Proof.
  intro Hsty. unfold f_menu_project1, f_menu_project2, f_menu_project3.
  split; [|split]; apply menu_ok_loop; try exact Hsty; intros c0 H0.
  - apply (menu_ok_project_menu_body 1 ZappingProject1 NavigationProject1). exact H0.
  - apply (menu_ok_project_menu_body 2 ZappingStandard NavigationProject2). exact H0.
  - apply (menu_ok_project_menu_body 3 ZappingStandard NavigationProject3). exact H0.
Qed.

Lemma menu_ok_main_body rounds passes fuel c :
  sty (tester c) = true -> menu_ok false (main_body rounds passes fuel c).
Proof.
  intro Hsty. unfold main_body.
  apply menu_ok_bind.
  { unfold f_show_menu, menu_bind, lift, getenv_STY. cbn [tester].
    rewrite Hsty. cbn. exact Hsty. }
  intros _ c1 H1.
  apply menu_ok_try.
  - apply menu_ok_bind.
    + apply menu_ok_lift; [keep_environment|behave; exact I|exact H1].
    + intros line c2 H2. cbv zeta.
      destruct (menu_ok_project_menus rounds passes fuel c2 H2) as (Hp1 & Hp2 & Hp3).
      destruct (String.eqb (PyStr.strip line) "1").
      { apply menu_ok_bind; [apply menu_ok_weaken; exact Hp1|].
        intros; apply menu_ok_ret; assumption. }
      destruct (String.eqb (PyStr.strip line) "2").
      { apply menu_ok_bind; [apply menu_ok_weaken; exact Hp2|].
        intros; apply menu_ok_ret; assumption. }
      destruct (String.eqb (PyStr.strip line) "3").
      { apply menu_ok_bind; [apply menu_ok_weaken; exact Hp3|].
        intros; apply menu_ok_ret; assumption. }
      destruct (String.eqb (PyStr.strip line) "0").
      { apply menu_ok_bind; [apply menu_ok_print; exact H2|].
        intros; apply menu_ok_ret; assumption. }
      apply menu_ok_bind; [apply menu_ok_print; exact H2|]. intros _ c3 H3.
      apply menu_ok_pause. exact H3.
  - intros e c2 H2.
    apply menu_ok_bind; [apply menu_ok_print; exact H2|]. intros _ c3 H3.
    exact H3.
Qed.

Lemma f_main_in_screen rounds passes fuel w :
  sty w = true -> menu_ok false (f_main rounds passes fuel (start w)).
Proof.
  intro Hsty. unfold f_main.
  apply menu_ok_bind; [exact Hsty|]. intros _ c1 H1.
  apply menu_ok_loop; [|exact H1].
  intros c H. apply menu_ok_main_body. exact H.
Qed.

Lemma f_main_without_screen rounds passes fuel w :
  sty w = false ->
  exists c,
    f_main (S rounds) passes fuel (start w) = MExit 1 c /\
    menu_lines c = [(clock w, MScreenMust)] /\
    trace (tester c) = trace w /\ nproc (tester c) = nproc w /\
    ninput (tester c) = ninput w.
Proof.
  intro Hsty. unfold f_main. cbn [menu_loop]. unfold main_body, f_show_menu.
  unfold menu_bind, lift, new_tester, getenv_STY, start. cbn. rewrite Hsty. cbn.
  eexists. split; [reflexivity|]. repeat split.
Qed.


Example program_closed_from_the_menu :
  let o := f_main 3 1 1 (start (fresh_world (scripted [] refusal)
                                            (typed ["2"; "0"; " 0 "]))) in
  menu_status o = Some 0 /\
  match o with
  | MRet _ c => map snd (menu_lines c) = [MMainMenu; MProjectMenu 2; MMainMenu; MClosing]
  | _ => False
  end.
Proof. split; vm_compute; reflexivity. Qed.

Example deadline_ends_the_program :
  let w := fresh_world
             (scripted [answer "List of devices attached";
                        answer "connected to 10.0.0.7:5555"; answer "device";
                        answer ""; answer ""; answer ""; answer ""; answer "";
                        answer ""; answer ""; answer ""; answer ""; answer "";
                        answer "mWakefulness=Asleep"]
                       (answer "mWakefulness=Asleep"))
             (typed ["1"; "5"; "soak"; "10.0.0.7"; "3"; "60"]) in
  menu_status (f_main 2 3 9 (start w)) = Some 0 /\
  match f_main 2 3 9 (start w) with MExit _ _ => True | _ => False end.
Proof. split; vm_compute; reflexivity. Qed.

Lemma menu_loop_goes_on (I : Console -> Prop) (body : MenuM LoopNext) :
  (forall c, I c -> exists c', body c = MRet Continue c' /\ I c') ->
  forall rounds c, I c -> menu_loop rounds body c = MOutOfFuel.
Proof.
  intros Hbody. induction rounds as [|rounds IH]; intros c Hc; [reflexivity|].
  cbn [menu_loop]. unfold menu_bind.
  destruct (Hbody c Hc) as (c' & -> & Hc'). apply IH. exact Hc'.
Qed.

Lemma project_menu_body_at_end_of_input project zapping navigation passes fuel c :
  input_over (tester c) ->
  exists c',
    project_menu_body project zapping navigation passes fuel c = MRet Continue c' /\
    input_over (tester c') /\ sty (tester c') = sty (tester c) /\
    nproc (tester c') = nproc (tester c).
Proof.
  intro Hover.
  assert (Hin : inputs (tester c) (ninput (tester c)) = None) by (apply Hover; lia).
  unfold project_menu_body, menu_bind, menu_try, menu_print, lift, input.
  cbn [tester menu_lines]. rewrite Hin.
  eexists. split; [reflexivity|]. cbn. split; [|split; reflexivity].
  intros n Hn. apply Hover. cbn in Hn. lia.
Qed.

Lemma main_body_at_end_of_input rounds passes fuel c :
  sty (tester c) = true ->
  input_over (tester c) ->
  exists c',
    main_body rounds passes fuel c = MRet Continue c' /\
    (sty (tester c') = true /\ input_over (tester c')) /\
    nproc (tester c') = nproc (tester c).
Proof.
  intros Hsty Hover.
  assert (Hin : inputs (tester c) (ninput (tester c)) = None) by (apply Hover; lia).
  unfold main_body, f_show_menu, menu_bind, menu_try, menu_print, lift, input,
    getenv_STY.
  cbn [tester menu_lines]. rewrite Hsty. cbn [negb clear_screen emit tester menu_lines].
  cbn [inputs ninput with_trace]. rewrite Hin.
  eexists. split; [reflexivity|]. cbn. split; [split; [exact Hsty|]|reflexivity].
  intros n Hn. apply Hover. cbn in Hn. lia.
Qed.



(** ** The reconnection of the standby test *)

Lemma ordinary_not_project1_attempt t e :
  ordinary e = true -> not_project1_attempt (t, e).
Proof.
  unfold not_project1_attempt. cbn [snd]. intros H ->. discriminate H.
Qed.

(** Proves that code [behaves] when no event it leaves is the opening
    line of the Project 1 routine. *)
Ltac standard_only :=
  behave; try (unfold not_project1_attempt; cbn [snd]; discriminate).

Lemma behaves_standard_while (P : Z * Event -> Prop) (E : World -> Prop)
    passes pass initial_time duration :
  (forall L, behaves P E (pass L)) ->
  forall L, behaves P E (while_before_deadline passes pass initial_time duration L).
Proof.
  intro Hpass. induction passes as [|passes IH]; intro L; cbn [while_before_deadline].
  - intro w. exact I.
  - pose proof (Hpass L). behave.
Qed.

Lemma behaves_standard_standby_pass fuel initial_time duration L :
  behaves not_project1_attempt anywhere (standby_pass fuel initial_time duration L).
Proof.
  unfold standby_pass, standby_recover.
  assert (Hkeys : forall dev,
             behaves not_project1_attempt anywhere (f_send_standby_key dev) /\
             behaves not_project1_attempt anywhere (f_send_wake_up_key dev)).
  { intro dev.
    destruct (behaves_key_steps not_project1_attempt anywhere dev
                ordinary_not_project1_attempt) as (_ & _ & _ & Hs & Hw). auto. }
  assert (Hrec : forall ip port,
             behaves not_project1_attempt anywhere
               (f_reconnect_and_reinitialize fuel ip port initial_time duration)).
  { intros ip port. unfold f_reconnect_and_reinitialize.
    apply behaves_bind; [standard_only|]. intros _.
    apply reconnect_loop_behaves.
    - exact ordinary_not_project1_attempt.
    - intros; exact I.
    - intros. unfold not_project1_attempt. cbn [snd]. discriminate. }
  apply behaves_bind; [standard_only|]. intro L1.
  apply behaves_bind; [apply behaves_the_device|]. intro dev.
  apply behaves_bind; [apply Hkeys|]. intro slept.
  destruct (negb slept); [pose proof Hrec; standard_only|].
  apply behaves_bind; [apply behaves_the_device|]. intro dev'.
  apply behaves_bind; [apply Hkeys|]. intro woke.
  destruct (negb woke); [pose proof Hrec; standard_only|standard_only].
Qed.

Lemma behaves_standard_setup :
  (forall test_name, behaves not_project1_attempt anywhere (f_setup_logging test_name)) /\
  behaves not_project1_attempt anywhere f_get_connection_info /\
  behaves not_project1_attempt anywhere f_initialize_device.
Proof.
  split; [|split].
  - intro test_name. unfold f_setup_logging. standard_only.
  - unfold f_get_connection_info, f_list_connected_devices, custom_duration, py_int.
    standard_only.
  - unfold f_initialize_device.
    assert (forall ip port,
               behaves not_project1_attempt anywhere (f_connect_device ip port)).
    { intros ip port w. apply f_connect_device_ends.
      - exact ordinary_not_project1_attempt.
      - unfold not_project1_attempt. cbn [snd]. discriminate. }
    pose proof (behaves_connected_and_ready not_project1_attempt anywhere
                  ordinary_not_project1_attempt).
    assert (forall device,
               behaves not_project1_attempt anywhere (f_disable_cec device)).
    { intro device. unfold f_disable_cec, cec_method. standard_only. }
    standard_only.
Qed.

(** X16.  The standby test recovers the standard way, from whichever menu
    it is started: however it runs and ends, it does not write the
    opening line of the Project 1 reconnection routine; and it leaves
    the process only with status 0. *)
Theorem standby_test_recovers_the_standard_way :
  forall passes fuel,
    behaves not_project1_attempt anywhere (run_test StandbyWakeup passes fuel).
Proof.
  intros passes fuel. cbn [run_test]. unfold f_test_standby_wakeup, test_frame.
  destruct behaves_standard_setup as (Hlog & Hinfo & Hinit).
  pose proof (fun i d => behaves_standard_while not_project1_attempt anywhere
                           passes (standby_pass fuel i d) i d
                           (behaves_standard_standby_pass fuel i d)) as Hloop.
  standard_only.
Qed.

Example standby_test_from_project1_menu :
  let w := fresh_world
             (scripted [answer "List of devices attached";
                        answer "connected to 10.0.0.7:5555"; answer "device";
                        answer ""; answer ""; answer ""; answer ""; answer "";
                        answer ""; answer ""; answer ""; answer "";
                        refusal; answer "connected to 10.0.0.7:5555";
                        answer "device"]
                       (answer ""))
             (typed ["1"; "4"; "soak"; "10.0.0.7"; "3"; "200"; "0"; "0"]) in
  match f_main 3 9 2 (start w) with
  | MRet _ c =>
      (existsb (fun te => match snd te with
                          | ELog LReconnectAttempt => true
                          | _ => false
                          end) (trace (tester c)),
       existsb (fun te => match snd te with
                          | ELog LReconnectAttemptP1 => true
                          | _ => false
                          end) (trace (tester c))) = (true, false)
  | _ => False
  end.
Proof. vm_compute. reflexivity. Qed.
